(** * EngGameHub: authentication and session-token lifecycle

    A shallow embedding of [PasswordService]
    (backend/src/auth/services/password.service.ts), [TokenService]
    (backend/src/auth/services/token.service.ts) and the use cases of
    [AuthService] (auth.service.ts), followed by the properties the
    design document states about them.

    Conventions.
    - A JavaScript string handled character by character (a password, an
      e-mail address, a cache key) is a [string]: a sequence of code units
      below 256.  Case conversion on that range is the Latin-1 part of the
      Unicode mapping.
    - Time is [Z], in milliseconds since the epoch, as [Date.now()] gives it.
      Every operation receives the instant [now] at which it runs.
    - [uuidv4()] and [Math.random()] are inputs of the operation that
      draws from them.
    - Code that throws returns [Throw e]; effects performed before the
      throw stay in the state. *)

From Stdlib Require Import ZArith QArith Qround String Ascii List Lia Permutation.
From stdpp Require Import base strings gmap list.

Local Open Scope string_scope.
Local Open Scope list_scope.
Local Open Scope Z_scope.

(** ** Errors and results *)

(** [shared/types.ts]: [AppError] subclasses, and the NestJS exceptions
    thrown by the use cases. *)
Inductive error : Type :=
  | ValidationError (message field : string)
  | UnauthorizedError (message : string)
  | BadRequestException (message : string)
  | ConflictException (message : string)
  | LibraryError (message : string).

Inductive outcome (A : Type) : Type :=
  | Ok (a : A)
  | Throw (e : error).
Arguments Ok {A} a.
Arguments Throw {A} e.

#[global] Instance error_eq_dec : EqDecision error.
Proof. solve_decision. Defined.

(** ** JavaScript string primitives *)

(** The characters of a string, first to last. *)
Abbreviation chars := list_ascii_of_string.

Module Js.

Definition code (c : ascii) : nat := nat_of_ascii c.

Definition between (lo hi : nat) (c : ascii) : bool :=
  (Nat.leb lo (code c) && Nat.leb (code c) hi)%bool.

(** [/[A-Z]/], [/[a-z]/] and [/\d/] on one character. *)
Definition isUpper (c : ascii) : bool := between 65 90 c.
Definition isLower (c : ascii) : bool := between 97 122 c.
Definition isDigit (c : ascii) : bool := between 48 57 c.

(** [String.prototype.toLowerCase] on one code unit below 256: A-Z, and
    the Latin-1 capitals U+00C0..U+00DE without the multiplication sign
    U+00D7, move up by 32. *)
Definition lowerChar (c : ascii) : ascii :=
  if (isUpper c || (between 192 222 c && negb (Nat.eqb (code c) 215)))%bool
  then ascii_of_nat (code c + 32)%nat
  else c.

Fixpoint toLowerCase (s : string) : string :=
  match s with
  | EmptyString => EmptyString
  | String c s' => String (lowerChar c) (toLowerCase s')
  end.

(** [regex.test(s)] for a regex that is one character class. *)
Fixpoint test (cls : ascii -> bool) (s : string) : bool :=
  match s with
  | EmptyString => false
  | String c s' => (cls c || test cls s')%bool
  end.

(** [s.includes(sub)]. *)
Fixpoint includes (s sub : string) : bool :=
  (String.prefix sub s ||
   match s with
   | EmptyString => false
   | String _ s' => includes s' sub
   end)%bool.

(** [s.substring(i, j)] for [i <= j]. *)
Definition substring (s : string) (i j : nat) : string :=
  String.substring i (j - i)%nat s.

(** [s.split('').reverse().join('')]. *)
Definition reverse (s : string) : string :=
  string_of_list_ascii (rev (list_ascii_of_string s)).

(** The suffix of [s] that starts at index [i]. *)
Fixpoint from (i : nat) (s : string) : string :=
  match i, s with
  | O, _ => s
  | S i', String _ s' => from i' s'
  | S _, EmptyString => EmptyString
  end.

(** [arr.includes(x)] on an array of strings. *)
Definition arrayIncludes (arr : list string) (x : string) : bool :=
  existsb (String.eqb x) arr.

(** [charset.charAt(i)]: the empty string outside the string. *)
Definition charAt (s : string) (i : Z) : string :=
  if i <? 0 then EmptyString
  else match String.get (Z.to_nat i) s with
       | Some c => String c EmptyString
       | None => EmptyString
       end.

(** White space removed by [trim] among the code units below 256. *)
Definition isSpace (c : ascii) : bool :=
  (between 9 13 c || Nat.eqb (code c) 32 || Nat.eqb (code c) 160)%bool.

Fixpoint trimStart (s : string) : string :=
  match s with
  | EmptyString => EmptyString
  | String c s' => if isSpace c then trimStart s' else s
  end.

Definition trim (s : string) : string :=
  reverse (trimStart (reverse (trimStart s))).

(** A template literal prints a missing value as [undefined]. *)
Definition show (o : option string) : string := default "undefined" o.

(** Truthiness of a possibly missing string. *)
Definition truthy (o : option string) : bool :=
  match o with
  | Some s => negb (String.eqb s "")
  | None => false
  end.

End Js.

(** ** PasswordService *)

Module PasswordService.

(** The characters of the symbol class of the complexity check: the
    thirteen before the double quote, the double quote (code 34), and
    the six after it. *)
Definition specialChars : string :=
  "!@#$%^&*(),.?" +:+ String (ascii_of_nat 34) ":{}|<>".

Definition isSpecialChar (c : ascii) : bool :=
  Js.test (Ascii.eqb c) specialChars.

Definition commonPasswords : list string :=
  [ "password"; "password123"; "123456"; "qwerty"; "abc123";
    "admin"; "root"; "user"; "guest"; "welcome"; "letmein" ].

Definition sequences : list string :=
  [ "abcdefghijklmnopqrstuvwxyz";
    "ABCDEFGHIJKLMNOPQRSTUVWXYZ";
    "0123456789";
    "qwertyuiop";
    "asdfghjkl";
    "zxcvbnm" ].

(** The indices of [for (let i = 0; i <= len - minLength; i++)]. *)
Definition windowStarts (len minLength : nat) : list nat :=
  seq 0 (len + 1 - minLength)%nat.

(** hasSequentialChars *)
Definition hasSequentialChars (password : string) (minLength : nat) : bool :=
  existsb (fun sequence =>
    existsb (fun i =>
      let substr := Js.substring sequence i (i + minLength)%nat in
      let reverseSubstr := Js.reverse substr in
      (Js.includes (Js.toLowerCase password) (Js.toLowerCase substr) ||
       Js.includes (Js.toLowerCase password) (Js.toLowerCase reverseSubstr))%bool)
      (windowStarts (String.length sequence) minLength))
    sequences.

(** The inner loop of hasRepeatingChars:
    [for (j = i + 1; j < password.length && password[j] === char; j++)],
    run on the suffix of the password that starts at [j]. *)
Fixpoint repeatLoop (char : ascii) (minLength count : nat) (rest : string) : bool :=
  match rest with
  | EmptyString => false
  | String d rest' =>
      if Ascii.eqb d char then
        if Nat.leb minLength (S count) then true
        else repeatLoop char minLength (S count) rest'
      else false
  end.

(** hasRepeatingChars *)
Definition hasRepeatingChars (password : string) (minLength : nat) : bool :=
  existsb (fun i =>
    match String.get i password with
    | Some char => repeatLoop char minLength 1 (Js.from (S i) password)
    | None => false
    end)
    (windowStarts (String.length password) minLength).

Definition countTrue (checks : list bool) : nat :=
  List.length (List.filter (fun b => b) checks).

(** validatePasswordStrength: [Ok tt] when it returns, the
    [ValidationError] it throws otherwise. *)
Definition validatePasswordStrength (password : string) : outcome unit :=
  let minLength := 8%nat in
  let maxLength := 128%nat in
  if Nat.ltb (String.length password) minLength then
    Throw (ValidationError "Password must be at least 8 characters long" "password")
  else if Nat.ltb maxLength (String.length password) then
    Throw (ValidationError "Password must not exceed 128 characters" "password")
  else
    let hasUpperCase := Js.test Js.isUpper password in
    let hasLowerCase := Js.test Js.isLower password in
    let hasNumbers := Js.test Js.isDigit password in
    let hasSpecialChar := Js.test isSpecialChar password in
    let complexityChecks := [hasUpperCase; hasLowerCase; hasNumbers; hasSpecialChar] in
    let passedChecks := countTrue complexityChecks in
    if Nat.ltb passedChecks 3 then
      Throw (ValidationError
        "Password must contain at least 3 of the following: uppercase letter, lowercase letter, number, special character"
        "password")
    else if Js.arrayIncludes commonPasswords (Js.toLowerCase password) then
      Throw (ValidationError
        "Password is too common. Please choose a more secure password" "password")
    else if hasSequentialChars password 3 then
      Throw (ValidationError
        "Password should not contain 3 or more sequential characters" "password")
    else if hasRepeatingChars password 3 then
      Throw (ValidationError
        "Password should not contain 3 or more repeating characters" "password")
    else Ok tt.

(** *** generateRandomPassword *)

Definition uppercase : string := "ABCDEFGHIJKLMNOPQRSTUVWXYZ".
Definition lowercase : string := "abcdefghijklmnopqrstuvwxyz".
Definition numbers : string := "0123456789".
Definition symbols : string := "!@#$%^&*()_+-=[]{}|;:,.<>?".
Definition allChars : string := uppercase +:+ lowercase +:+ numbers +:+ symbols.

(** A character of [symbols]. *)
Definition isSymbol (c : ascii) : bool := Js.test (Ascii.eqb c) symbols.

Section Random.

(** [random k] is the value of the [k]-th call of [Math.random()]. *)
Variable random : nat -> Q.

(** [arraySort cmp l] is [l.sort(f)] where the [n]-th call of [f]
    returns [cmp n]; which comparisons the engine makes is left to it. *)
Variable arraySort : (nat -> Q) -> list ascii -> list ascii.

(** getRandomChar, at the [k]-th draw. *)
Definition getRandomChar (charset : string) (k : nat) : string :=
  Js.charAt charset
    (Qfloor (random k * inject_Z (Z.of_nat (String.length charset)))).

(** [for (let i = 4; i < length; i++) password += getRandomChar(allChars)],
    with [n] iterations left and the next draw being the [k]-th. *)
Fixpoint fill (n k : nat) (password : string) : string :=
  match n with
  | O => password
  | S n' => fill n' (S k) (password +:+ getRandomChar allChars k)
  end.

Definition generateRandomPassword (length : Z) : string :=
  let password := "" in
  let password := password +:+ getRandomChar uppercase 0 in
  let password := password +:+ getRandomChar lowercase 1 in
  let password := password +:+ getRandomChar numbers 2 in
  let password := password +:+ getRandomChar symbols 3 in
  let iterations := Z.to_nat (length - 4) in
  let password := fill iterations 4 password in
  string_of_list_ascii
    (arraySort (fun n => (random (4 + iterations + n)%nat - (1 # 2))%Q)
               (list_ascii_of_string password)).

End Random.

(** One way an engine may sort: insertion from the right, asking the
    comparator once per step. *)
Fixpoint insertBy (cmp : nat -> Q) (n : nat) (x : ascii) (l : list ascii)
  : list ascii * nat :=
  match l with
  | [] => ([x], n)
  | y :: l' =>
      if Qle_bool (cmp n) 0 then (x :: y :: l', S n)
      else let '(r, n') := insertBy cmp (S n) x l' in (y :: r, n')
  end.

Fixpoint insertionSortFrom (cmp : nat -> Q) (n : nat) (l : list ascii)
  : list ascii * nat :=
  match l with
  | [] => ([], n)
  | x :: l' =>
      let '(sorted, n') := insertionSortFrom cmp n l' in
      insertBy cmp n' x sorted
  end.

Definition insertionSort (cmp : nat -> Q) (l : list ascii) : list ascii :=
  fst (insertionSortFrom cmp 0 l).

(** verifyPassword: [bcryptCompare] is [bcrypt.compare], which answers
    or throws. *)
Definition verifyPassword (bcryptCompare : string -> string -> outcome bool)
  (plainPassword hashedPassword : string) : bool :=
  match bcryptCompare plainPassword hashedPassword with
  | Ok b => b
  | Throw _ => false
  end.

End PasswordService.

(** ** Signed tokens *)

(** The strings that travel as tokens or sit in the cache are kept in
    symbolic form: a token signed under a key with given claims, the JSON
    text of an access grant, or any other text.  Two such strings are equal
    exactly when they are built the same way, so a signature cannot be
    forged and a signed token is no plain text. *)
Module Jwt.

(** [JwtPayload], with the registered claims the library adds. *)
Record Payload : Type := {
  sub : string;
  email : option string;
  roles : option (list string);
  permissions : option (list string);
  type : option string;
  jti : option string;
  iat : Z;
  exp : option Z;
  iss : option string;
  aud : option string
}.

Record Grant : Type := {
  g_userId : string;
  g_email : string;
  g_roles : list string;
  g_permissions : list string
}.

Inductive text : Type :=
  | Signed (secret : string) (payload : Payload)
  | Json (grant : Grant)
  | Plain (s : string).

#[global] Instance Payload_eq_dec : EqDecision Payload.
Proof. solve_decision. Defined.
#[global] Instance Grant_eq_dec : EqDecision Grant.
Proof. solve_decision. Defined.
#[global] Instance text_eq_dec : EqDecision text.
Proof. solve_decision. Defined.

(** The value of a string of decimal digits, [acc] being the value read
    so far; [None] on any other character. *)
Fixpoint digitsFrom (acc : Z) (s : string) : option Z :=
  match s with
  | EmptyString => Some acc
  | String c s' =>
      if Js.isDigit c
      then digitsFrom (10 * acc + Z.of_nat (Js.code c - 48)) s'
      else None
  end.

(** [(\d+)] matched against the whole of [s]. *)
Definition digits (s : string) : option Z :=
  match s with
  | EmptyString => None
  | _ => digitsFrom 0 s
  end.

(** [s] split into all but its last character, and that character. *)
Fixpoint unsnoc (s : string) : option (string * ascii) :=
  match s with
  | EmptyString => None
  | String c EmptyString => Some (EmptyString, c)
  | String c s' =>
      match unsnoc s' with
      | Some (init, l) => Some (String c init, l)
      | None => None
      end
  end.

Definition multiplier (unit : ascii) : option Z :=
  if Ascii.eqb unit "s" then Some 1
  else if Ascii.eqb unit "m" then Some 60
  else if Ascii.eqb unit "h" then Some 3600
  else if Ascii.eqb unit "d" then Some 86400
  else if Ascii.eqb unit "w" then Some 604800
  else None.

(** A time span as a number and a unit, the pattern [^(\d+)([smhdw]?)$]
  of parseExpiryToSeconds. *)
Definition numberAndUnit (s : string) : option (Z * option ascii) :=
  match unsnoc s with
  | None => None
  | Some (init, l) =>
      match multiplier l with
      | Some _ =>
          match digits init with
          | Some v => Some (v, Some l)
          | None => None
          end
      | None =>
          match digits s with
          | Some v => Some (v, None)
          | None => None
          end
      end
  end.

(** The seconds the signing library adds to [iat] for [expiresIn]: a
    number with a unit among s, m, h, d, w, or a bare number, which it
    reads as milliseconds.  The library's other notations (fractions,
    long unit names, years) are not covered and are refused here. *)
Definition timespan (expiresIn : string) : option Z :=
  match numberAndUnit expiresIn with
  | Some (v, Some u) =>
      match multiplier u with
      | Some m => Some (v * m)
      | None => None
      end
  | Some (v, None) => Some (v / 1000)
  | None => None
  end.

Record SignOptions : Type := {
  so_expiresIn : string;
  so_issuer : string;
  so_audience : string;
  so_jwtid : option string
}.

(** [s] between double quotes (code 34). *)
Definition quoted (s : string) : string :=
  String (ascii_of_nat 34) s +:+ String (ascii_of_nat 34) EmptyString.

(** The signer's complaint about an option that names a claim the
    payload already carries. *)
Definition alreadyInPayload (option claim : string) : string :=
  "Bad " +:+ quoted ("options." +:+ option) +:+ " option. The payload already has an "
  +:+ quoted claim +:+ " property.".

(** [jwtService.signAsync(payload, options)], signing with the module's
    secret at instant [now].  The signer first turns [expiresIn] into
    [exp], then copies the options that stand for claims into the
    payload; it refuses an option whose claim the payload already has.
    Of these options the code passes [issuer] and [audience], whose
    claims no payload of the code carries, and in places [jwtid], whose
    claim is [jti]. *)
Definition sign (secret : string) (now : Z) (payload : Payload) (o : SignOptions)
  : outcome text :=
  match timespan (so_expiresIn o) with
  | None => Throw (LibraryError "expiresIn should be a number of seconds or string representing a timespan")
  | Some seconds =>
      let issuedAt := now / 1000 in
      let signed (id : option string) :=
        Ok (Signed secret
              {| sub := sub payload; email := email payload;
                 roles := roles payload; permissions := permissions payload;
                 type := type payload; jti := id;
                 iat := issuedAt; exp := Some (issuedAt + seconds);
                 iss := Some (so_issuer o); aud := Some (so_audience o) |}) in
      match so_jwtid o with
      | None => signed (jti payload)
      | Some jwtid =>
          match jti payload with
          | Some _ => Throw (LibraryError (alreadyInPayload "jwtid" "jti"))
          | None => signed (Some jwtid)
          end
      end
  end.

Record VerifyOptions : Type := {
  vo_secret : string;
  vo_issuer : option string;
  vo_audience : option string;
  vo_ignoreExpiration : bool
}.

(** A claim required by the options is present and equal. *)
Definition claimMatches (required actual : option string) : bool :=
  match required with
  | None => true
  | Some r => match actual with
              | Some a => String.eqb a r
              | None => false
              end
  end.

Definition expired (now : Z) (p : Payload) : bool :=
  match exp p with
  | Some e => e <=? now / 1000
  | None => false
  end.

(** [jwtService.verifyAsync(token, options)] at instant [now]. *)
Definition verify (now : Z) (token : text) (o : VerifyOptions) : outcome Payload :=
  match token with
  | Signed secret payload =>
      if negb (String.eqb secret (vo_secret o)) then
        Throw (LibraryError "invalid signature")
      else if (negb (vo_ignoreExpiration o) && expired now payload)%bool then
        Throw (LibraryError "jwt expired")
      else if negb (claimMatches (vo_audience o) (aud payload)) then
        Throw (LibraryError "jwt audience invalid")
      else if negb (claimMatches (vo_issuer o) (iss payload)) then
        Throw (LibraryError "jwt issuer invalid")
      else Ok payload
  | Json _ => Throw (LibraryError "jwt malformed")
  | Plain _ => Throw (LibraryError "jwt malformed")
  end.

End Jwt.

(** ** Stores *)

Module Store.

(** A row of [prisma.refreshToken]; its id is the key under which the
    table holds it. *)
Record RefreshToken : Type := {
  rt_token : Jwt.text;
  rt_userId : string;
  rt_expiresAt : Z;
  rt_isRevoked : bool;
  rt_createdAt : Z
}.

(** A row of [prisma.user]. *)
Record User : Type := {
  u_id : string;
  u_email : string;
  u_passwordHash : string;
  u_nickname : option string;
  u_roles : list string;
  u_emailVerified : bool;
  u_mfaEnabled : bool;
  u_mfaSecret : option string;
  u_lastLoginAt : option Z;
  u_lastActivityAt : option Z
}.

(** A row of [prisma.auditLog]; [al_details] lists the fields of the
    detail object that are defined. *)
Record AuditLog : Type := {
  al_userId : string;
  al_action : string;
  al_resource : string;
  al_details : list (string * string);
  al_ip : option string;
  al_userAgent : option string
}.

(** A job handed to the [auth] queue. *)
Record Job : Type := {
  job_name : string;
  job_userId : string;
  job_email : string;
  job_nickname : option string
}.

(** The durable store, the cache, and the queue.  A cache entry holds its
    value and the instant at which it lapses. *)
Record State : Type := {
  refreshTokens : gmap string RefreshToken;
  users : list User;
  auditLogs : list AuditLog;
  redis : gmap string (Jwt.text * Z);
  counters : gmap (string * Z) Z;
  authQueue : list Job
}.

#[global] Instance RefreshToken_eq_dec : EqDecision RefreshToken.
Proof. solve_decision. Defined.
#[global] Instance User_eq_dec : EqDecision User.
Proof. solve_decision. Defined.

Definition setRefreshTokens (f : gmap string RefreshToken -> gmap string RefreshToken)
  (st : State) : State :=
  {| refreshTokens := f (refreshTokens st); users := users st;
     auditLogs := auditLogs st; redis := redis st;
     counters := counters st; authQueue := authQueue st |}.

Definition setUsers (f : list User -> list User) (st : State) : State :=
  {| refreshTokens := refreshTokens st; users := f (users st);
     auditLogs := auditLogs st; redis := redis st;
     counters := counters st; authQueue := authQueue st |}.

Definition setAuditLogs (f : list AuditLog -> list AuditLog) (st : State) : State :=
  {| refreshTokens := refreshTokens st; users := users st;
     auditLogs := f (auditLogs st); redis := redis st;
     counters := counters st; authQueue := authQueue st |}.

Definition setRedis (f : gmap string (Jwt.text * Z) -> gmap string (Jwt.text * Z))
  (st : State) : State :=
  {| refreshTokens := refreshTokens st; users := users st;
     auditLogs := auditLogs st; redis := f (redis st);
     counters := counters st; authQueue := authQueue st |}.

Definition setCounters (f : gmap (string * Z) Z -> gmap (string * Z) Z)
  (st : State) : State :=
  {| refreshTokens := refreshTokens st; users := users st;
     auditLogs := auditLogs st; redis := redis st;
     counters := f (counters st); authQueue := authQueue st |}.

Definition setAuthQueue (f : list Job -> list Job) (st : State) : State :=
  {| refreshTokens := refreshTokens st; users := users st;
     auditLogs := auditLogs st; redis := redis st;
     counters := counters st; authQueue := f (authQueue st) |}.

Definition empty : State :=
  {| refreshTokens := ∅; users := []; auditLogs := []; redis := ∅;
     counters := ∅; authQueue := [] |}.

End Store.

(** ** Computations over the stores *)

Definition M (A : Type) : Type := Store.State -> outcome A * Store.State.

Definition ret {A} (a : A) : M A := fun st => (Ok a, st).

Definition throw {A} (e : error) : M A := fun st => (Throw e, st).

Definition bind {A B} (m : M A) (k : A -> M B) : M B :=
  fun st =>
    match m st with
    | (Ok a, st') => k a st'
    | (Throw e, st') => (Throw e, st')
    end.

(** [try { body } catch (error) { handler }] *)
Definition tryCatch {A} (body : M A) (handler : error -> M A) : M A :=
  fun st =>
    match body st with
    | (Ok a, st') => (Ok a, st')
    | (Throw e, st') => handler e st'
    end.

Definition lift {A} (o : outcome A) : M A := fun st => (o, st).

Definition gets {A} (f : Store.State -> A) : M A := fun st => (Ok (f st), st).

Definition modify (f : Store.State -> Store.State) : M unit :=
  fun st => (Ok tt, f st).

(** Unfolds the combinators, leaving the state transformer. *)
Ltac run := unfold bind, tryCatch, lift, ret, throw, gets, modify.

Declare Scope m_scope.
Delimit Scope m_scope with M.
Notation "x <- m ;; k" := (bind m (fun x => k))
  (at level 100, m at next level, right associativity) : m_scope.
Notation "m ;;; k" := (bind m (fun _ => k))
  (at level 100, right associativity) : m_scope.

Local Open Scope m_scope.

(** ** The cache *)

(** [RedisService] (redis/redis.service.ts) is not among the sources.
    The design document gives its contract:
    [setWithTTL(key, value, seconds)], [get(key)], [delete(key)], and a
    fixed-window rate limiter that increments the counter of the window
    [now / windowSeconds] and allows the call iff the count after the
    increment is at most the limit.  A lifetime that is not positive is
    refused, as the cache server does. *)
Module RedisService.

(** Modelled from the spec: [setWithTTL(key, value, seconds)] of
    RedisService, the entry lapsing [seconds] after [now]. *)
Definition setex (now : Z) (key : string) (seconds : Z) (value : Jwt.text) : M unit :=
  if seconds <=? 0 then throw (LibraryError "ERR invalid expire time in setex")
  else modify (Store.setRedis (fun m => <[key := (value, now + seconds * 1000)]> m)).

(** Modelled from the spec: [get(key)] of RedisService, which finds
    no entry that has lapsed. *)
Definition get (now : Z) (key : string) : M (option Jwt.text) :=
  gets (fun st =>
    match Store.redis st !! key with
    | Some (value, lapse) => if now <? lapse then Some value else None
    | None => None
    end).

(** Modelled from the spec: [delete(key)] of RedisService. *)
Definition del (key : string) : M unit :=
  modify (Store.setRedis (fun m => delete key m)).

(** Modelled from the spec: the fixed-window [check] of RedisService,
    counting per key and per window [now / windowSeconds]. *)
Definition checkRateLimit (now : Z) (key : string) (limit windowSeconds : Z) : M bool :=
  let window := (now / 1000) / windowSeconds in
  count <- gets (fun st => default 0 (Store.counters st !! (key, window)) + 1) ;;
  modify (Store.setCounters (fun m => <[(key, window) := count]> m)) ;;;
  ret (count <=? limit).

End RedisService.

(** ** TokenService *)

Module TokenService.

Record Config : Type := {
  accessTokenExpiry : string;
  refreshTokenExpiry : string;
  jwtSecret : string;
  issuer : string;
  audience : string
}.

(** The defaults of the constructor and of the configuration file. *)
Definition defaultConfig : Config :=
  {| accessTokenExpiry := "15m";
     refreshTokenExpiry := "7d";
     jwtSecret := "your-super-secret-jwt-key-change-in-production";
     issuer := "enggamehub";
     audience := "enggamehub-users" |}.

Record AuthTokens : Type := {
  accessToken : Jwt.text;
  refreshToken : Jwt.text;
  expiresIn : Z;
  tokenType : string
}.

Record TokenData : Type := {
  td_userId : string;
  td_email : option string;
  td_type : string;
  td_jti : option string
}.

(** parseExpiryToSeconds *)
Definition parseExpiryToSeconds (expiry : string) : Z :=
  match Jwt.numberAndUnit expiry with
  | None => 3600
  | Some (value, unit) =>
      let unit := default "s"%char unit in
      value * default 1 (Jwt.multiplier unit)
  end.

(** [[...new Set(l)]]: the first occurrence of each element, in order. *)
Fixpoint unique (seen l : list string) : list string :=
  match l with
  | [] => []
  | x :: l' =>
      if Js.arrayIncludes seen x then unique seen l'
      else x :: unique (x :: seen) l'
  end.

(** getUserPermissions *)
Definition getUserPermissions (user : Store.User) : list string :=
  let permissions := [] in
  let permissions :=
    if Js.arrayIncludes (Store.u_roles user) "ADMIN" then
      permissions ++
      [ "users:read"; "users:write"; "users:delete";
        "questions:read"; "questions:write"; "questions:delete"; "questions:review";
        "games:read"; "games:write"; "games:moderate";
        "analytics:read"; "analytics:write";
        "system:read"; "system:write" ]
    else permissions in
  let permissions :=
    if Js.arrayIncludes (Store.u_roles user) "TEACHER" then
      permissions ++
      [ "users:read";
        "questions:read"; "questions:write"; "questions:review";
        "games:read"; "games:moderate";
        "analytics:read" ]
    else permissions in
  let permissions :=
    if Js.arrayIncludes (Store.u_roles user) "STUDENT" then
      permissions ++
      [ "questions:read";
        "games:read"; "games:join";
        "learning:read"; "learning:write" ]
    else permissions in
  unique [] permissions.

(** [prisma.refreshToken.create]: the id is the primary key; the schema
    fills [isRevoked] with false and [createdAt] with the current time. *)
Definition createRefreshToken (now : Z) (id : string) (token : Jwt.text)
  (userId : string) (expiresAt : Z) : M unit :=
  existing <- gets (fun st => Store.refreshTokens st !! id) ;;
  match existing with
  | Some _ => throw (LibraryError "Unique constraint failed on the fields: (id)")
  | None =>
      modify (Store.setRefreshTokens (fun m =>
        <[id := {| Store.rt_token := token;
                   Store.rt_userId := userId; Store.rt_expiresAt := expiresAt;
                   Store.rt_isRevoked := false; Store.rt_createdAt := now |}]> m))
  end.

(** [prisma.refreshToken.findUnique({ where: { id, isRevoked: false } })];
    a missing id is refused by the client. *)
Definition findUniqueUnrevoked (id : option string) : M (option Store.RefreshToken) :=
  match id with
  | None => throw (LibraryError "Argument where needs at least one of id arguments")
  | Some id =>
      gets (fun st =>
        match Store.refreshTokens st !! id with
        | Some row => if Store.rt_isRevoked row then None else Some row
        | None => None
        end)
  end.

Definition revoked (row : Store.RefreshToken) : Store.RefreshToken :=
  {| Store.rt_token := Store.rt_token row;
     Store.rt_userId := Store.rt_userId row;
     Store.rt_expiresAt := Store.rt_expiresAt row;
     Store.rt_isRevoked := true; Store.rt_createdAt := Store.rt_createdAt row |}.

(** [prisma.refreshToken.updateMany({ where: { ..., isRevoked: false },
    data: { isRevoked: true } })] for the rows that [selects] holds of. *)
Definition revokeMany (selects : string -> Store.RefreshToken -> bool) : M unit :=
  modify (Store.setRefreshTokens (fun m =>
    map_imap (fun id row =>
      Some (if (selects id row && negb (Store.rt_isRevoked row))%bool
            then revoked row else row)) m)).

(** The payload handed to the signer for a single-use token. *)
Definition singleUsePayload (purpose userId email jti : string) : Jwt.Payload :=
  {| Jwt.sub := userId; Jwt.email := Some email;
     Jwt.roles := None; Jwt.permissions := None;
     Jwt.type := Some purpose; Jwt.jti := Some jti;
     Jwt.iat := 0; Jwt.exp := None; Jwt.iss := None; Jwt.aud := None |}.

Section WithConfig.

Variable cfg : Config.

Definition verifyOptions : Jwt.VerifyOptions :=
  {| Jwt.vo_secret := jwtSecret cfg;
     Jwt.vo_issuer := Some (issuer cfg);
     Jwt.vo_audience := Some (audience cfg);
     Jwt.vo_ignoreExpiration := false |}.

Definition signOptions (expiresIn : string) : Jwt.SignOptions :=
  {| Jwt.so_expiresIn := expiresIn;
     Jwt.so_issuer := issuer cfg;
     Jwt.so_audience := audience cfg;
     Jwt.so_jwtid := None |}.

(** The options of the two signatures of generateTokenPair, which pass
    [jwtid] as well. *)
Definition signOptionsWithId (expiresIn jwtid : string) : Jwt.SignOptions :=
  {| Jwt.so_expiresIn := expiresIn;
     Jwt.so_issuer := issuer cfg;
     Jwt.so_audience := audience cfg;
     Jwt.so_jwtid := Some jwtid |}.

(** generateTokenPair; [jti] and [refreshTokenId] are the two values
    of [uuidv4()]. *)
Definition generateTokenPair (now : Z) (jti refreshTokenId : string)
  (user : Store.User) : M AuthTokens :=
  let permissions := getUserPermissions user in
  let payload :=
    {| Jwt.sub := Store.u_id user;
       Jwt.email := Some (Store.u_email user);
       Jwt.roles := Some (Store.u_roles user);
       Jwt.permissions := Some permissions;
       Jwt.type := None;
       Jwt.jti := Some jti;
       Jwt.iat := 0; Jwt.exp := None; Jwt.iss := None; Jwt.aud := None |} in
  accessToken <- lift (Jwt.sign (jwtSecret cfg) now payload
                         (signOptionsWithId (accessTokenExpiry cfg) jti)) ;;
  refreshToken <- lift (Jwt.sign (jwtSecret cfg) now
                          {| Jwt.sub := Store.u_id user;
                             Jwt.email := None; Jwt.roles := None;
                             Jwt.permissions := None;
                             Jwt.type := Some "refresh";
                             Jwt.jti := Some refreshTokenId;
                             Jwt.iat := 0; Jwt.exp := None;
                             Jwt.iss := None; Jwt.aud := None |}
                          (signOptionsWithId (refreshTokenExpiry cfg) refreshTokenId)) ;;
  let expiresIn := parseExpiryToSeconds (accessTokenExpiry cfg) in
  let refreshExpiresIn := parseExpiryToSeconds (refreshTokenExpiry cfg) in
  createRefreshToken now refreshTokenId refreshToken (Store.u_id user)
    (now + refreshExpiresIn * 1000) ;;;
  RedisService.setex now ("access_token:" +:+ jti) expiresIn
    (Jwt.Json {| Jwt.g_userId := Store.u_id user;
                 Jwt.g_email := Store.u_email user;
                 Jwt.g_roles := Store.u_roles user;
                 Jwt.g_permissions := permissions |}) ;;;
  ret {| accessToken := accessToken; refreshToken := refreshToken;
         expiresIn := expiresIn; tokenType := "Bearer" |}.

(** isTokenRevoked *)
Definition isTokenRevoked (now : Z) (jti : option string) : M bool :=
  isRevoked <- RedisService.get now ("revoked_token:" +:+ Js.show jti) ;;
  ret (bool_decide (isRevoked = Some (Jwt.Plain "true"))).

(** [!cachedToken]: nothing cached, or the empty string. *)
Definition falsy (cachedToken : option Jwt.text) : bool :=
  match cachedToken with
  | None => true
  | Some t => bool_decide (t = Jwt.Plain "")
  end.

(** verifyAccessToken *)
Definition verifyAccessToken (now : Z) (token : Jwt.text) : M (option Jwt.Payload) :=
  tryCatch
    (payload <- lift (Jwt.verify now token verifyOptions) ;;
     isRevoked <- isTokenRevoked now (Jwt.jti payload) ;;
     if isRevoked then ret None
     else
       cachedToken <- RedisService.get now
                        ("access_token:" +:+ Js.show (Jwt.jti payload)) ;;
       if falsy cachedToken then ret None
       else ret (Some payload))
    (fun _ => ret None).

(** verifyRefreshToken *)
Definition verifyRefreshToken (now : Z) (token : Jwt.text) : M (option TokenData) :=
  tryCatch
    (payload <- lift (Jwt.verify now token verifyOptions) ;;
     if negb (bool_decide (Jwt.type payload = Some "refresh")) then ret None
     else
       refreshToken <- findUniqueUnrevoked (Jwt.jti payload) ;;
       match refreshToken with
       | None => ret None
       | Some row =>
           if Store.rt_expiresAt row <? now then ret None
           else ret (Some {| td_userId := Jwt.sub payload;
                             td_email := Jwt.email payload;
                             td_type := "refresh";
                             td_jti := Jwt.jti payload |})
       end)
    (fun _ => ret None).

(** revokeRefreshToken *)
Definition revokeRefreshToken (now : Z) (token : Jwt.text) : M unit :=
  tryCatch
    (payload <- lift (Jwt.verify now token
                        {| Jwt.vo_secret := jwtSecret cfg;
                           Jwt.vo_issuer := None;
                           Jwt.vo_audience := None;
                           Jwt.vo_ignoreExpiration := true |}) ;;
     if Js.truthy (Jwt.jti payload) then
       revokeMany (fun id _ => bool_decide (Some id = Jwt.jti payload))
     else ret tt)
    (fun _ => ret tt).

(** addUserToBlacklist *)
Definition addUserToBlacklist (now : Z) (userId : string) : M unit :=
  let blacklistKey := "user_blacklist:" +:+ userId in
  RedisService.setex now blacklistKey 86400 (Jwt.Plain "true").

(** revokeAllUserTokens *)
Definition revokeAllUserTokens (now : Z) (userId : string) : M unit :=
  revokeMany (fun _ row => bool_decide (Store.rt_userId row = userId)) ;;;
  addUserToBlacklist now userId.

(** revokeAccessToken *)
Definition revokeAccessToken (now : Z) (jti : string) (expiresIn : option Z) : M unit :=
  let ttl := match expiresIn with
             | Some n => if n =? 0 then 86400 else n
             | None => 86400
             end in
  RedisService.setex now ("revoked_token:" +:+ jti) ttl (Jwt.Plain "true").

(** generateEmailVerificationToken; [jti] is the value of [uuidv4()]. *)
Definition generateEmailVerificationToken (now : Z) (jti userId email : string)
  : M Jwt.text :=
  let payload := singleUsePayload "email_verification" userId email jti in
  token <- lift (Jwt.sign (jwtSecret cfg) now payload (signOptions "24h")) ;;
  RedisService.setex now ("email_verification:" +:+ userId) 86400 token ;;;
  ret token.

(** verifyEmailToken *)
Definition verifyEmailToken (now : Z) (token : Jwt.text) : M (option TokenData) :=
  tryCatch
    (payload <- lift (Jwt.verify now token verifyOptions) ;;
     if negb (bool_decide (Jwt.type payload = Some "email_verification"))
     then ret None
     else
       cachedToken <- RedisService.get now
                        ("email_verification:" +:+ Jwt.sub payload) ;;
       if negb (bool_decide (cachedToken = Some token)) then ret None
       else
         RedisService.del ("email_verification:" +:+ Jwt.sub payload) ;;;
         ret (Some {| td_userId := Jwt.sub payload;
                      td_email := Jwt.email payload;
                      td_type := "email_verification";
                      td_jti := None |}))
    (fun _ => ret None).

(** generatePasswordResetToken; [jti] is the value of [uuidv4()]. *)
Definition generatePasswordResetToken (now : Z) (jti userId email : string)
  : M Jwt.text :=
  let payload := singleUsePayload "password_reset" userId email jti in
  token <- lift (Jwt.sign (jwtSecret cfg) now payload (signOptions "1h")) ;;
  RedisService.setex now ("password_reset:" +:+ userId) 3600 token ;;;
  ret token.

(** verifyPasswordResetToken *)
Definition verifyPasswordResetToken (now : Z) (token : Jwt.text) : M (option TokenData) :=
  tryCatch
    (payload <- lift (Jwt.verify now token verifyOptions) ;;
     if negb (bool_decide (Jwt.type payload = Some "password_reset"))
     then ret None
     else
       cachedToken <- RedisService.get now
                        ("password_reset:" +:+ Jwt.sub payload) ;;
       if negb (bool_decide (cachedToken = Some token)) then ret None
       else
         RedisService.del ("password_reset:" +:+ Jwt.sub payload) ;;;
         ret (Some {| td_userId := Jwt.sub payload;
                      td_email := Jwt.email payload;
                      td_type := "password_reset";
                      td_jti := None |}))
    (fun _ => ret None).

End WithConfig.

(** The shape the two single-use flows share: the purpose names the
    token type and, followed by a colon and the user id, the cache key. *)
Definition generateSingleUse (cfg : Config) (purpose expiresIn : string) (ttl : Z)
  (now : Z) (jti userId email : string) : M Jwt.text :=
  let payload := singleUsePayload purpose userId email jti in
  token <- lift (Jwt.sign (jwtSecret cfg) now payload (signOptions cfg expiresIn)) ;;
  RedisService.setex now (purpose +:+ ":" +:+ userId) ttl token ;;;
  ret token.

Definition verifySingleUse (cfg : Config) (purpose : string)
  (now : Z) (token : Jwt.text) : M (option TokenData) :=
  tryCatch
    (payload <- lift (Jwt.verify now token (verifyOptions cfg)) ;;
     if negb (bool_decide (Jwt.type payload = Some purpose)) then ret None
     else
       cachedToken <- RedisService.get now
                        (purpose +:+ ":" +:+ Jwt.sub payload) ;;
       if negb (bool_decide (cachedToken = Some token)) then ret None
       else
         RedisService.del (purpose +:+ ":" +:+ Jwt.sub payload) ;;;
         ret (Some {| td_userId := Jwt.sub payload;
                      td_email := Jwt.email payload;
                      td_type := purpose;
                      td_jti := None |}))
    (fun _ => ret None).

Definition retention : Z := 7 * 24 * 60 * 60 * 1000.

(** The selection clause of cleanExpiredTokens. *)
Definition swept (now : Z) (row : Store.RefreshToken) : bool :=
  ((Store.rt_expiresAt row <? now) ||
   (Store.rt_isRevoked row && (Store.rt_createdAt row <? now - retention)))%bool.

(** cleanExpiredTokens *)
Definition cleanExpiredTokens (now : Z) : M unit :=
  modify (Store.setRefreshTokens (fun m =>
    filter (fun kv => swept now kv.2 = false) m)).

End TokenService.

(** ** MfaService *)

(** [MfaService] (auth/services/mfa.service.ts) is not among the
    sources.  The design document describes
    [issue(userId) -> challengeToken]: a cache-resident binding between
    an opaque challenge id and a user id, lasting about five minutes. *)
Module MfaService.

(** Modelled from the spec: [issue(userId)] of MfaService; [challenge]
    is the opaque id drawn for this challenge. *)
Definition generateMfaToken (now : Z) (challenge userId : string) : M string :=
  RedisService.setex now ("mfa_token:" +:+ challenge) 300 (Jwt.Plain userId) ;;;
  ret challenge.

End MfaService.

(** ** AuthService *)

Module AuthService.

Import TokenService.

Record ClientInfo : Type := {
  userAgent : string;
  ip : string;
  device : string
}.

Record LoginDto : Type := {
  dto_email : string;
  dto_password : string;
  dto_rememberMe : option bool;
  dto_clientInfo : option ClientInfo
}.

(** A user without [passwordHash] and [mfaSecret]. *)
Record SanitizedUser : Type := {
  su_id : string;
  su_email : string;
  su_nickname : option string;
  su_roles : list string;
  su_emailVerified : bool;
  su_mfaEnabled : bool;
  su_lastLoginAt : option Z;
  su_lastActivityAt : option Z
}.

Record AuthResult : Type := {
  ar_user : option SanitizedUser;
  ar_tokens : option AuthTokens;
  ar_requiresMfa : option bool;
  ar_mfaToken : option string
}.

(** The detail object of an audit event. *)
Record Details : Type := {
  d_fields : list (string * string);
  d_ip : option string;
  d_userAgent : option string
}.

Definition noDetails : Details :=
  {| d_fields := []; d_ip := None; d_userAgent := None |}.

(** findUserById *)
Definition findUserById (id : string) : M (option Store.User) :=
  gets (fun st =>
    List.find (fun u => String.eqb (Store.u_id u) id) (Store.users st)).

(** findUserByEmail *)
Definition findUserByEmail (email : string) : M (option Store.User) :=
  let normalized := Js.trim (Js.toLowerCase email) in
  gets (fun st =>
    List.find (fun u => String.eqb (Store.u_email u) normalized) (Store.users st)).

(** logAuthEvent *)
Definition logAuthEvent (userId action : string) (details : Details) : M unit :=
  modify (Store.setAuditLogs (fun l =>
    l ++ [ {| Store.al_userId := userId; Store.al_action := action;
              Store.al_resource := "auth";
              Store.al_details := d_fields details;
              Store.al_ip := d_ip details;
              Store.al_userAgent := d_userAgent details |} ])).

(** sanitizeUser *)
Definition sanitizeUser (user : Store.User) : SanitizedUser :=
  {| su_id := Store.u_id user; su_email := Store.u_email user;
     su_nickname := Store.u_nickname user; su_roles := Store.u_roles user;
     su_emailVerified := Store.u_emailVerified user;
     su_mfaEnabled := Store.u_mfaEnabled user;
     su_lastLoginAt := Store.u_lastLoginAt user;
     su_lastActivityAt := Store.u_lastActivityAt user |}.

(** checkAccountStatus: the user it receives is never missing. *)
Definition checkAccountStatus (user : Store.User) : M unit := ret tt.

(** checkLoginRateLimit *)
Definition checkLoginRateLimit (now : Z) (userId : string) (ip : option string) : M unit :=
  let ip := if Js.truthy ip then Js.show ip else "unknown" in
  let rateLimitKey := "login_attempts:" +:+ userId +:+ ":" +:+ ip in
  canLogin <- RedisService.checkRateLimit now rateLimitKey 5 300 ;;
  if negb canLogin then
    throw (BadRequestException "Too many login attempts. Please try again later.")
  else ret tt.

Definition loggedIn (now : Z) (user : Store.User) : Store.User :=
  {| Store.u_id := Store.u_id user; Store.u_email := Store.u_email user;
     Store.u_passwordHash := Store.u_passwordHash user;
     Store.u_nickname := Store.u_nickname user;
     Store.u_roles := Store.u_roles user;
     Store.u_emailVerified := Store.u_emailVerified user;
     Store.u_mfaEnabled := Store.u_mfaEnabled user;
     Store.u_mfaSecret := Store.u_mfaSecret user;
     Store.u_lastLoginAt := Some now;
     Store.u_lastActivityAt := Some now |}.

(** updateUserLoginInfo: [prisma.user.update] refuses a missing row. *)
Definition updateUserLoginInfo (now : Z) (userId : string) : M unit :=
  found <- findUserById userId ;;
  match found with
  | None => throw (LibraryError "Record to update not found.")
  | Some _ =>
      modify (Store.setUsers (List.map (fun u =>
        if String.eqb (Store.u_id u) userId then loggedIn now u else u)))
  end.

Definition clientDetails (fields : list (string * string))
  (clientInfo : option ClientInfo) : Details :=
  {| d_fields := fields;
     d_ip := ip <$> clientInfo;
     d_userAgent := userAgent <$> clientInfo |}.

Section WithServices.

Variable cfg : Config.
Variable bcryptCompare : string -> string -> outcome bool.

(** validateUserCredentials *)
Definition validateUserCredentials (email password : string) : M Store.User :=
  user <- findUserByEmail email ;;
  match user with
  | None => throw (UnauthorizedError "Invalid credentials")
  | Some user =>
      let isPasswordValid :=
        PasswordService.verifyPassword bcryptCompare password
          (Store.u_passwordHash user) in
      if negb isPasswordValid then
        logAuthEvent (Store.u_id user) "LOGIN_FAILED"
          {| d_fields := [("reason", "invalid_password")];
             d_ip := None; d_userAgent := None |} ;;;
        throw (UnauthorizedError "Invalid credentials")
      else ret user
  end.

(** login; [challenge], [jti] and [refreshTokenId] are the random ids
    the call may draw. *)
Definition login (now : Z) (challenge jti refreshTokenId : string) (dto : LoginDto)
  : M AuthResult :=
  user <- validateUserCredentials (dto_email dto) (dto_password dto) ;;
  checkAccountStatus user ;;;
  checkLoginRateLimit now (Store.u_id user) (ip <$> dto_clientInfo dto) ;;;
  if Store.u_mfaEnabled user then
    mfaToken <- MfaService.generateMfaToken now challenge (Store.u_id user) ;;
    logAuthEvent (Store.u_id user) "MFA_REQUIRED"
      (clientDetails [] (dto_clientInfo dto)) ;;;
    ret {| ar_user := None; ar_tokens := None;
           ar_requiresMfa := Some true; ar_mfaToken := Some mfaToken |}
  else
    tokens <- generateTokenPair cfg now jti refreshTokenId user ;;
    updateUserLoginInfo now (Store.u_id user) ;;;
    logAuthEvent (Store.u_id user) "LOGIN_SUCCESS"
      (clientDetails
         match dto_rememberMe dto with
         | Some b => [("rememberMe", if b then "true" else "false")]
         | None => []
         end
         (dto_clientInfo dto)) ;;;
    ret {| ar_user := Some (sanitizeUser user); ar_tokens := Some tokens;
           ar_requiresMfa := None; ar_mfaToken := None |}.

(** refreshTokens; [jti] and [refreshTokenId] are the ids drawn for
    the new pair. *)
Definition refreshTokens (now : Z) (jti refreshTokenId : string)
  (refreshToken : Jwt.text) : M AuthTokens :=
  tokenData <- verifyRefreshToken cfg now refreshToken ;;
  match tokenData with
  | None => throw (UnauthorizedError "Invalid or expired refresh token")
  | Some tokenData =>
      user <- findUserById (td_userId tokenData) ;;
      match user with
      | None => throw (UnauthorizedError "User not found")
      | Some user =>
          checkAccountStatus user ;;;
          tokens <- generateTokenPair cfg now jti refreshTokenId user ;;
          revokeRefreshToken cfg now refreshToken ;;;
          logAuthEvent (Store.u_id user) "TOKEN_REFRESH" noDetails ;;;
          ret tokens
      end
  end.

(** sendVerificationEmail *)
Definition sendVerificationEmail (now : Z) (email : string) : M unit :=
  user <- findUserByEmail email ;;
  match user with
  | None => throw (BadRequestException "User not found")
  | Some user =>
      if Store.u_emailVerified user then
        throw (BadRequestException "Email already verified")
      else
        let rateLimitKey := "verify_email:" +:+ email in
        canSend <- RedisService.checkRateLimit now rateLimitKey 3 300 ;;
        if negb canSend then
          throw (BadRequestException
                   "Too many verification emails sent. Please try again later.")
        else
          modify (Store.setAuthQueue (fun q =>
            q ++ [ {| Store.job_name := "send-verification-email";
                      Store.job_userId := Store.u_id user;
                      Store.job_email := Store.u_email user;
                      Store.job_nickname := Store.u_nickname user |} ]))
  end.

End WithServices.

End AuthService.

(** ** Tokens, rows and grants as the code lays them out *)

Module Issued.

Import TokenService.

Definition accessPayload (cfg : Config) (lifetime now : Z) (jti : string)
  (user : Store.User) : Jwt.Payload :=
  {| Jwt.sub := Store.u_id user; Jwt.email := Some (Store.u_email user);
     Jwt.roles := Some (Store.u_roles user);
     Jwt.permissions := Some (getUserPermissions user);
     Jwt.type := None; Jwt.jti := Some jti;
     Jwt.iat := now / 1000; Jwt.exp := Some (now / 1000 + lifetime);
     Jwt.iss := Some (issuer cfg); Jwt.aud := Some (audience cfg) |}.

Definition refreshPayload (cfg : Config) (lifetime now : Z) (refreshTokenId : string)
  (user : Store.User) : Jwt.Payload :=
  {| Jwt.sub := Store.u_id user; Jwt.email := None; Jwt.roles := None;
     Jwt.permissions := None; Jwt.type := Some "refresh";
     Jwt.jti := Some refreshTokenId;
     Jwt.iat := now / 1000; Jwt.exp := Some (now / 1000 + lifetime);
     Jwt.iss := Some (issuer cfg); Jwt.aud := Some (audience cfg) |}.

Definition grant (user : Store.User) : Jwt.text :=
  Jwt.Json {| Jwt.g_userId := Store.u_id user; Jwt.g_email := Store.u_email user;
              Jwt.g_roles := Store.u_roles user;
              Jwt.g_permissions := getUserPermissions user |}.

Definition refreshRow (cfg : Config) (lifetime now : Z) (refreshTokenId : string)
  (user : Store.User) : Store.RefreshToken :=
  {| Store.rt_token :=
       Jwt.Signed (jwtSecret cfg) (refreshPayload cfg lifetime now refreshTokenId user);
     Store.rt_userId := Store.u_id user;
     Store.rt_expiresAt := now + lifetime * 1000;
     Store.rt_isRevoked := false;
     Store.rt_createdAt := now |}.

(** A session in the tables: the row and the grant that generateTokenPair
    lays out for a pair, added to [st]. *)
Definition afterPair (cfg : Config) (access refresh now : Z) (jti refreshTokenId : string)
  (user : Store.User) (st : Store.State) : Store.State :=
  Store.setRedis (fun m =>
      <["access_token:" +:+ jti := (grant user, now + access * 1000)]> m)
    (Store.setRefreshTokens (fun m =>
      <[refreshTokenId := refreshRow cfg refresh now refreshTokenId user]> m) st).

(** The token that a single-use issuance signs. *)
Definition singleUseToken (cfg : Config) (purpose : string) (lifetime now : Z)
  (jti userId email : string) : Jwt.text :=
  Jwt.Signed (jwtSecret cfg)
    {| Jwt.sub := userId; Jwt.email := Some email; Jwt.roles := None;
       Jwt.permissions := None; Jwt.type := Some purpose; Jwt.jti := Some jti;
       Jwt.iat := now / 1000; Jwt.exp := Some (now / 1000 + lifetime);
       Jwt.iss := Some (issuer cfg); Jwt.aud := Some (audience cfg) |}.

(** The token is signed with the configured secret. *)
Definition wellSigned (cfg : Config) (token : Jwt.text) : Prop :=
  exists payload, token = Jwt.Signed (jwtSecret cfg) payload.

(** The options under which revokeRefreshToken verifies. *)
Definition revokeOptions (cfg : Config) : Jwt.VerifyOptions :=
  {| Jwt.vo_secret := jwtSecret cfg; Jwt.vo_issuer := None;
     Jwt.vo_audience := None; Jwt.vo_ignoreExpiration := true |}.

End Issued.

(** ** The password policy as the design document words it *)

(** Section 4.1 of the design document, stated without reference to the
    code: a second definition, to be compared with
    [PasswordService.validatePasswordStrength].  The document names the
    fourth character class by the word symbol and no more; [accepts] reads
    the word as it is commonly read, [acceptsSpecial] reads it as a fixed
    set of twenty characters. *)
Module PasswordPolicy.

(** [w] is a contiguous piece of [s]. *)
Definition occurs (w s : string) : Prop :=
  exists before after, s = before +:+ w +:+ after.

(** [w] is a piece of [s] when letter case is ignored. *)
Definition occursIgnoringCase (w s : string) : Prop :=
  occurs (Js.toLowerCase w) (Js.toLowerCase s).

(** Some character of class [cls] is present in [s]. *)
Definition present (cls : ascii -> bool) (s : string) : Prop :=
  exists c, cls c = true /\ occurs (String c EmptyString) s.

Definition lengthInRange (password : string) : Prop :=
  (8 <= String.length password <= 128)%nat.

Definition hasUpper := present Js.isUpper.
Definition hasLower := present Js.isLower.
Definition hasDigit := present Js.isDigit.

(** A symbol, as the word is commonly read: a printable ASCII character
    that is neither a letter, nor a digit, nor the space. *)
Definition isSymbol (c : ascii) : bool :=
  (Js.between 33 47 c || Js.between 58 64 c ||
   Js.between 91 96 c || Js.between 123 126 c)%bool.

Definition hasSymbol := present isSymbol.

(** The twenty special characters, by code:
    ! @ # $ % ^ & * ( ) , . ? the double quote : { } | < > *)
Definition specialCodes : list nat :=
  [ 33; 64; 35; 36; 37; 94; 38; 42; 40; 41; 44; 46; 63; 34; 58; 123; 125; 124; 60; 62 ]%nat.

Definition isSpecial (c : ascii) : bool :=
  existsb (Nat.eqb (Js.code c)) specialCodes.

Definition hasSpecial := present isSpecial.

(** At least three of the four classes are present, [fourth] telling
    whether the fourth is. *)
Definition threeOf (fourth : string -> Prop) (password : string) : Prop :=
  (hasUpper password /\ hasLower password /\ hasDigit password) \/
  (hasUpper password /\ hasLower password /\ fourth password) \/
  (hasUpper password /\ hasDigit password /\ fourth password) \/
  (hasLower password /\ hasDigit password /\ fourth password).

(** The password is one of the listed common passwords, up to case. *)
Definition common (password : string) : Prop :=
  exists w, In w PasswordService.commonPasswords /\
            Js.toLowerCase password = Js.toLowerCase w.

(** The password contains, forward or reversed and up to case, a run of
    three or more consecutive characters of a known sequence. *)
Definition sequentialRun (password : string) : Prop :=
  exists sequence run,
    In sequence PasswordService.sequences /\
    occurs run sequence /\
    (3 <= String.length run)%nat /\
    (occursIgnoringCase run password \/
     occursIgnoringCase (Js.reverse run) password).

(** [n] copies of [c]. *)
Fixpoint copies (n : nat) (c : ascii) : string :=
  match n with
  | O => EmptyString
  | S n' => String c (copies n' c)
  end.

(** The password contains the same character three or more times in a row. *)
Definition repeatedRun (password : string) : Prop :=
  exists c n, (3 <= n)%nat /\ occurs (copies n c) password.

Definition acceptsWith (fourth : string -> Prop) (password : string) : Prop :=
  lengthInRange password /\
  threeOf fourth password /\
  ~ common password /\
  ~ sequentialRun password /\
  ~ repeatedRun password.

(** The policy as the document words it. *)
Definition accepts := acceptsWith hasSymbol.

(** The policy with the fourth class spelled out. *)
Definition acceptsSpecial := acceptsWith hasSpecial.

End PasswordPolicy.

(** ** Concrete data for the examples *)

Module Scenario.

Import TokenService.

Definition day : Z := 24 * 60 * 60 * 1000.

Definition ann : Store.User :=
  {| Store.u_id := "u1"; Store.u_email := "a@x.com";
     Store.u_passwordHash := "hash:Str0ng!Pass";
     Store.u_nickname := Some "Ann"; Store.u_roles := ["STUDENT"];
     Store.u_emailVerified := false; Store.u_mfaEnabled := false;
     Store.u_mfaSecret := None;
     Store.u_lastLoginAt := None; Store.u_lastActivityAt := None |}.

Definition vera : Store.User :=
  {| Store.u_id := "u2"; Store.u_email := "v@x.com";
     Store.u_passwordHash := "hash:C0rrect-Horse";
     Store.u_nickname := None; Store.u_roles := ["TEACHER"];
     Store.u_emailVerified := true; Store.u_mfaEnabled := false;
     Store.u_mfaSecret := None;
     Store.u_lastLoginAt := None; Store.u_lastActivityAt := None |}.

Definition initial : Store.State :=
  Store.setUsers (fun _ => [ann; vera]) Store.empty.

(** The default configuration with refresh tokens that live thirty days. *)
Definition longLived : Config :=
  {| accessTokenExpiry := "15m";
     refreshTokenExpiry := "30d";
     jwtSecret := jwtSecret defaultConfig;
     issuer := issuer defaultConfig;
     audience := audience defaultConfig |}.

(** A stand-in for bcrypt: the digest of a password is the password
    behind a fixed prefix. *)
Definition bcryptCompare (plain hashed : string) : outcome bool :=
  Ok (String.eqb ("hash:" +:+ plain) hashed).

(** A random source that cycles through 0, 1/5, ..., 4/5. *)
Definition random (k : nat) : Q := Z.of_nat (k mod 5) # 5.

(** Ann's session: a pair dated instant 0 under [longLived], with its
    row and its grant in the tables. *)
Definition annTokens : Jwt.text * Jwt.text :=
  (Jwt.Signed (jwtSecret longLived) (Issued.accessPayload longLived 900 0 "j1" ann),
   Jwt.Signed (jwtSecret longLived) (Issued.refreshPayload longLived 2592000 0 "r1" ann)).

Definition annSession : Store.State :=
  Issued.afterPair longLived 900 2592000 0 "j1" "r1" ann initial.

End Scenario.

(** ** PasswordService: scoring and hashing *)

Module PasswordScoring.

(** The list of isCommonPassword. *)
Definition commonPasswords : list string :=
  [ "password"; "password123"; "123456"; "123456789"; "qwerty";
    "abc123"; "password1"; "admin"; "root"; "user"; "guest";
    "welcome"; "letmein"; "monkey"; "dragon"; "sunshine";
    "princess"; "football"; "baseball"; "freedom"; "whatever";
    "trustno1"; "master"; "hello"; "access"; "shadow" ].

(** isCommonPassword *)
Definition isCommonPassword (password : string) : bool :=
  Js.arrayIncludes commonPasswords (Js.toLowerCase password).

(** [/[^a-zA-Z0-9]/] on one character. *)
Definition isNonAlnum (c : ascii) : bool :=
  negb (Js.isLower c || Js.isUpper c || Js.isDigit c).

(** [new Set(password).size] *)
Definition uniqueChars (password : string) : Z :=
  Z.of_nat (List.length (nodup ascii_dec (chars password))).

(** calculatePasswordStrength.  The test [uniqueChars >= length * 0.8]
    is between an integer and 0.8 times an integer: the product is exact
    when it is an integer and lies strictly between two integers when it
    is not, so the test is that of [5 * uniqueChars] against [4 * length]. *)
Definition calculatePasswordStrength (password : string) : Z :=
  let length := Z.of_nat (String.length password) in
  let score := 0 in
  let score := if 8 <=? length then score + 10 else score in
  let score := if 12 <=? length then score + 10 else score in
  let score := if 16 <=? length then score + 10 else score in
  let score := if Js.test Js.isLower password then score + 10 else score in
  let score := if Js.test Js.isUpper password then score + 10 else score in
  let score := if Js.test Js.isDigit password then score + 10 else score in
  let score := if Js.test isNonAlnum password then score + 10 else score in
  let uniqueChars := uniqueChars password in
  let score := score + Z.min 20 (uniqueChars * 2) in
  let score := if PasswordService.hasSequentialChars password 3 then score - 10 else score in
  let score := if PasswordService.hasRepeatingChars password 3 then score - 10 else score in
  let score := if isCommonPassword password then score - 20 else score in
  let score := if 20 <=? length then score + 5 else score in
  let score := if 4 * length <=? 5 * uniqueChars then score + 5 else score in
  Z.max 0 (Z.min 100 score).

(** getPasswordStrengthDescription *)
Definition getPasswordStrengthDescription (score : Z) : string :=
  if 80 <=? score then "Very Strong"
  else if 60 <=? score then "Strong"
  else if 40 <=? score then "Medium"
  else if 20 <=? score then "Weak"
  else "Very Weak".

(** hashPassword: [bcryptHash] is [bcrypt.hash] under a fresh salt, which
    answers or throws.  The plain [Error] of the catch block is carried
    by [LibraryError]. *)
Definition hashPassword (bcryptHash : string -> outcome string) (password : string)
  : outcome string :=
  match bcryptHash password with
  | Ok digest => Ok digest
  | Throw _ => Throw (LibraryError "Failed to hash password")
  end.

End PasswordScoring.

(** ** TokenService: the permission tables *)

(** The three lists that getUserPermissions pushes, role by role. *)
Module Permissions.

Definition admin : list string :=
  [ "users:read"; "users:write"; "users:delete";
    "questions:read"; "questions:write"; "questions:delete"; "questions:review";
    "games:read"; "games:write"; "games:moderate";
    "analytics:read"; "analytics:write";
    "system:read"; "system:write" ].

Definition teacher : list string :=
  [ "users:read";
    "questions:read"; "questions:write"; "questions:review";
    "games:read"; "games:moderate";
    "analytics:read" ].

Definition student : list string :=
  [ "questions:read";
    "games:read"; "games:join";
    "learning:read"; "learning:write" ].

(** [user.roles.includes(role)] *)
Definition hasRole (user : Store.User) (role : string) : Prop :=
  In role (Store.u_roles user).

End Permissions.

(** ** AuthService: the other use cases *)

Module AuthFlows.

Import TokenService AuthService.

(** validateUniqueUser *)
Definition validateUniqueUser (email : string) : M unit :=
  existingUser <- findUserByEmail email ;;
  match existingUser with
  | Some _ => throw (ConflictException "User with this email already exists")
  | None => ret tt
  end.

(** clearUserCache: three deletions, in any order. *)
Definition clearUserCache (userId : string) : M unit :=
  RedisService.del ("user:" +:+ userId) ;;;
  RedisService.del ("user_progress:" +:+ userId) ;;;
  RedisService.del ("user_preferences:" +:+ userId).

(** [if (refreshToken)]: a token was passed and is not the empty string. *)
Definition given (refreshToken : option Jwt.text) : bool :=
  negb (falsy refreshToken).

(** [prisma.user.update({ where: { id }, data })], which refuses a
    missing row. *)
Definition updateUser (userId : string) (data : Store.User -> Store.User) : M unit :=
  found <- findUserById userId ;;
  match found with
  | None => throw (LibraryError "Record to update not found.")
  | Some _ =>
      modify (Store.setUsers (List.map (fun u =>
        if String.eqb (Store.u_id u) userId then data u else u)))
  end.

Definition withPasswordHash (passwordHash : string) (user : Store.User) : Store.User :=
  {| Store.u_id := Store.u_id user; Store.u_email := Store.u_email user;
     Store.u_passwordHash := passwordHash;
     Store.u_nickname := Store.u_nickname user;
     Store.u_roles := Store.u_roles user;
     Store.u_emailVerified := Store.u_emailVerified user;
     Store.u_mfaEnabled := Store.u_mfaEnabled user;
     Store.u_mfaSecret := Store.u_mfaSecret user;
     Store.u_lastLoginAt := Store.u_lastLoginAt user;
     Store.u_lastActivityAt := Store.u_lastActivityAt user |}.

(** The data of verifyEmail; of its two columns the row model keeps the
    flag, the instant of verification being read nowhere. *)
Definition withEmailVerified (user : Store.User) : Store.User :=
  {| Store.u_id := Store.u_id user; Store.u_email := Store.u_email user;
     Store.u_passwordHash := Store.u_passwordHash user;
     Store.u_nickname := Store.u_nickname user;
     Store.u_roles := Store.u_roles user;
     Store.u_emailVerified := true;
     Store.u_mfaEnabled := Store.u_mfaEnabled user;
     Store.u_mfaSecret := Store.u_mfaSecret user;
     Store.u_lastLoginAt := Store.u_lastLoginAt user;
     Store.u_lastActivityAt := Store.u_lastActivityAt user |}.

(** sendPasswordResetEmail *)
Definition sendPasswordResetEmail (now : Z) (email : string) : M unit :=
  user <- findUserByEmail email ;;
  match user with
  | None => ret tt
  | Some user =>
      let rateLimitKey := "reset_password:" +:+ email in
      canSend <- RedisService.checkRateLimit now rateLimitKey 3 300 ;;
      if negb canSend then
        throw (BadRequestException "Too many reset emails sent. Please try again later.")
      else
        modify (Store.setAuthQueue (fun q =>
          q ++ [ {| Store.job_name := "send-password-reset-email";
                    Store.job_userId := Store.u_id user;
                    Store.job_email := Store.u_email user;
                    Store.job_nickname := Store.u_nickname user |} ]))
  end.

Section WithServices.

Variable cfg : Config.
Variable bcryptCompare : string -> string -> outcome bool.
Variable bcryptHash : string -> outcome string.

(** logout *)
Definition logout (now : Z) (userId : string) (refreshToken : option Jwt.text) : M unit :=
  match refreshToken with
  | Some token =>
      if given refreshToken then revokeRefreshToken cfg now token else ret tt
  | None => ret tt
  end ;;;
  revokeAllUserTokens now userId ;;;
  clearUserCache userId ;;;
  logAuthEvent userId "LOGOUT" noDetails.

(** verifyEmail *)
Definition verifyEmail (now : Z) (token : Jwt.text) : M unit :=
  tokenData <- verifyEmailToken cfg now token ;;
  match tokenData with
  | None => throw (BadRequestException "Invalid or expired verification token")
  | Some tokenData =>
      updateUser (td_userId tokenData) withEmailVerified ;;;
      logAuthEvent (td_userId tokenData) "EMAIL_VERIFIED" noDetails
  end.

(** resetPassword *)
Definition resetPassword (now : Z) (token : Jwt.text) (newPassword : string) : M unit :=
  tokenData <- verifyPasswordResetToken cfg now token ;;
  match tokenData with
  | None => throw (BadRequestException "Invalid or expired reset token")
  | Some tokenData =>
      lift (PasswordService.validatePasswordStrength newPassword) ;;;
      passwordHash <- lift (PasswordScoring.hashPassword bcryptHash newPassword) ;;
      updateUser (td_userId tokenData) (withPasswordHash passwordHash) ;;;
      revokeAllUserTokens now (td_userId tokenData) ;;;
      logAuthEvent (td_userId tokenData) "PASSWORD_RESET" noDetails
  end.

(** changePassword *)
Definition changePassword (now : Z) (userId oldPassword newPassword : string) : M unit :=
  user <- findUserById userId ;;
  match user with
  | None => throw (UnauthorizedError "User not found")
  | Some user =>
      let isOldPasswordValid :=
        PasswordService.verifyPassword bcryptCompare oldPassword
          (Store.u_passwordHash user) in
      if negb isOldPasswordValid then
        throw (UnauthorizedError "Invalid current password")
      else
        lift (PasswordService.validatePasswordStrength newPassword) ;;;
        passwordHash <- lift (PasswordScoring.hashPassword bcryptHash newPassword) ;;
        updateUser userId (withPasswordHash passwordHash) ;;;
        revokeAllUserTokens now userId ;;;
        logAuthEvent userId "PASSWORD_CHANGE" noDetails
  end.

End WithServices.

End AuthFlows.

(** ** More concrete data *)

Module Samples.

Import TokenService.

(** Draws that pick A, a, 0 and ! and then b, c, d, e, and keep every
    comparison of the shuffle at or below zero. *)
Definition unluckyRandom (k : nat) : Q :=
  match k with
  | 4%nat => 27 # 88
  | 5%nat => 28 # 88
  | 6%nat => 29 # 88
  | 7%nat => 30 # 88
  | _ => 0
  end.

(** A user with the second factor enabled, and an administrator. *)
Definition mia : Store.User :=
  {| Store.u_id := "u3"; Store.u_email := "m@x.com";
     Store.u_passwordHash := "hash:S3cure#Word";
     Store.u_nickname := Some "Mia"; Store.u_roles := ["STUDENT"];
     Store.u_emailVerified := true; Store.u_mfaEnabled := true;
     Store.u_mfaSecret := Some "JBSWY3DPEHPK3PXP";
     Store.u_lastLoginAt := None; Store.u_lastActivityAt := None |}.

Definition root : Store.User :=
  {| Store.u_id := "u4"; Store.u_email := "root@x.com";
     Store.u_passwordHash := "hash:Adm1n#Only";
     Store.u_nickname := None; Store.u_roles := ["ADMIN"];
     Store.u_emailVerified := true; Store.u_mfaEnabled := false;
     Store.u_mfaSecret := None;
     Store.u_lastLoginAt := None; Store.u_lastActivityAt := None |}.

Definition people : Store.State :=
  Store.setUsers (fun _ => [Scenario.ann; Scenario.vera; mia; root]) Store.empty.

(** A stand-in for hashing, matching [Scenario.bcryptCompare]. *)
Definition bcryptHash (plain : string) : outcome string :=
  Ok ("hash:" +:+ plain).

(** Ann's login form, with and without the right password, and Mia's. *)
Definition annLogin (password : string) : AuthService.LoginDto :=
  {| AuthService.dto_email := " A@X.com ";
     AuthService.dto_password := password;
     AuthService.dto_rememberMe := Some true;
     AuthService.dto_clientInfo :=
       Some {| AuthService.userAgent := "browser"; AuthService.ip := "10.0.0.7";
               AuthService.device := "laptop" |} |}.

Definition miaLogin : AuthService.LoginDto :=
  {| AuthService.dto_email := "m@x.com";
     AuthService.dto_password := "S3cure#Word";
     AuthService.dto_rememberMe := None;
     AuthService.dto_clientInfo := None |}.

End Samples.

(** * Properties *)

(** ** The embedding on sample inputs *)

Example strong_password_accepted :
  PasswordService.validatePasswordStrength "Str0ng!Pass" = Ok tt.
Proof. reflexivity. Qed.

Example common_password_rejected :
  PasswordService.validatePasswordStrength "Password123"
  = Throw (ValidationError
             "Password is too common. Please choose a more secure password" "password").
Proof. reflexivity. Qed.

Example mixed_case_run_rejected :
  PasswordService.validatePasswordStrength "aBcx!9Zq"
  = Throw (ValidationError
             "Password should not contain 3 or more sequential characters" "password").
Proof. reflexivity. Qed.

Example reversed_keyboard_run_rejected :
  PasswordService.hasSequentialChars "xx!9ZqPoI" 3 = true.
Proof. reflexivity. Qed.

Example repeated_run_rejected :
  PasswordService.validatePasswordStrength "xx!9ZqAAA"
  = Throw (ValidationError
             "Password should not contain 3 or more repeating characters" "password").
Proof. reflexivity. Qed.

Example parseExpiryToSeconds_samples :
  TokenService.parseExpiryToSeconds "15m" = 900 /\
  TokenService.parseExpiryToSeconds "7d" = 604800 /\
  TokenService.parseExpiryToSeconds "2w" = 1209600 /\
  TokenService.parseExpiryToSeconds "45" = 45 /\
  TokenService.parseExpiryToSeconds "soon" = 3600 /\
  TokenService.parseExpiryToSeconds "" = 3600.
Proof. repeat split; reflexivity. Qed.

Example permissions_of_teacher :
  TokenService.getUserPermissions Scenario.vera
  = [ "users:read"; "questions:read"; "questions:write"; "questions:review";
      "games:read"; "games:moderate"; "analytics:read" ].
Proof. reflexivity. Qed.

(** ** Strings as lists of characters *)

Lemma chars_app (a b : string) : chars (a +:+ b) = chars a ++ chars b.
Proof. induction a as [|c a IH]; simpl; [reflexivity | now rewrite IH]. Qed.

Lemma chars_inj (a b : string) : chars a = chars b -> a = b.
Proof.
  intros H.
  rewrite <- (string_of_list_ascii_of_string a), <- (string_of_list_ascii_of_string b).
  now rewrite H.
Qed.

Lemma chars_length (s : string) : length (chars s) = String.length s.
Proof. induction s as [|c s IH]; simpl; [reflexivity | now rewrite IH]. Qed.

Lemma chars_toLowerCase (s : string) :
  chars (Js.toLowerCase s) = map Js.lowerChar (chars s).
Proof. induction s as [|c s IH]; simpl; [reflexivity | now rewrite IH]. Qed.

Lemma chars_reverse (s : string) : chars (Js.reverse s) = rev (chars s).
Proof. unfold Js.reverse. apply list_ascii_of_string_of_list_ascii. Qed.

Lemma chars_get (s : string) (i : nat) : String.get i s = chars s !! i.
Proof.
  revert i. induction s as [|c s IH]; intros [|i]; simpl; try reflexivity.
  apply IH.
Qed.

Lemma chars_from (s : string) (i : nat) : chars (Js.from i s) = drop i (chars s).
Proof.
  revert s. induction i as [|i IH]; intros [|c s]; simpl; try reflexivity.
  apply IH.
Qed.

Lemma chars_substring (s : string) (i n : nat) :
  chars (String.substring i n s) = take n (drop i (chars s)).
Proof.
  revert i n. induction s as [|c s IH]; intros [|i] [|n]; simpl; try reflexivity.
  - now rewrite IH.
  - now rewrite IH.
  - now rewrite IH.
Qed.

Lemma chars_copies (n : nat) (c : ascii) : chars (PasswordPolicy.copies n c) = replicate n c.
Proof. induction n as [|n IH]; simpl; [reflexivity | now rewrite IH]. Qed.

Lemma occurs_chars (w s : string) :
  PasswordPolicy.occurs w s <-> exists l1 l2, chars s = l1 ++ chars w ++ l2.
Proof.
  split.
  - intros (a & b & ->). exists (chars a), (chars b). now rewrite !chars_app.
  - intros (l1 & l2 & H).
    exists (string_of_list_ascii l1), (string_of_list_ascii l2).
    apply chars_inj.
    now rewrite !chars_app, !list_ascii_of_string_of_list_ascii.
Qed.

(** ** The primitives against their meaning *)

Lemma prefix_chars (a b : string) :
  String.prefix a b = true <-> exists l, chars b = chars a ++ l.
Proof.
  revert b. induction a as [|c a IH]; intros b.
  - split; [intros _; now exists (chars b) | now destruct b].
  - destruct b as [|d b]; simpl.
    + split; [discriminate | intros (l & H); discriminate].
    + destruct (ascii_dec c d) as [->|Hne].
      * rewrite IH. split; intros (l & H); exists l; [now rewrite H | now inversion H].
      * split; [discriminate | intros (l & H); inversion H; congruence].
Qed.

Lemma includes_occurs (s w : string) :
  Js.includes s w = true <-> PasswordPolicy.occurs w s.
Proof.
  rewrite occurs_chars.
  induction s as [|c s IH].
  - change (Js.includes "" w) with (String.prefix w "" || false)%bool.
    rewrite orb_false_r, prefix_chars. split.
    + intros (l & H). now exists [], l.
    + intros (l1 & l2 & H). exists l2. simpl.
      destruct l1; [exact H | discriminate].
  - change (Js.includes (String c s) w)
      with (String.prefix w (String c s) || Js.includes s w)%bool.
    rewrite orb_true_iff, IH, prefix_chars. simpl. split.
    + intros [(l & H) | (l1 & l2 & H)].
      * now exists [], l.
      * exists (c :: l1), l2. simpl. now rewrite H.
    + intros (l1 & l2 & H). destruct l1 as [|d l1]; simpl in H.
      * left. now exists l2.
      * right. inversion H. now exists l1, l2.
Qed.

Lemma test_present (cls : ascii -> bool) (s : string) :
  Js.test cls s = true <-> PasswordPolicy.present cls s.
Proof.
  unfold PasswordPolicy.present. split.
  - induction s as [|c s IH]; simpl; [discriminate|].
    rewrite orb_true_iff. intros [H | H].
    + exists c. split; [exact H|]. now exists "", s.
    + destruct (IH H) as (d & Hd & a & b & ->).
      exists d. split; [exact Hd|]. now exists (String c a), b.
  - intros (d & Hd & a & b & ->). clear -Hd.
    induction a as [|c a IH]; simpl.
    + now rewrite Hd.
    + rewrite orb_true_iff. now right.
Qed.

Lemma arrayIncludes_In (arr : list string) (x : string) :
  Js.arrayIncludes arr x = true <-> In x arr.
Proof.
  unfold Js.arrayIncludes. rewrite existsb_exists. split.
  - intros (w & Hin & Heq). apply String.eqb_eq in Heq. now subst.
  - intros Hin. exists x. split; [exact Hin | apply String.eqb_refl].
Qed.

Lemma windowStarts_In (len minLength i : nat) :
  (0 < minLength)%nat ->
  In i (PasswordService.windowStarts len minLength) <-> (i + minLength <= len)%nat.
Proof. intros Hpos. unfold PasswordService.windowStarts. rewrite in_seq. lia. Qed.

(** ** The checks of validatePasswordStrength against the policy *)

(** The class of the complexity check is the set of the twenty special
    characters. *)
Lemma isSpecialChar_special (c : ascii) :
  PasswordService.isSpecialChar c = PasswordPolicy.isSpecial c.
Proof. destruct c as [[] [] [] [] [] [] [] []]; reflexivity. Qed.

Lemma test_ext (f g : ascii -> bool) (s : string) :
  (forall c, f c = g c) -> Js.test f s = Js.test g s.
Proof. intros Hfg. induction s as [|c s IH]; simpl; [reflexivity|]. now rewrite Hfg, IH. Qed.

Lemma complexity_threeClasses (password : string) :
  Nat.ltb (PasswordService.countTrue
             [Js.test Js.isUpper password; Js.test Js.isLower password;
              Js.test Js.isDigit password;
              Js.test PasswordService.isSpecialChar password]) 3 = false
  <-> PasswordPolicy.threeOf PasswordPolicy.hasSpecial password.
Proof.
  unfold PasswordPolicy.threeOf, PasswordPolicy.hasUpper, PasswordPolicy.hasLower,
    PasswordPolicy.hasDigit, PasswordPolicy.hasSpecial.
  rewrite <- !test_present.
  rewrite (test_ext _ _ password isSpecialChar_special).
  destruct (Js.test Js.isUpper password), (Js.test Js.isLower password),
    (Js.test Js.isDigit password), (Js.test PasswordPolicy.isSpecial password);
    simpl; intuition discriminate.
Qed.

Lemma commonPasswords_lower :
  Forall (fun w => Js.toLowerCase w = w) PasswordService.commonPasswords.
Proof. repeat constructor. Qed.

Lemma common_check (password : string) :
  Js.arrayIncludes PasswordService.commonPasswords (Js.toLowerCase password) = true
  <-> PasswordPolicy.common password.
Proof.
  rewrite arrayIncludes_In. unfold PasswordPolicy.common.
  pose proof commonPasswords_lower as Hlow. rewrite List.Forall_forall in Hlow.
  split.
  - intros Hin. exists (Js.toLowerCase password). split; [exact Hin|].
    symmetry. now apply Hlow.
  - intros (w & Hin & Heq). rewrite Heq, (Hlow w Hin). exact Hin.
Qed.

Lemma hasSequentialChars_run (password : string) :
  PasswordService.hasSequentialChars password 3 = true
  <-> PasswordPolicy.sequentialRun password.
Proof.
  unfold PasswordService.hasSequentialChars, PasswordPolicy.sequentialRun,
    PasswordPolicy.occursIgnoringCase.
  rewrite existsb_exists. split.
  - intros (sequence & Hseq & Hex).
    apply existsb_exists in Hex. destruct Hex as (i & Hi & Hinc).
    apply windowStarts_In in Hi; [|lia].
    unfold Js.substring in Hinc. replace (i + 3 - i)%nat with 3%nat in Hinc by lia.
    exists sequence, (String.substring i 3 sequence).
    split; [exact Hseq|]. split; [|split].
    + apply occurs_chars.
      exists (take i (chars sequence)), (drop 3 (drop i (chars sequence))).
      now rewrite chars_substring, !take_drop.
    + rewrite <- chars_length, chars_substring, length_take, length_drop, chars_length. lia.
    + apply orb_true_iff in Hinc. now rewrite !includes_occurs in Hinc.
  - intros (sequence & run & Hseq & Hocc & Hlen & Hin).
    exists sequence. split; [exact Hseq|].
    apply occurs_chars in Hocc. destruct Hocc as (l1 & l2 & Hs).
    rewrite <- chars_length in Hlen.
    apply existsb_exists. exists (length l1). split.
    + apply windowStarts_In; [lia|].
      rewrite <- chars_length, Hs, !length_app. lia.
    + unfold Js.substring. replace (length l1 + 3 - length l1)%nat with 3%nat by lia.
      assert (Hw : chars (String.substring (length l1) 3 sequence) = take 3 (chars run)).
      { rewrite chars_substring, Hs, drop_app_length, take_app_le by lia. reflexivity. }
      rewrite orb_true_iff, !includes_occurs, !occurs_chars.
      rewrite !chars_toLowerCase, chars_reverse, Hw.
      destruct Hin as [Hf | Hr].
      * left. apply occurs_chars in Hf. destruct Hf as (a & b & Hf).
        rewrite !chars_toLowerCase in Hf.
        exists a, (map Js.lowerChar (drop 3 (chars run)) ++ b).
        rewrite Hf. rewrite <- (take_drop 3 (chars run)) at 1.
        now rewrite map_app, <- app_assoc.
      * right. apply occurs_chars in Hr. destruct Hr as (a & b & Hr).
        rewrite !chars_toLowerCase, chars_reverse in Hr.
        exists (a ++ map Js.lowerChar (rev (drop 3 (chars run)))), b.
        rewrite Hr. rewrite <- (take_drop 3 (chars run)) at 1.
        now rewrite rev_app_distr, map_app, <- !app_assoc.
Qed.

Lemma repeatLoop_two (c : ascii) (rest : string) :
  PasswordService.repeatLoop c 3 1 rest = true
  <-> exists l, chars rest = c :: c :: l.
Proof.
  destruct rest as [|d1 [|d2 rest]]; simpl.
  - split; [discriminate | intros (l & H); discriminate].
  - destruct (Ascii.eqb d1 c); split; try discriminate; intros (l & H); discriminate.
  - destruct (Ascii.eqb_spec d1 c) as [->|Hne1].
    + destruct (Ascii.eqb_spec d2 c) as [->|Hne2].
      * split; [intros _; now exists (chars rest) | reflexivity].
      * split; [discriminate | intros (l & H); inversion H; congruence].
    + split; [discriminate | intros (l & H); inversion H; congruence].
Qed.

Lemma hasRepeatingChars_run (password : string) :
  PasswordService.hasRepeatingChars password 3 = true
  <-> PasswordPolicy.repeatedRun password.
Proof.
  unfold PasswordService.hasRepeatingChars, PasswordPolicy.repeatedRun.
  rewrite existsb_exists. split.
  - intros (i & Hi & Hrun).
    rewrite chars_get in Hrun.
    destruct (chars password !! i) as [c|] eqn:Hc; [|discriminate].
    apply repeatLoop_two in Hrun. destruct Hrun as (l & Hl).
    rewrite chars_from in Hl.
    exists c, 3%nat. split; [lia|].
    apply occurs_chars. exists (take i (chars password)), l.
    rewrite <- (take_drop_middle _ _ _ Hc) at 1. now rewrite Hl.
  - intros (c & n & Hn & Hocc).
    apply occurs_chars in Hocc. destruct Hocc as (l1 & l2 & Hp).
    rewrite chars_copies in Hp.
    destruct n as [|[|[|n]]]; try lia. simpl in Hp.
    exists (length l1). split.
    + apply windowStarts_In; [lia|].
      rewrite <- chars_length, Hp, length_app. simpl. lia.
    + rewrite chars_get, Hp, list_lookup_middle by reflexivity.
      apply repeatLoop_two. rewrite chars_from, Hp.
      exists (replicate n c ++ l2).
      change (S (length l1)) with (1 + length l1)%nat.
      rewrite Nat.add_comm, <- drop_drop, drop_app_length. reflexivity.
Qed.

(** C2, as the code has it.  For every password, validatePasswordStrength
    returns without an error if and only if the password has between 8 and
    128 characters, shows at least three of the four character classes
    uppercase, lowercase, digit and special character, is not a listed
    common password up to letter case, contains no run of three or more
    consecutive characters of a known alphabet, digit or keyboard sequence
    (forward or reversed, letter case ignored), and contains no character
    three or more times in a row.  The special characters are twenty:
    ! @ # $ % ^ & * ( ) , . ? the double quote : { } | < > and no other
    symbol stands for the fourth class. *)
Theorem validatePasswordStrength_accepts_iff_policy (password : string) :
  PasswordService.validatePasswordStrength password = Ok tt
  <-> PasswordPolicy.acceptsSpecial password.
Proof.
  unfold PasswordPolicy.acceptsSpecial, PasswordPolicy.acceptsWith,
    PasswordPolicy.lengthInRange.
  rewrite <- complexity_threeClasses, <- common_check,
    <- hasSequentialChars_run, <- hasRepeatingChars_run.
  unfold PasswordService.validatePasswordStrength.
  destruct (Nat.ltb_spec (String.length password) 8) as [Hmin | Hmin].
  { split; [discriminate | intros [Hlen _]; lia]. }
  destruct (Nat.ltb_spec 128 (String.length password)) as [Hmax | Hmax].
  { split; [discriminate | intros [Hlen _]; lia]. }
  destruct (Nat.ltb _ 3) eqn:Hclasses.
  { split; [discriminate | intros (_ & H & _); discriminate]. }
  destruct (Js.arrayIncludes _ _) eqn:Hcommon.
  { split; [discriminate | intros (_ & _ & H & _); now destruct H]. }
  destruct (PasswordService.hasSequentialChars password 3) eqn:Hseq.
  { split; [discriminate | intros (_ & _ & _ & H & _); now destruct H]. }
  destruct (PasswordService.hasRepeatingChars password 3) eqn:Hrep.
  { split; [discriminate | intros (_ & _ & _ & _ & H); now destruct H]. }
  split; [intros _ | reflexivity].
  repeat split; try lia; discriminate.
Qed.

(** C2, as the document words it, fails: with symbol read as any
    printable character that is neither letter, digit nor space, the
    password Xk_mTz-qWr has ten characters, uppercase and lowercase
    letters and the symbols _ and -, is not common and has no run, so the
    policy accepts it; validatePasswordStrength refuses it, neither symbol
    being one of the twenty special characters. *)
Lemma underscore_and_hyphen_count_for_no_class :
  PasswordPolicy.accepts "Xk_mTz-qWr" /\
  PasswordService.validatePasswordStrength "Xk_mTz-qWr"
  = Throw (ValidationError
             "Password must contain at least 3 of the following: uppercase letter, lowercase letter, number, special character"
             "password") /\
  ~ (PasswordService.validatePasswordStrength "Xk_mTz-qWr" = Ok tt
     <-> PasswordPolicy.accepts "Xk_mTz-qWr").
Proof.
  assert (Hpolicy : PasswordPolicy.accepts "Xk_mTz-qWr").
  { unfold PasswordPolicy.accepts, PasswordPolicy.acceptsWith.
    rewrite <- common_check, <- hasSequentialChars_run, <- hasRepeatingChars_run.
    split; [unfold PasswordPolicy.lengthInRange; simpl; lia|].
    split; [|repeat split; discriminate].
    right. left.
    unfold PasswordPolicy.hasUpper, PasswordPolicy.hasLower, PasswordPolicy.hasSymbol.
    rewrite <- !test_present. repeat split; reflexivity. }
  split; [exact Hpolicy|]. split; [reflexivity|].
  intros [_ Hback]. specialize (Hback Hpolicy). discriminate.
Qed.

(** ** generateRandomPassword *)

Lemma present_In (cls : ascii -> bool) (s : string) :
  PasswordPolicy.present cls s <-> exists c, In c (chars s) /\ cls c = true.
Proof.
  unfold PasswordPolicy.present. split.
  - intros (c & Hc & Hocc). apply occurs_chars in Hocc.
    destruct Hocc as (l1 & l2 & H). exists c. split; [|exact Hc].
    rewrite H. apply in_or_app. right. now left.
  - intros (c & Hin & Hc). exists c. split; [exact Hc|].
    apply occurs_chars. apply in_split in Hin. destruct Hin as (l1 & l2 & H).
    now exists l1, l2.
Qed.

(** A draw in [[0, 1)] scaled to a positive length lands on an index. *)
Lemma random_index (r : Q) (n : Z) :
  (0 <= r)%Q -> (r < 1)%Q -> 0 < n ->
  0 <= Qfloor (r * inject_Z n) < n.
Proof.
  intros H0 H1 Hn.
  assert (Hpos : (0 < inject_Z n)%Q).
  { change 0%Q with (inject_Z 0). rewrite <- Zlt_Qlt. exact Hn. }
  split.
  - change 0 with (Qfloor 0) at 1. apply Qfloor_resp_le.
    apply Qmult_le_0_compat; [exact H0 | now apply Qlt_le_weak].
  - rewrite Zlt_Qlt. eapply Qle_lt_trans; [apply Qfloor_le|].
    apply Qlt_le_trans with (1 * inject_Z n)%Q.
    + now apply Qmult_lt_compat_r.
    + rewrite Qmult_1_l. apply Qle_refl.
Qed.

Section RandomDraws.

Variable random : nat -> Q.
Hypothesis random_range : forall k, (0 <= random k)%Q /\ (random k < 1)%Q.

Lemma getRandomChar_in (charset : string) (k : nat) :
  charset <> EmptyString ->
  exists c, PasswordService.getRandomChar random charset k = String c EmptyString
            /\ In c (chars charset).
Proof.
  intros Hne. unfold PasswordService.getRandomChar, Js.charAt.
  destruct (random_range k) as [H0 H1].
  assert (Hlen : 0 < Z.of_nat (String.length charset)).
  { destruct charset; [congruence | simpl; lia]. }
  pose proof (random_index _ _ H0 H1 Hlen) as [Hlo Hhi].
  set (i := Qfloor _) in *.
  destruct (Z.ltb_spec i 0) as [Hneg|_]; [lia|].
  rewrite chars_get.
  destruct (chars charset !! Z.to_nat i) as [c|] eqn:Hc.
  - exists c. split; [reflexivity|].
    apply list_elem_of_In. eapply list_elem_of_lookup_2. exact Hc.
  - apply lookup_ge_None in Hc. rewrite chars_length in Hc. lia.
Qed.

Lemma fill_chars (n k : nat) (password : string) :
  exists l, chars (PasswordService.fill random n k password) = chars password ++ l
            /\ length l = n.
Proof.
  revert k password. induction n as [|n IH]; intros k password; simpl.
  - exists []. now rewrite app_nil_r.
  - destruct (getRandomChar_in PasswordService.allChars k) as (c & Hc & _);
      [discriminate|].
    destruct (IH (S k) (password +:+ PasswordService.getRandomChar random
                                       PasswordService.allChars k))
      as (l & Hl & Hlen).
    exists (c :: l). rewrite Hl, chars_app, Hc. simpl.
    rewrite <- app_assoc. simpl. split; [reflexivity | now rewrite Hlen].
Qed.

End RandomDraws.

Lemma uppercase_isUpper :
  Forall (fun c => Js.isUpper c = true) (chars PasswordService.uppercase).
Proof. repeat constructor. Qed.

Lemma lowercase_isLower :
  Forall (fun c => Js.isLower c = true) (chars PasswordService.lowercase).
Proof. repeat constructor. Qed.

Lemma numbers_isDigit :
  Forall (fun c => Js.isDigit c = true) (chars PasswordService.numbers).
Proof. repeat constructor. Qed.

Lemma symbols_isSymbol :
  Forall (fun c => PasswordService.isSymbol c = true) (chars PasswordService.symbols).
Proof. repeat constructor. Qed.

(** C10.  For every requested length and every outcome of the random
    source, generateRandomPassword returns exactly max(length, 4)
    characters, among them an uppercase letter, a lowercase letter, a digit
    and a symbol; so a request below 4 still yields 4 characters. *)
Theorem generateRandomPassword_length_and_classes
  (random : nat -> Q) (arraySort : (nat -> Q) -> list ascii -> list ascii)
  (length : Z) :
  (forall k, (0 <= random k)%Q /\ (random k < 1)%Q) ->
  (forall cmp l, Permutation (arraySort cmp l) l) ->
  let password := PasswordService.generateRandomPassword random arraySort length in
  String.length password = Z.to_nat (Z.max length 4) /\
  PasswordPolicy.present Js.isUpper password /\
  PasswordPolicy.present Js.isLower password /\
  PasswordPolicy.present Js.isDigit password /\
  PasswordPolicy.present PasswordService.isSymbol password.
Proof.
  intros Hrange Hsort password.
  destruct (getRandomChar_in random Hrange PasswordService.uppercase 0) as (c1 & E1 & In1);
    [discriminate|].
  destruct (getRandomChar_in random Hrange PasswordService.lowercase 1) as (c2 & E2 & In2);
    [discriminate|].
  destruct (getRandomChar_in random Hrange PasswordService.numbers 2) as (c3 & E3 & In3);
    [discriminate|].
  destruct (getRandomChar_in random Hrange PasswordService.symbols 3) as (c4 & E4 & In4);
    [discriminate|].
  pose proof uppercase_isUpper as U. rewrite List.Forall_forall in U.
  pose proof lowercase_isLower as L. rewrite List.Forall_forall in L.
  pose proof numbers_isDigit as D. rewrite List.Forall_forall in D.
  pose proof symbols_isSymbol as S. rewrite List.Forall_forall in S.
  subst password. unfold PasswordService.generateRandomPassword.
  cbv zeta. rewrite E1, E2, E3, E4. 
  change (((("" +:+ String c1 "") +:+ String c2 "") +:+ String c3 "") +:+ String c4 "")
    with (String c1 (String c2 (String c3 (String c4 "")))).
  set (n := Z.to_nat (length - 4)).
  destruct (fill_chars random Hrange n 4
              (String c1 (String c2 (String c3 (String c4 EmptyString)))))
    as (l & Hl & Hlen).
  set (cmp := fun k : nat => _).
  pose proof (Hsort cmp (chars (PasswordService.fill random n 4
      (String c1 (String c2 (String c3 (String c4 EmptyString))))))) as Hperm.
  rewrite Hl in Hperm. rewrite Hl. simpl in Hperm. simpl.
  set (out := arraySort cmp _) in *.
  assert (Hmem : forall c, In c [c1; c2; c3; c4] -> In c out).
  { intros c Hc. eapply Permutation_in; [symmetry; exact Hperm|].
    simpl in Hc. simpl. tauto. }
  split; [|repeat split].
  - rewrite <- chars_length, list_ascii_of_string_of_list_ascii.
    rewrite (Permutation_length Hperm). simpl. rewrite Hlen. subst n. lia.
  - apply present_In. rewrite list_ascii_of_string_of_list_ascii.
    exists c1. split; [apply Hmem; simpl; tauto | now apply U].
  - apply present_In. rewrite list_ascii_of_string_of_list_ascii.
    exists c2. split; [apply Hmem; simpl; tauto | now apply L].
  - apply present_In. rewrite list_ascii_of_string_of_list_ascii.
    exists c3. split; [apply Hmem; simpl; tauto | now apply D].
  - apply present_In. rewrite list_ascii_of_string_of_list_ascii.
    exists c4. split; [apply Hmem; simpl; tauto | now apply S].
Qed.

Import TokenService Issued.

(** ** Signing and verifying *)

Lemma seconds_before_lapse (issued now seconds : Z) :
  now / 1000 < issued / 1000 + seconds -> now < issued + seconds * 1000.
Proof.
  intros H.
  pose proof (Z.mul_div_le issued 1000 ltac:(lia)).
  assert (now / 1000 <= issued / 1000 + seconds - 1) by lia.
  pose proof (Z.mod_pos_bound now 1000 ltac:(lia)).
  pose proof (Z.div_mod now 1000 ltac:(lia)).
  lia.
Qed.

(** A token signed with the configuration's secret, issuer and audience
    verifies under [verifyOptions] until its expiry. *)
Lemma verify_signed (cfg : Config) (now : Z) (p : Jwt.Payload) :
  Jwt.iss p = Some (issuer cfg) ->
  Jwt.aud p = Some (audience cfg) ->
  Jwt.expired now p = false ->
  Jwt.verify now (Jwt.Signed (jwtSecret cfg) p) (verifyOptions cfg) = Ok p.
Proof.
  intros Hiss Haud Hexp. unfold Jwt.verify, verifyOptions. simpl.
  rewrite String.eqb_refl, Hexp, Hiss, Haud. simpl.
  now rewrite !String.eqb_refl.
Qed.

Lemma redis_get_setex (now now' seconds : Z) (key : string) (value : Jwt.text)
  (st : Store.State) :
  0 < seconds -> now' < now + seconds * 1000 ->
  exists st', RedisService.setex now key seconds value st = (Ok tt, st') /\
              Store.redis st' = <[key := (value, now + seconds * 1000)]> (Store.redis st) /\
              fst (RedisService.get now' key st') = Ok (Some value).
Proof.
  intros Hpos Hlive. unfold RedisService.setex, RedisService.get. run.
  destruct (Z.leb_spec seconds 0) as [|_]; [lia|].
  eexists. split; [reflexivity|]. split; [reflexivity|]. simpl.
  rewrite lookup_insert_eq.
  destruct (Z.ltb_spec now' (now + seconds * 1000)) as [_|]; [reflexivity | lia].
Qed.

(** ** Single-use tokens *)

Lemma generateEmailVerificationToken_shape cfg now jti userId email :
  generateEmailVerificationToken cfg now jti userId email =
  generateSingleUse cfg "email_verification" "24h" 86400 now jti userId email.
Proof. reflexivity. Qed.

Lemma verifyEmailToken_shape cfg now token :
  verifyEmailToken cfg now token = verifySingleUse cfg "email_verification" now token.
Proof. reflexivity. Qed.

Lemma generatePasswordResetToken_shape cfg now jti userId email :
  generatePasswordResetToken cfg now jti userId email =
  generateSingleUse cfg "password_reset" "1h" 3600 now jti userId email.
Proof. reflexivity. Qed.

Lemma verifyPasswordResetToken_shape cfg now token :
  verifyPasswordResetToken cfg now token = verifySingleUse cfg "password_reset" now token.
Proof. reflexivity. Qed.

Lemma generateSingleUse_run cfg purpose expiresIn ttl now jti userId email st :
  Jwt.timespan expiresIn = Some ttl -> 0 < ttl ->
  generateSingleUse cfg purpose expiresIn ttl now jti userId email st =
  (Ok (singleUseToken cfg purpose ttl now jti userId email),
   Store.setRedis (fun m =>
     <[purpose +:+ ":" +:+ userId :=
         (singleUseToken cfg purpose ttl now jti userId email, now + ttl * 1000)]> m) st).
Proof.
  intros Hspan Hpos. unfold generateSingleUse, Jwt.sign, RedisService.setex. run.
  simpl. rewrite Hspan.
  destruct (Z.leb_spec ttl 0) as [|_]; [lia | reflexivity].
Qed.

Lemma singleUseToken_verify cfg purpose lifetime issued now jti userId email :
  now / 1000 < issued / 1000 + lifetime ->
  Jwt.verify now (singleUseToken cfg purpose lifetime issued jti userId email)
    (verifyOptions cfg)
  = Ok {| Jwt.sub := userId; Jwt.email := Some email; Jwt.roles := None;
          Jwt.permissions := None; Jwt.type := Some purpose; Jwt.jti := Some jti;
          Jwt.iat := issued / 1000; Jwt.exp := Some (issued / 1000 + lifetime);
          Jwt.iss := Some (issuer cfg); Jwt.aud := Some (audience cfg) |}.
Proof.
  intros Hlive. apply verify_signed; try reflexivity.
  unfold Jwt.expired. simpl. apply Z.leb_gt. exact Hlive.
Qed.

(** What a verification that finds no matching cache entry does: nothing. *)
Lemma verifySingleUse_miss cfg purpose now token st :
  (forall p, Jwt.verify now token (verifyOptions cfg) = Ok p ->
             fst (RedisService.get now (purpose +:+ ":" +:+ Jwt.sub p) st)
             <> Ok (Some token)) ->
  verifySingleUse cfg purpose now token st = (Ok None, st).
Proof.
  intros Hmiss. unfold verifySingleUse. run.
  destruct (Jwt.verify now token (verifyOptions cfg)) as [p|e] eqn:Hv; [|reflexivity].
  destruct (negb (bool_decide (Jwt.type p = Some purpose))); [reflexivity|].
  specialize (Hmiss p eq_refl). unfold RedisService.get in *. run. simpl in *.
  rewrite bool_decide_eq_false_2; [reflexivity|].
  intros Heq. apply Hmiss. now rewrite Heq.
Qed.

(** What a verification that finds the presented token cached does:
    it deletes the entry and returns the token's subject and e-mail. *)
Lemma verifySingleUse_hit cfg purpose now token p st :
  Jwt.verify now token (verifyOptions cfg) = Ok p ->
  Jwt.type p = Some purpose ->
  fst (RedisService.get now (purpose +:+ ":" +:+ Jwt.sub p) st) = Ok (Some token) ->
  verifySingleUse cfg purpose now token st =
  (Ok (Some {| td_userId := Jwt.sub p; td_email := Jwt.email p;
               td_type := purpose; td_jti := None |}),
   Store.setRedis (fun m => delete (purpose +:+ ":" +:+ Jwt.sub p) m) st).
Proof.
  intros Hv Hty Hget. unfold verifySingleUse. run. rewrite Hv.
  rewrite bool_decide_eq_true_2 by exact Hty. simpl.
  unfold RedisService.get in *. run. simpl in *.
  inversion Hget as [Hg]. rewrite Hg.
  rewrite bool_decide_eq_true_2 by reflexivity. reflexivity.
Qed.

Lemma redis_get_deleted now key st :
  fst (RedisService.get now key (Store.setRedis (fun m => delete key m) st)) = Ok None.
Proof. unfold RedisService.get. run. simpl. now rewrite lookup_delete_eq. Qed.

Lemma redis_get_inserted now key value lapse st :
  fst (RedisService.get now key
         (Store.setRedis (fun m => <[key := (value, lapse)]> m) st))
  = Ok (if now <? lapse then Some value else None).
Proof. unfold RedisService.get. run. simpl. now rewrite lookup_insert_eq. Qed.

(** Issue, verify, verify again: the first verification succeeds and
    removes the entry, the second finds nothing. *)
Lemma single_use_consumed cfg purpose expiresIn ttl st now now1 now2 jti userId email :
  Jwt.timespan expiresIn = Some ttl -> 0 < ttl ->
  now1 / 1000 < now / 1000 + ttl ->
  exists token st1 st2,
    generateSingleUse cfg purpose expiresIn ttl now jti userId email st = (Ok token, st1) /\
    verifySingleUse cfg purpose now1 token st1 =
      (Ok (Some {| td_userId := userId; td_email := Some email;
                   td_type := purpose; td_jti := None |}), st2) /\
    Store.redis st2 !! (purpose +:+ ":" +:+ userId) = None /\
    verifySingleUse cfg purpose now2 token st2 = (Ok None, st2).
Proof.
  intros Hspan Hpos Hlive.
  pose proof (singleUseToken_verify cfg purpose ttl now now1 jti userId email Hlive) as Hv.
  set (token := singleUseToken cfg purpose ttl now jti userId email) in *.
  set (st1 := Store.setRedis (fun m =>
                <[purpose +:+ ":" +:+ userId := (token, now + ttl * 1000)]> m) st).
  exists token, st1,
    (Store.setRedis (fun m => delete (purpose +:+ ":" +:+ userId) m) st1).
  split; [now apply generateSingleUse_run|].
  split; [|split].
  - rewrite (verifySingleUse_hit _ _ _ _ _ _ Hv); [reflexivity | reflexivity |].
    simpl Jwt.sub. subst st1. rewrite redis_get_inserted.
    apply seconds_before_lapse in Hlive.
    destruct (Z.ltb_spec now1 (now + ttl * 1000)); [reflexivity | lia].
  - simpl. apply lookup_delete_eq.
  - apply verifySingleUse_miss. intros p Hp.
    unfold token, singleUseToken, Jwt.verify in Hp.
    repeat match type of Hp with
           | (if ?b then _ else _) = _ => destruct b; [discriminate|]
           end.
    inversion Hp; subst p; clear Hp. simpl Jwt.sub.
    rewrite redis_get_deleted. discriminate.
Qed.

(** C3.  For both single-use purposes: after a token is issued, the first
    verification before its expiry succeeds and leaves no cache entry for
    that user, and a second verification of the same token, at whatever
    instant (so also before the expiry), returns invalid. *)
Theorem single_use_token_verifies_once
  (cfg : Config) (st : Store.State) (now nowE nowR now2 : Z)
  (jti userId email : string) :
  nowE / 1000 < now / 1000 + 86400 ->
  nowR / 1000 < now / 1000 + 3600 ->
  (exists token st1 st2,
     generateEmailVerificationToken cfg now jti userId email st = (Ok token, st1) /\
     verifyEmailToken cfg nowE token st1 =
       (Ok (Some {| td_userId := userId; td_email := Some email;
                    td_type := "email_verification"; td_jti := None |}), st2) /\
     Store.redis st2 !! ("email_verification:" +:+ userId) = None /\
     verifyEmailToken cfg now2 token st2 = (Ok None, st2)) /\
  (exists token st1 st2,
     generatePasswordResetToken cfg now jti userId email st = (Ok token, st1) /\
     verifyPasswordResetToken cfg nowR token st1 =
       (Ok (Some {| td_userId := userId; td_email := Some email;
                    td_type := "password_reset"; td_jti := None |}), st2) /\
     Store.redis st2 !! ("password_reset:" +:+ userId) = None /\
     verifyPasswordResetToken cfg now2 token st2 = (Ok None, st2)).
Proof.
  intros HliveE HliveR. split.
  - apply (single_use_consumed cfg "email_verification" "24h" 86400);
      [reflexivity | lia | exact HliveE].
  - apply (single_use_consumed cfg "password_reset" "1h" 3600);
      [reflexivity | lia | exact HliveR].
Qed.

(** Issue A, issue B for the same purpose and user: A no longer verifies
    and its verification changes nothing; B verifies. *)
Lemma single_use_superseded cfg purpose expiresIn ttl st nowA nowB nowVA nowVB
  jtiA jtiB userId emailA emailB :
  Jwt.timespan expiresIn = Some ttl -> 0 < ttl ->
  jtiA <> jtiB ->
  nowVB / 1000 < nowB / 1000 + ttl ->
  exists tokenA tokenB st1 st2,
    generateSingleUse cfg purpose expiresIn ttl nowA jtiA userId emailA st
      = (Ok tokenA, st1) /\
    generateSingleUse cfg purpose expiresIn ttl nowB jtiB userId emailB st1
      = (Ok tokenB, st2) /\
    fst <$> Store.redis st2 !! (purpose +:+ ":" +:+ userId) = Some tokenB /\
    verifySingleUse cfg purpose nowVA tokenA st2 = (Ok None, st2) /\
    fst (verifySingleUse cfg purpose nowVB tokenB st2) =
      Ok (Some {| td_userId := userId; td_email := Some emailB;
                  td_type := purpose; td_jti := None |}).
Proof.
  intros Hspan Hpos Hfresh Hlive.
  pose proof (singleUseToken_verify cfg purpose ttl nowB nowVB jtiB userId emailB Hlive)
    as Hv.
  set (tokenA := singleUseToken cfg purpose ttl nowA jtiA userId emailA).
  set (tokenB := singleUseToken cfg purpose ttl nowB jtiB userId emailB) in *.
  set (key := purpose +:+ ":" +:+ userId).
  set (st1 := Store.setRedis (fun m => <[key := (tokenA, nowA + ttl * 1000)]> m) st).
  set (st2 := Store.setRedis (fun m => <[key := (tokenB, nowB + ttl * 1000)]> m) st1).
  exists tokenA, tokenB, st1, st2.
  split; [now apply generateSingleUse_run|].
  split; [now apply generateSingleUse_run|].
  split; [simpl; now rewrite lookup_insert_eq|].
  split.
  - apply verifySingleUse_miss. intros p Hp.
    unfold tokenA, singleUseToken, Jwt.verify in Hp.
    repeat match type of Hp with
           | (if ?b then _ else _) = _ => destruct b; [discriminate|]
           end.
    inversion Hp; subst p; clear Hp. simpl Jwt.sub. fold key.
    subst st2. rewrite redis_get_inserted.
    destruct (nowVA <? nowB + ttl * 1000); [|discriminate].
    intros Heq. inversion Heq. congruence.
  - rewrite (verifySingleUse_hit _ _ _ _ _ _ Hv); [reflexivity | reflexivity |].
    simpl Jwt.sub. fold key. subst st2. rewrite redis_get_inserted.
    apply seconds_before_lapse in Hlive.
    destruct (Z.ltb_spec nowVB (nowB + ttl * 1000)); [reflexivity | lia].
Qed.

(** C6.  For both single-use purposes and every user: when token A and
    then token B are issued for the same purpose and user, B replaces A in
    the cache entry of that purpose and user; verification of A returns
    invalid and changes nothing, and verification of B before its expiry
    succeeds. *)
Theorem only_latest_single_use_token_is_valid
  (cfg : Config) (st : Store.State) (nowA nowB nowVA nowE nowR : Z)
  (jtiA jtiB userId emailA emailB : string) :
  jtiA <> jtiB ->
  nowE / 1000 < nowB / 1000 + 86400 ->
  nowR / 1000 < nowB / 1000 + 3600 ->
  (exists tokenA tokenB st1 st2,
     generateEmailVerificationToken cfg nowA jtiA userId emailA st = (Ok tokenA, st1) /\
     generateEmailVerificationToken cfg nowB jtiB userId emailB st1 = (Ok tokenB, st2) /\
     fst <$> Store.redis st2 !! ("email_verification:" +:+ userId) = Some tokenB /\
     verifyEmailToken cfg nowVA tokenA st2 = (Ok None, st2) /\
     fst (verifyEmailToken cfg nowE tokenB st2) =
       Ok (Some {| td_userId := userId; td_email := Some emailB;
                   td_type := "email_verification"; td_jti := None |})) /\
  (exists tokenA tokenB st1 st2,
     generatePasswordResetToken cfg nowA jtiA userId emailA st = (Ok tokenA, st1) /\
     generatePasswordResetToken cfg nowB jtiB userId emailB st1 = (Ok tokenB, st2) /\
     fst <$> Store.redis st2 !! ("password_reset:" +:+ userId) = Some tokenB /\
     verifyPasswordResetToken cfg nowVA tokenA st2 = (Ok None, st2) /\
     fst (verifyPasswordResetToken cfg nowR tokenB st2) =
       Ok (Some {| td_userId := userId; td_email := Some emailB;
                   td_type := "password_reset"; td_jti := None |})).
Proof.
  intros Hfresh HliveE HliveR. split.
  - apply (single_use_superseded cfg "email_verification" "24h" 86400);
      [reflexivity | lia | exact Hfresh | exact HliveE].
  - apply (single_use_superseded cfg "password_reset" "1h" 3600);
      [reflexivity | lia | exact Hfresh | exact HliveR].
Qed.

(** ** Token pairs *)

(** generateTokenPair gives the signer a payload that carries [jti]
    together with the option [jwtid]: the signer refuses, and the call
    ends there, before the database and the cache are reached. *)
Lemma generateTokenPair_run cfg now jti refreshTokenId user st :
  generateTokenPair cfg now jti refreshTokenId user st =
  (Throw (LibraryError
            match Jwt.timespan (accessTokenExpiry cfg) with
            | Some _ => Jwt.alreadyInPayload "jwtid" "jti"
            | None => "expiresIn should be a number of seconds or string representing a timespan"
            end), st).
Proof.
  unfold generateTokenPair, Jwt.sign. run. simpl.
  now destruct (Jwt.timespan (accessTokenExpiry cfg)).
Qed.

(** Cache keys of different kinds never meet. *)
Lemma blacklist_key_not_access (userId jti : string) :
  "user_blacklist:" +:+ userId <> "access_token:" +:+ jti.
Proof. discriminate. Qed.

Lemma blacklist_key_not_revoked (userId jti : string) :
  "user_blacklist:" +:+ userId <> "revoked_token:" +:+ jti.
Proof. discriminate. Qed.

Lemma revokeAllUserTokens_redis now userId st :
  exists st', revokeAllUserTokens now userId st = (Ok tt, st') /\
    Store.redis st' =
      <["user_blacklist:" +:+ userId := (Jwt.Plain "true", now + 86400 * 1000)]>
        (Store.redis st).
Proof. eexists. split; reflexivity. Qed.

(** verifyAccessToken consults the cache under the token's own id and
    nowhere else: writing the blacklist entry of a user changes no answer. *)
Lemma verifyAccessToken_ignores_blacklist cfg now now' userId token st :
  fst (verifyAccessToken cfg now token (snd (revokeAllUserTokens now' userId st)))
  = fst (verifyAccessToken cfg now token st).
Proof.
  unfold verifyAccessToken, isTokenRevoked, RedisService.get. run.
  destruct (Jwt.verify now token (verifyOptions cfg)) as [p|e]; [|reflexivity].
  simpl.
  rewrite lookup_insert_ne by apply blacklist_key_not_revoked.
  destruct (bool_decide
              (match Store.redis st !! ("revoked_token:" +:+ Js.show (Jwt.jti p)) with
               | Some (value, lapse) => if now <? lapse then Some value else None
               | None => None
               end = Some (Jwt.Plain "true"))); [reflexivity|].
  simpl.
  rewrite lookup_insert_ne by apply blacklist_key_not_access.
  destruct (falsy _); reflexivity.
Qed.

(** C1.  No pair is ever issued: generateTokenPair throws the signer's
    error for every user and every pair of ids, with nothing written, so
    there is no fresh pair to verify.  And revokeAllUserTokens does not
    invalidate an access token: for any token that verifyAccessToken
    accepts, after revokeAllUserTokens for the user of that token the
    blacklist entry is written, and verifyAccessToken still returns the
    payload: nothing in it reads the blacklist. *)
Theorem access_token_survives_revokeAllUserTokens
  (cfg : Config) (st : Store.State) (now now1 now2 : Z)
  (jti refreshTokenId : string) (user : Store.User)
  (token : Jwt.text) (payload : Jwt.Payload) :
  (exists message,
     generateTokenPair cfg now jti refreshTokenId user st
       = (Throw (LibraryError message), st) /\
     (Jwt.timespan (accessTokenExpiry cfg) <> None ->
      message = Jwt.alreadyInPayload "jwtid" "jti")) /\
  (fst (verifyAccessToken cfg now1 token st) = Ok (Some payload) ->
   exists st2,
     revokeAllUserTokens now2 (Jwt.sub payload) st = (Ok tt, st2) /\
     Store.redis st2 !! ("user_blacklist:" +:+ Jwt.sub payload)
       = Some (Jwt.Plain "true", now2 + 86400 * 1000) /\
     fst (verifyAccessToken cfg now1 token st2) = Ok (Some payload)).
Proof.
  split.
  - eexists. split; [apply generateTokenPair_run|].
    now destruct (Jwt.timespan (accessTokenExpiry cfg)).
  - intros Haccess.
    destruct (revokeAllUserTokens_redis now2 (Jwt.sub payload) st) as (st2 & Hrun & Hredis).
    exists st2. split; [exact Hrun|].
    split; [rewrite Hredis; apply lookup_insert_eq|].
    replace st2 with (snd (revokeAllUserTokens now2 (Jwt.sub payload) st))
      by now rewrite Hrun.
    rewrite verifyAccessToken_ignores_blacklist. exact Haccess.
Qed.

(** ** Revocation of one refresh token *)

Lemma verify_for_revocation cfg now token :
  (exists p, token = Jwt.Signed (jwtSecret cfg) p /\
             Jwt.verify now token (revokeOptions cfg) = Ok p) \/
  (~ wellSigned cfg token /\
   exists e, Jwt.verify now token (revokeOptions cfg) = Throw e).
Proof.
  destruct token as [secret p | g | s].
  - destruct (String.eqb_spec secret (jwtSecret cfg)) as [->|Hne].
    + left. exists p. split; [reflexivity|].
      unfold Jwt.verify, revokeOptions. simpl. now rewrite String.eqb_refl.
    + right. split.
      * intros (q & Hq). inversion Hq. congruence.
      * unfold Jwt.verify, revokeOptions. simpl.
        apply String.eqb_neq in Hne. rewrite Hne. simpl. eauto.
  - right. split; [intros (q & Hq); discriminate | simpl; eauto].
  - right. split; [intros (q & Hq); discriminate | simpl; eauto].
Qed.

Lemma revokeMany_lookup selects st id :
  Store.refreshTokens (snd (revokeMany selects st)) !! id =
  (fun row => if (selects id row && negb (Store.rt_isRevoked row))%bool
              then revoked row else row) <$> Store.refreshTokens st !! id.
Proof.
  unfold revokeMany. run. simpl. rewrite map_lookup_imap.
  now destruct (Store.refreshTokens st !! id).
Qed.

Lemma revoked_twice row : Store.rt_isRevoked row = true -> revoked row = row.
Proof. destruct row. simpl. now intros ->. Qed.

(** What revokeRefreshToken returns and writes, case by case. *)
Lemma revokeRefreshToken_cases
  (cfg : Config) (now : Z) (token : Jwt.text) (st : Store.State) :
  fst (revokeRefreshToken cfg now token st) = Ok tt /\
  (~ wellSigned cfg token -> snd (revokeRefreshToken cfg now token st) = st) /\
  (forall p id,
     token = Jwt.Signed (jwtSecret cfg) p ->
     Jwt.jti p = Some id -> id <> "" ->
     forall id',
       Store.refreshTokens (snd (revokeRefreshToken cfg now token st)) !! id' =
       if decide (id' = id) then revoked <$> Store.refreshTokens st !! id
       else Store.refreshTokens st !! id').
Proof.
  unfold revokeRefreshToken. fold (revokeOptions cfg). run.
  destruct (verify_for_revocation cfg now token)
    as [(p & Htok & Hv) | (Hbad & e & Hv)]; rewrite Hv.
  - split; [|split].
    + now destruct (Js.truthy (Jwt.jti p)).
    + intros Hno. destruct Hno. now exists p.
    + intros q id Hq Hjti Hne id'. rewrite Htok in Hq. inversion Hq; subst q.
      rewrite Hjti. simpl.
      destruct (String.eqb_spec id "") as [|_]; [congruence|]. simpl.
      pose proof (revokeMany_lookup (fun i _ => bool_decide (Some i = Some id)) st id')
        as Hl.
      unfold revokeMany in Hl. run. simpl in Hl. rewrite Hl.
      destruct (decide (id' = id)) as [->|Hother].
      * rewrite bool_decide_eq_true_2 by reflexivity.
        destruct (Store.refreshTokens st !! id) as [row|]; [|reflexivity]. simpl.
        destruct (Store.rt_isRevoked row) eqn:Hrev; simpl; [|reflexivity].
        now rewrite revoked_twice.
      * rewrite bool_decide_eq_false_2 by congruence.
        now destruct (Store.refreshTokens st !! id').
  - split; [reflexivity|]. split; [reflexivity|].
    intros q id Hq. destruct Hbad. now exists q.
Qed.


(** ** What verifyRefreshToken accepts *)

Lemma verify_Ok_signed now token o p :
  Jwt.verify now token o = Ok p -> token = Jwt.Signed (Jwt.vo_secret o) p.
Proof.
  destruct token as [secret q | g | s]; simpl; try discriminate.
  destruct (String.eqb_spec secret (Jwt.vo_secret o)) as [->|]; simpl; [|discriminate].
  repeat match goal with
         | |- (if ?b then _ else _) = _ -> _ => destruct b; [discriminate|]
         end.
  intros H. now inversion H.
Qed.

(** verifyRefreshToken changes nothing, and succeeds only on a token signed
    with the configured secret whose id names an unrevoked row. *)
Lemma verifyRefreshToken_inv cfg now token st r st' :
  verifyRefreshToken cfg now token st = (r, st') ->
  st' = st /\
  (r = Ok None \/
   exists p id row,
     token = Jwt.Signed (jwtSecret cfg) p /\ Jwt.jti p = Some id /\
     Store.refreshTokens st !! id = Some row /\ Store.rt_isRevoked row = false /\
     r = Ok (Some {| td_userId := Jwt.sub p; td_email := Jwt.email p;
                     td_type := "refresh"; td_jti := Some id |})).
Proof.
  unfold verifyRefreshToken, findUniqueUnrevoked. run.
  assert (Hnone : (Ok None, st) = (r, st') ->
            st' = st /\ (r = Ok None \/
              exists p id row,
                token = Jwt.Signed (jwtSecret cfg) p /\ Jwt.jti p = Some id /\
                Store.refreshTokens st !! id = Some row /\
                Store.rt_isRevoked row = false /\
                r = Ok (Some {| td_userId := Jwt.sub p; td_email := Jwt.email p;
                                td_type := "refresh"; td_jti := Some id |}))).
  { intros H; inversion H; auto. }
  destruct (Jwt.verify now token (verifyOptions cfg)) as [p|e] eqn:Hv;
    [|exact Hnone].
  apply verify_Ok_signed in Hv. simpl in Hv.
  destruct (bool_decide (Jwt.type p = Some "refresh")); simpl; [|exact Hnone].
  destruct (Jwt.jti p) as [id|] eqn:Hjti; simpl; [|exact Hnone].
  destruct (Store.refreshTokens st !! id) as [row|] eqn:Hrow; simpl; [|exact Hnone].
  destruct (Store.rt_isRevoked row) eqn:Hrev; simpl; [exact Hnone|].
  destruct (Store.rt_expiresAt row <? now); simpl; [exact Hnone|].
  intros H. inversion H; subst. split; [reflexivity|]. right. now exists p, id, row.
Qed.

(** A token whose row is revoked does not verify. *)
Lemma verifyRefreshToken_revoked cfg now p id row st :
  Jwt.jti p = Some id ->
  Store.refreshTokens st !! id = Some row -> Store.rt_isRevoked row = true ->
  verifyRefreshToken cfg now (Jwt.Signed (jwtSecret cfg) p) st = (Ok None, st).
Proof.
  intros Hjti Hrow Hrev.
  destruct (verifyRefreshToken cfg now (Jwt.Signed (jwtSecret cfg) p) st) as [r st'] eqn:Hv.
  apply verifyRefreshToken_inv in Hv.
  destruct Hv as [-> [-> | (q & id' & row' & Hq & Hjti' & Hrow' & Hrev' & _)]];
    [reflexivity|].
  inversion Hq; subst q. congruence.
Qed.

(** C8.  revokeRefreshToken never raises; on a token that is not signed
    with the configured secret it leaves the state as it was; on a token
    that is, expired or not, whose id is not empty and names a row, that
    row has its revoked flag set and its other columns as before, every
    other row is untouched, and the token no longer verifies as a refresh
    token at any instant. *)
Theorem revokeRefreshToken_tolerant
  (cfg : Config) (now : Z) (token : Jwt.text) (st : Store.State) :
  fst (revokeRefreshToken cfg now token st) = Ok tt /\
  (~ wellSigned cfg token -> snd (revokeRefreshToken cfg now token st) = st) /\
  (forall p id row,
     token = Jwt.Signed (jwtSecret cfg) p ->
     Jwt.jti p = Some id -> id <> "" ->
     Store.refreshTokens st !! id = Some row ->
     Store.refreshTokens (snd (revokeRefreshToken cfg now token st)) !! id
     = Some {| Store.rt_token := Store.rt_token row;
               Store.rt_userId := Store.rt_userId row;
               Store.rt_expiresAt := Store.rt_expiresAt row;
               Store.rt_isRevoked := true;
               Store.rt_createdAt := Store.rt_createdAt row |} /\
     (forall id', id' <> id ->
        Store.refreshTokens (snd (revokeRefreshToken cfg now token st)) !! id'
        = Store.refreshTokens st !! id') /\
     (forall now',
        fst (verifyRefreshToken cfg now' token (snd (revokeRefreshToken cfg now token st)))
        = Ok None)).
Proof.
  destruct (revokeRefreshToken_cases cfg now token st) as (Hok & Hnoop & Hrows).
  split; [exact Hok|]. split; [exact Hnoop|].
  intros p id row Htok Hjti Hid Hrow.
  specialize (Hrows p id Htok Hjti Hid).
  assert (Hset :
    Store.refreshTokens (snd (revokeRefreshToken cfg now token st)) !! id
    = Some {| Store.rt_token := Store.rt_token row;
              Store.rt_userId := Store.rt_userId row;
              Store.rt_expiresAt := Store.rt_expiresAt row;
              Store.rt_isRevoked := true;
              Store.rt_createdAt := Store.rt_createdAt row |}).
  { rewrite (Hrows id), decide_True, Hrow by reflexivity. reflexivity. }
  split; [exact Hset|]. split.
  - intros id' Hne. now rewrite (Hrows id'), decide_False.
  - intros now'. subst token.
    now rewrite (verifyRefreshToken_revoked cfg now' p id _ _ Hjti Hset).
Qed.

(** ** Rotation of refresh tokens *)



(** ** The periodic sweep *)

(** C5, as the code has it.  cleanExpiredTokens deletes exactly the rows
    that are expired, or that are revoked and were created more than seven
    days before the sweep; every other row stays as it is.  The age of a
    revoked row is counted from its creation: a row keeps no record of
    when it was revoked. *)
Theorem cleanExpiredTokens_deletes_expired_or_old_revoked
  (now : Z) (st : Store.State) (id : string) (row : Store.RefreshToken) :
  Store.refreshTokens (snd (cleanExpiredTokens now st)) !! id = Some row
  <-> Store.refreshTokens st !! id = Some row /\
      ~ (Store.rt_expiresAt row < now \/
         (Store.rt_isRevoked row = true /\
          Store.rt_createdAt row < now - 7 * 24 * 60 * 60 * 1000)).
Proof.
  unfold cleanExpiredTokens. run. simpl.
  rewrite map_lookup_filter_Some. simpl.
  unfold swept, retention.
  destruct (Z.ltb_spec (Store.rt_expiresAt row) now);
    destruct (Store.rt_isRevoked row);
    destruct (Z.ltb_spec (Store.rt_createdAt row) (now - 7 * 24 * 60 * 60 * 1000));
    simpl; intuition (try discriminate; try lia).
Qed.

(** C5, as the claim words it, fails.  Under thirty-day refresh tokens: a
    row created at instant 0 is unrevoked on day 8, is revoked on day 8,
    and one second later, unexpired and revoked for one second, it is
    swept. *)
Lemma sweep_deletes_recently_revoked_row :
  ~ (forall (cfg : Config) (st : Store.State) (token : Jwt.text) (id : string)
            (row : Store.RefreshToken) (revokedAt sweptAt : Z),
       Store.refreshTokens st !! id = Some row ->
       Store.rt_isRevoked row = false ->
       (revoked <$> Store.refreshTokens st !! id =
        Store.refreshTokens (snd (revokeRefreshToken cfg revokedAt token st)) !! id) ->
       revokedAt <= sweptAt < revokedAt + 7 * Scenario.day ->
       sweptAt <= Store.rt_expiresAt row ->
       is_Some (Store.refreshTokens
                  (snd (cleanExpiredTokens sweptAt
                          (snd (revokeRefreshToken cfg revokedAt token st)))) !! id)).
Proof.
  intros Hclaim.
  specialize (Hclaim Scenario.longLived Scenario.annSession (snd Scenario.annTokens) "r1"
                (refreshRow Scenario.longLived 2592000 0 "r1" Scenario.ann)
                (8 * Scenario.day) (8 * Scenario.day + 1000)).
  destruct Hclaim as [row Hrow].
  - vm_compute. reflexivity.
  - reflexivity.
  - vm_compute. reflexivity.
  - unfold Scenario.day. lia.
  - vm_compute. discriminate.
  - vm_compute in Hrow. discriminate.
Qed.

(** ** Use cases *)

(** C7.  Login on an address that no user has, and login on an address of
    a user whose stored hash the password does not match, throw the same
    error: Unauthorized with the message "Invalid credentials". *)
Theorem login_failures_are_indistinguishable
  (cfg : Config) (bcryptCompare : string -> string -> outcome bool)
  (nowMissing nowWrong : Z)
  (challenge1 jti1 refreshTokenId1 challenge2 jti2 refreshTokenId2 : string)
  (dtoMissing dtoWrong : AuthService.LoginDto)
  (stMissing stWrong : Store.State) (user : Store.User) :
  fst (AuthService.findUserByEmail (AuthService.dto_email dtoMissing) stMissing) = Ok None ->
  fst (AuthService.findUserByEmail (AuthService.dto_email dtoWrong) stWrong) = Ok (Some user) ->
  PasswordService.verifyPassword bcryptCompare (AuthService.dto_password dtoWrong)
    (Store.u_passwordHash user) = false ->
  fst (AuthService.login cfg bcryptCompare nowMissing challenge1 jti1 refreshTokenId1
         dtoMissing stMissing)
    = Throw (UnauthorizedError "Invalid credentials") /\
  fst (AuthService.login cfg bcryptCompare nowWrong challenge2 jti2 refreshTokenId2
         dtoWrong stWrong)
    = Throw (UnauthorizedError "Invalid credentials").
Proof.
  intros Hmissing Hfound Hwrong.
  unfold AuthService.login, AuthService.validateUserCredentials.
  unfold AuthService.findUserByEmail in *. run. simpl in *.
  inversion Hmissing as [Hm]. inversion Hfound as [Hf].
  rewrite Hm, Hf. simpl. rewrite Hwrong. simpl. split; reflexivity.
Qed.

(** C9.  sendVerificationEmail throws when no user has the address, and
    also when the user's address is already verified; in both cases
    nothing has been written: no counter is incremented and no job is
    queued. *)
Theorem sendVerificationEmail_rejects_unknown_and_verified
  (nowMissing nowVerified : Z) (emailMissing emailVerified : string)
  (stMissing stVerified : Store.State) (user : Store.User) :
  fst (AuthService.findUserByEmail emailMissing stMissing) = Ok None ->
  fst (AuthService.findUserByEmail emailVerified stVerified) = Ok (Some user) ->
  Store.u_emailVerified user = true ->
  AuthService.sendVerificationEmail nowMissing emailMissing stMissing
    = (Throw (BadRequestException "User not found"), stMissing) /\
  AuthService.sendVerificationEmail nowVerified emailVerified stVerified
    = (Throw (BadRequestException "Email already verified"), stVerified).
Proof.
  intros Hmissing Hfound Hverified.
  unfold AuthService.sendVerificationEmail.
  unfold AuthService.findUserByEmail in *. run. simpl in *.
  inversion Hmissing as [Hm]. inversion Hfound as [Hf].
  rewrite Hm, Hf. simpl. rewrite Hverified. split; reflexivity.
Qed.

(** ** The properties on concrete data *)

Lemma insertBy_perm cmp n x l :
  Permutation (fst (PasswordService.insertBy cmp n x l)) (x :: l).
Proof.
  revert n. induction l as [|y l IH]; intros n; simpl.
  - reflexivity.
  - destruct (Qle_bool (cmp n) 0); simpl; [reflexivity|].
    specialize (IH (S n)).
    destruct (PasswordService.insertBy cmp (S n) x l) as [r n']. simpl in *.
    rewrite IH. apply perm_swap.
Qed.

Lemma insertionSort_perm cmp l : Permutation (PasswordService.insertionSort cmp l) l.
Proof.
  unfold PasswordService.insertionSort. generalize 0%nat.
  induction l as [|x l IH]; intros n; simpl.
  - reflexivity.
  - specialize (IH n).
    destruct (PasswordService.insertionSortFrom cmp n l) as [sorted n']. simpl in *.
    rewrite insertBy_perm. now rewrite IH.
Qed.

Lemma scenario_random_range k :
  (0 <= Scenario.random k)%Q /\ (Scenario.random k < 1)%Q.
Proof.
  unfold Scenario.random, Qle, Qlt. simpl.
  pose proof (Nat.mod_upper_bound k 5 ltac:(lia)). lia.
Qed.

(** C10 on a request for two characters. *)
Lemma generateRandomPassword_witness :
  let password :=
    PasswordService.generateRandomPassword Scenario.random
      PasswordService.insertionSort 2 in
  String.length password = 4%nat /\
  PasswordPolicy.present Js.isUpper password /\
  PasswordPolicy.present Js.isLower password /\
  PasswordPolicy.present Js.isDigit password /\
  PasswordPolicy.present PasswordService.isSymbol password.
Proof.
  apply (generateRandomPassword_length_and_classes Scenario.random
           PasswordService.insertionSort 2).
  - exact scenario_random_range.
  - exact insertionSort_perm.
Defined.

(** C1 on Ann: no pair is issued to her; and with her session in
    the tables, her access token is still accepted thirty seconds after
    revokeAllUserTokens. *)
Lemma access_token_survives_revokeAllUserTokens_witness :
  generateTokenPair Scenario.longLived 0 "j1" "r1" Scenario.ann Scenario.initial
    = (Throw (LibraryError (Jwt.alreadyInPayload "jwtid" "jti")), Scenario.initial) /\
  fst (verifyAccessToken Scenario.longLived 60000 (fst Scenario.annTokens)
         Scenario.annSession)
    = Ok (Some (accessPayload Scenario.longLived 900 0 "j1" Scenario.ann)) /\
  exists st2,
    revokeAllUserTokens 30000 "u1" Scenario.annSession = (Ok tt, st2) /\
    Store.redis st2 !! "user_blacklist:u1"
      = Some (Jwt.Plain "true", 30000 + 86400 * 1000) /\
    fst (verifyAccessToken Scenario.longLived 60000 (fst Scenario.annTokens) st2)
      = Ok (Some (accessPayload Scenario.longLived 900 0 "j1" Scenario.ann)).
Proof.
  destruct (access_token_survives_revokeAllUserTokens Scenario.longLived
              Scenario.initial 0 60000 30000 "j1" "r1" Scenario.ann
              (fst Scenario.annTokens)
              (accessPayload Scenario.longLived 900 0 "j1" Scenario.ann))
    as [(message & Hthrow & Hmessage) _].
  destruct (access_token_survives_revokeAllUserTokens Scenario.longLived
              Scenario.annSession 0 60000 30000 "j1" "r1" Scenario.ann
              (fst Scenario.annTokens)
              (accessPayload Scenario.longLived 900 0 "j1" Scenario.ann))
    as [_ Hsurvives].
  split.
  - rewrite Hthrow, Hmessage; [reflexivity | vm_compute; discriminate].
  - split; [vm_compute; reflexivity|].
    apply Hsurvives. vm_compute. reflexivity.
Defined.

(** C3 on Ann: tokens issued at instant 0, verified after one second and
    again after two. *)
Lemma single_use_token_verifies_once_witness :
  (exists token st1 st2,
     generateEmailVerificationToken defaultConfig 0 "e1" "u1" "a@x.com" Scenario.initial
       = (Ok token, st1) /\
     verifyEmailToken defaultConfig 1000 token st1 =
       (Ok (Some {| td_userId := "u1"; td_email := Some "a@x.com";
                    td_type := "email_verification"; td_jti := None |}), st2) /\
     Store.redis st2 !! ("email_verification:" +:+ "u1") = None /\
     verifyEmailToken defaultConfig 2000 token st2 = (Ok None, st2)) /\
  (exists token st1 st2,
     generatePasswordResetToken defaultConfig 0 "e1" "u1" "a@x.com" Scenario.initial
       = (Ok token, st1) /\
     verifyPasswordResetToken defaultConfig 1000 token st1 =
       (Ok (Some {| td_userId := "u1"; td_email := Some "a@x.com";
                    td_type := "password_reset"; td_jti := None |}), st2) /\
     Store.redis st2 !! ("password_reset:" +:+ "u1") = None /\
     verifyPasswordResetToken defaultConfig 2000 token st2 = (Ok None, st2)).
Proof.
  apply (single_use_token_verifies_once defaultConfig Scenario.initial 0 1000 1000 2000
           "e1" "u1" "a@x.com").
  - vm_compute. reflexivity.
  - vm_compute. reflexivity.
Defined.

(** C6 on Ann: token A issued at instant 0, token B one second later. *)
Lemma only_latest_single_use_token_is_valid_witness :
  (exists tokenA tokenB st1 st2,
     generateEmailVerificationToken defaultConfig 0 "a" "u1" "a@x.com" Scenario.initial
       = (Ok tokenA, st1) /\
     generateEmailVerificationToken defaultConfig 1000 "b" "u1" "a@x.com" st1
       = (Ok tokenB, st2) /\
     fst <$> Store.redis st2 !! ("email_verification:" +:+ "u1") = Some tokenB /\
     verifyEmailToken defaultConfig 2000 tokenA st2 = (Ok None, st2) /\
     fst (verifyEmailToken defaultConfig 2000 tokenB st2) =
       Ok (Some {| td_userId := "u1"; td_email := Some "a@x.com";
                   td_type := "email_verification"; td_jti := None |})) /\
  (exists tokenA tokenB st1 st2,
     generatePasswordResetToken defaultConfig 0 "a" "u1" "a@x.com" Scenario.initial
       = (Ok tokenA, st1) /\
     generatePasswordResetToken defaultConfig 1000 "b" "u1" "a@x.com" st1
       = (Ok tokenB, st2) /\
     fst <$> Store.redis st2 !! ("password_reset:" +:+ "u1") = Some tokenB /\
     verifyPasswordResetToken defaultConfig 2000 tokenA st2 = (Ok None, st2) /\
     fst (verifyPasswordResetToken defaultConfig 2000 tokenB st2) =
       Ok (Some {| td_userId := "u1"; td_email := Some "a@x.com";
                   td_type := "password_reset"; td_jti := None |})).
Proof.
  apply (only_latest_single_use_token_is_valid defaultConfig Scenario.initial
           0 1000 2000 2000 2000 "a" "b" "u1" "a@x.com" "a@x.com").
  - discriminate.
  - vm_compute. reflexivity.
  - vm_compute. reflexivity.
Defined.


(** C7 on an unknown address and on Ann's address with a wrong password. *)
Lemma login_failures_are_indistinguishable_witness :
  fst (AuthService.login defaultConfig Scenario.bcryptCompare 0 "c1" "j1" "r1"
         {| AuthService.dto_email := "nobody@x.com";
            AuthService.dto_password := "Str0ng!Pass";
            AuthService.dto_rememberMe := None;
            AuthService.dto_clientInfo := None |} Scenario.initial)
    = Throw (UnauthorizedError "Invalid credentials") /\
  fst (AuthService.login defaultConfig Scenario.bcryptCompare 0 "c2" "j2" "r2"
         {| AuthService.dto_email := " A@X.com ";
            AuthService.dto_password := "wrong";
            AuthService.dto_rememberMe := None;
            AuthService.dto_clientInfo := None |} Scenario.initial)
    = Throw (UnauthorizedError "Invalid credentials").
Proof.
  apply (login_failures_are_indistinguishable defaultConfig Scenario.bcryptCompare 0 0
           "c1" "j1" "r1" "c2" "j2" "r2" _ _ Scenario.initial Scenario.initial
           Scenario.ann).
  - vm_compute. reflexivity.
  - vm_compute. reflexivity.
  - vm_compute. reflexivity.
Defined.

(** C8 on Ann's refresh token, presented on day 40, ten days after its
    expiry: no error, her row is revoked and the token is refused from
    then on; a text that is no token changes nothing. *)
Lemma revokeRefreshToken_tolerant_witness :
  Jwt.expired (40 * Scenario.day)
    (refreshPayload Scenario.longLived 2592000 0 "r1" Scenario.ann) = true /\
  fst (revokeRefreshToken Scenario.longLived (40 * Scenario.day)
         (snd Scenario.annTokens) Scenario.annSession) = Ok tt /\
  Store.refreshTokens
    (snd (revokeRefreshToken Scenario.longLived (40 * Scenario.day)
            (snd Scenario.annTokens) Scenario.annSession)) !! "r1"
  = Some {| Store.rt_token := snd Scenario.annTokens;
            Store.rt_userId := "u1";
            Store.rt_expiresAt := 30 * Scenario.day;
            Store.rt_isRevoked := true;
            Store.rt_createdAt := 0 |} /\
  fst (verifyRefreshToken Scenario.longLived Scenario.day (snd Scenario.annTokens)
         (snd (revokeRefreshToken Scenario.longLived (40 * Scenario.day)
                 (snd Scenario.annTokens) Scenario.annSession))) = Ok None /\
  snd (revokeRefreshToken Scenario.longLived (40 * Scenario.day)
         (Jwt.Plain "not a token") Scenario.annSession) = Scenario.annSession.
Proof.
  destruct (revokeRefreshToken_tolerant Scenario.longLived (40 * Scenario.day)
              (snd Scenario.annTokens) Scenario.annSession) as (Hok & _ & Hrow).
  destruct (revokeRefreshToken_tolerant Scenario.longLived (40 * Scenario.day)
              (Jwt.Plain "not a token") Scenario.annSession) as (_ & Hnoop & _).
  destruct (Hrow (refreshPayload Scenario.longLived 2592000 0 "r1" Scenario.ann) "r1"
              (refreshRow Scenario.longLived 2592000 0 "r1" Scenario.ann)
              eq_refl eq_refl ltac:(discriminate) ltac:(vm_compute; reflexivity))
    as (Hset & _ & Hrefused).
  split; [vm_compute; reflexivity|].
  split; [exact Hok|].
  split; [exact Hset|].
  split; [apply Hrefused|].
  apply Hnoop. intros (p & Hp). discriminate.
Defined.

(** C9 on an unknown address and on Vera's verified address. *)
Lemma sendVerificationEmail_rejects_unknown_and_verified_witness :
  AuthService.sendVerificationEmail 0 "nobody@x.com" Scenario.initial
    = (Throw (BadRequestException "User not found"), Scenario.initial) /\
  AuthService.sendVerificationEmail 0 "v@x.com" Scenario.initial
    = (Throw (BadRequestException "Email already verified"), Scenario.initial).
Proof.
  apply (sendVerificationEmail_rejects_unknown_and_verified 0 0
           "nobody@x.com" "v@x.com" Scenario.initial Scenario.initial Scenario.vera).
  - vm_compute. reflexivity.
  - vm_compute. reflexivity.
  - reflexivity.
Defined.

(** * Further properties *)

(** ** Scoring against validation *)

Lemma test_In (cls : ascii -> bool) (s : string) :
  Js.test cls s = true <-> exists c, In c (chars s) /\ cls c = true.
Proof. rewrite test_present. apply present_In. Qed.

Lemma specialChar_nonAlnum (c : ascii) :
  PasswordService.isSpecialChar c = true ->
  Js.isUpper c = false /\ Js.isLower c = false /\ Js.isDigit c = false.
Proof.
  unfold PasswordService.isSpecialChar. rewrite test_In.
  intros (d & Hin & Heq). apply Ascii.eqb_eq in Heq. subst d.
  assert (Hall : forallb (fun c => negb (Js.isUpper c) && negb (Js.isLower c)
                                   && negb (Js.isDigit c))
                   (chars PasswordService.specialChars) = true)
    by (vm_compute; reflexivity).
  rewrite forallb_forall in Hall. specialize (Hall c Hin).
  destruct (Js.isUpper c), (Js.isLower c), (Js.isDigit c); try discriminate Hall.
  now repeat split.
Qed.

Lemma upper_not_lower (c : ascii) : Js.isUpper c = true -> Js.isLower c = false.
Proof.
  unfold Js.isUpper, Js.isLower, Js.between.
  rewrite !andb_true_iff, !Nat.leb_le, andb_false_iff, !Nat.leb_gt. lia.
Qed.

Lemma upper_not_digit (c : ascii) : Js.isUpper c = true -> Js.isDigit c = false.
Proof.
  unfold Js.isUpper, Js.isDigit, Js.between.
  rewrite !andb_true_iff, !Nat.leb_le, andb_false_iff, !Nat.leb_gt. lia.
Qed.

Lemma lower_not_digit (c : ascii) : Js.isLower c = true -> Js.isDigit c = false.
Proof.
  unfold Js.isLower, Js.isDigit, Js.between.
  rewrite !andb_true_iff, !Nat.leb_le, andb_false_iff, !Nat.leb_gt. lia.
Qed.

(** Three characters of a string that differ pairwise are three distinct
    characters of it. *)
Lemma uniqueChars_three (s : string) (c1 c2 c3 : ascii) :
  In c1 (chars s) -> In c2 (chars s) -> In c3 (chars s) ->
  c1 <> c2 -> c1 <> c3 -> c2 <> c3 ->
  3 <= PasswordScoring.uniqueChars s.
Proof.
  intros H1 H2 H3 N12 N13 N23. unfold PasswordScoring.uniqueChars.
  assert (Hlen : (List.length [c1; c2; c3] <= List.length (nodup ascii_dec (chars s)))%nat).
  { apply NoDup_incl_length.
    - repeat constructor; simpl; intuition congruence.
    - intros x Hx. apply nodup_In. simpl in Hx. intuition congruence. }
  simpl in Hlen. lia.
Qed.

(** What validation leaves to the scorer: the length bonus, three of the
    scorer's four classes, three distinct characters, and no penalty for
    runs. *)
Lemma accepted_facts (password : string) :
  PasswordService.validatePasswordStrength password = Ok tt ->
  8 <= Z.of_nat (String.length password) /\
  3 <= PasswordScoring.uniqueChars password /\
  PasswordService.hasSequentialChars password 3 = false /\
  PasswordService.hasRepeatingChars password 3 = false /\
  (3 <= (if Js.test Js.isLower password then 1 else 0) +
        (if Js.test Js.isUpper password then 1 else 0) +
        (if Js.test Js.isDigit password then 1 else 0) +
        (if Js.test PasswordScoring.isNonAlnum password then 1 else 0)).
Proof.
  unfold PasswordService.validatePasswordStrength.
  destruct (Nat.ltb_spec (String.length password) 8) as [|Hmin]; [discriminate|].
  destruct (Nat.ltb 128 (String.length password)); [discriminate|].
  destruct (Nat.ltb _ 3) eqn:Hclasses; [discriminate|].
  destruct (Js.arrayIncludes _ _); [discriminate|].
  destruct (PasswordService.hasSequentialChars password 3); [discriminate|].
  destruct (PasswordService.hasRepeatingChars password 3); [discriminate|].
  intros _. split; [lia|].
  assert (Hsym : Js.test PasswordService.isSpecialChar password = true ->
                 Js.test PasswordScoring.isNonAlnum password = true).
  { rewrite !test_In. intros (c & Hin & Hc). exists c. split; [exact Hin|].
    destruct (specialChar_nonAlnum c Hc) as (HU & HL & HD).
    unfold PasswordScoring.isNonAlnum. now rewrite HU, HL, HD. }
  assert (Hthree : forall (P Q R : ascii -> bool),
            (forall c, P c = true -> Q c = false) ->
            (forall c, P c = true -> R c = false) ->
            (forall c, Q c = true -> R c = false) ->
            Js.test P password = true -> Js.test Q password = true ->
            Js.test R password = true ->
            3 <= PasswordScoring.uniqueChars password).
  { intros P Q R PQ PR QR HP HQ HR.
    apply test_In in HP, HQ, HR.
    destruct HP as (c1 & I1 & E1), HQ as (c2 & I2 & E2), HR as (c3 & I3 & E3).
    apply (uniqueChars_three password c1 c2 c3 I1 I2 I3).
    - intros ->. rewrite (PQ _ E1) in E2. discriminate.
    - intros ->. rewrite (PR _ E1) in E3. discriminate.
    - intros ->. rewrite (QR _ E2) in E3. discriminate. }
  pose proof (fun c H => proj1 (specialChar_nonAlnum c H)) as SU.
  pose proof (fun c H => proj1 (proj2 (specialChar_nonAlnum c H))) as SL.
  pose proof (fun c H => proj2 (proj2 (specialChar_nonAlnum c H))) as SD.
  destruct (Js.test Js.isUpper password) eqn:HU;
    destruct (Js.test Js.isLower password) eqn:HL;
    destruct (Js.test Js.isDigit password) eqn:HD;
    destruct (Js.test PasswordService.isSpecialChar password) eqn:HS;
    try discriminate Hclasses;
    try rewrite (Hsym eq_refl);
    (split; [|split; [reflexivity|split; [reflexivity|]]]);
    try (destruct (Js.test PasswordScoring.isNonAlnum password); lia);
    try lia.
  - apply (Hthree Js.isUpper Js.isLower Js.isDigit); auto using upper_not_lower,
      upper_not_digit, lower_not_digit.
  - apply (Hthree Js.isUpper Js.isLower Js.isDigit); auto using upper_not_lower,
      upper_not_digit, lower_not_digit.
  - apply (Hthree PasswordService.isSpecialChar Js.isUpper Js.isLower);
      auto using upper_not_lower.
  - apply (Hthree PasswordService.isSpecialChar Js.isUpper Js.isDigit);
      auto using upper_not_digit.
  - apply (Hthree PasswordService.isSpecialChar Js.isLower Js.isDigit);
      auto using lower_not_digit.
Qed.

(** X1.  A password that validatePasswordStrength accepts scores at least
    26, so it is never described as Very Weak; when the scorer does not
    hold it for common, it scores at least 46, so at least Medium. *)
Theorem accepted_password_is_not_very_weak (password : string) :
  PasswordService.validatePasswordStrength password = Ok tt ->
  26 <= PasswordScoring.calculatePasswordStrength password <= 100 /\
  PasswordScoring.getPasswordStrengthDescription
    (PasswordScoring.calculatePasswordStrength password) <> "Very Weak" /\
  (PasswordScoring.isCommonPassword password = false ->
   46 <= PasswordScoring.calculatePasswordStrength password /\
   PasswordScoring.getPasswordStrengthDescription
     (PasswordScoring.calculatePasswordStrength password) <> "Weak").
Proof.
  intros Hok. destruct (accepted_facts password Hok) as (Hlen & Huniq & Hseq & Hrep & Hcls).
  assert (Hdesc : forall score, 20 <= score ->
            PasswordScoring.getPasswordStrengthDescription score <> "Very Weak").
  { intros score Hs. unfold PasswordScoring.getPasswordStrengthDescription.
    destruct (80 <=? score); [discriminate|].
    destruct (60 <=? score); [discriminate|].
    destruct (40 <=? score); [discriminate|].
    destruct (Z.leb_spec 20 score); [discriminate | lia]. }
  assert (Hdesc' : forall score, 40 <= score ->
            PasswordScoring.getPasswordStrengthDescription score <> "Weak").
  { intros score Hs. unfold PasswordScoring.getPasswordStrengthDescription.
    destruct (80 <=? score); [discriminate|].
    destruct (60 <=? score); [discriminate|].
    destruct (Z.leb_spec 40 score); [discriminate | lia]. }
  assert (Hscore :
    26 <= PasswordScoring.calculatePasswordStrength password <= 100 /\
    (PasswordScoring.isCommonPassword password = false ->
     46 <= PasswordScoring.calculatePasswordStrength password)).
  { unfold PasswordScoring.calculatePasswordStrength. cbv zeta.
    rewrite Hseq, Hrep.
    set (n := Z.of_nat (String.length password)) in *.
    set (u := PasswordScoring.uniqueChars password) in *.
    destruct (Z.leb_spec 8 n); [|lia].
    destruct (Js.test Js.isLower password), (Js.test Js.isUpper password),
      (Js.test Js.isDigit password), (Js.test PasswordScoring.isNonAlnum password);
      try lia;
      destruct (12 <=? n), (16 <=? n), (20 <=? n), (4 * n <=? 5 * u),
        (PasswordScoring.isCommonPassword password);
      split; try (intros; lia); try lia; intros Hc; try discriminate Hc. }
  destruct Hscore as [Hb Hnc].
  split; [exact Hb|]. split; [apply Hdesc; lia|].
  intros Hc. specialize (Hnc Hc). split; [exact Hnc | apply Hdesc'; lia].
Qed.

(** X2.  Whatever validatePasswordStrength rejects as too common the
    scorer also holds for common; the converse fails, the scorer's list
    being longer: a password can pass validation and be penalised as
    common. *)
Theorem validation_common_list_is_part_of_scorer_list :
  (forall password,
     PasswordService.validatePasswordStrength password
     = Throw (ValidationError
                "Password is too common. Please choose a more secure password"
                "password") ->
     PasswordScoring.isCommonPassword password = true) /\
  (exists password,
     PasswordService.validatePasswordStrength password = Ok tt /\
     PasswordScoring.isCommonPassword password = true).
Proof.
  split.
  - intros password. unfold PasswordService.validatePasswordStrength.
    destruct (Nat.ltb (String.length password) 8); [discriminate|].
    destruct (Nat.ltb 128 (String.length password)); [discriminate|].
    destruct (Nat.ltb _ 3); [discriminate|].
    destruct (Js.arrayIncludes PasswordService.commonPasswords _) eqn:Hcommon.
    + intros _. unfold PasswordScoring.isCommonPassword.
      apply arrayIncludes_In in Hcommon. apply arrayIncludes_In.
      revert Hcommon. generalize (Js.toLowerCase password). intros w Hin.
      simpl in Hin. simpl. intuition.
    + destruct (PasswordService.hasSequentialChars password 3); [discriminate|].
      destruct (PasswordService.hasRepeatingChars password 3); discriminate.
  - exists "Password1". split; reflexivity.
Qed.

(** ** Generated passwords against validation *)

(** The characters of a generated password: one of each charset and the
    filling, in some order. *)
Lemma generateRandomPassword_chars
  (random : nat -> Q) (arraySort : (nat -> Q) -> list ascii -> list ascii)
  (length : Z) :
  (forall k, (0 <= random k)%Q /\ (random k < 1)%Q) ->
  (forall cmp l, Permutation (arraySort cmp l) l) ->
  exists c1 c2 c3 c4 l,
    Permutation
      (chars (PasswordService.generateRandomPassword random arraySort length))
      (c1 :: c2 :: c3 :: c4 :: l) /\
    In c1 (chars PasswordService.uppercase) /\
    In c2 (chars PasswordService.lowercase) /\
    In c3 (chars PasswordService.numbers) /\
    In c4 (chars PasswordService.symbols) /\
    List.length l = Z.to_nat (length - 4).
Proof.
  intros Hrange Hsort.
  destruct (getRandomChar_in random Hrange PasswordService.uppercase 0) as (c1 & E1 & In1);
    [discriminate|].
  destruct (getRandomChar_in random Hrange PasswordService.lowercase 1) as (c2 & E2 & In2);
    [discriminate|].
  destruct (getRandomChar_in random Hrange PasswordService.numbers 2) as (c3 & E3 & In3);
    [discriminate|].
  destruct (getRandomChar_in random Hrange PasswordService.symbols 3) as (c4 & E4 & In4);
    [discriminate|].
  unfold PasswordService.generateRandomPassword. cbv zeta.
  rewrite E1, E2, E3, E4.
  change (((("" +:+ String c1 "") +:+ String c2 "") +:+ String c3 "") +:+ String c4 "")
    with (String c1 (String c2 (String c3 (String c4 "")))).
  destruct (fill_chars random Hrange (Z.to_nat (length - 4)) 4
              (String c1 (String c2 (String c3 (String c4 EmptyString)))))
    as (l & Hl & Hlen).
  exists c1, c2, c3, c4, l.
  rewrite list_ascii_of_string_of_list_ascii, Hsort, Hl. simpl.
  repeat split; auto.
Qed.

Lemma commonPasswords_alnum (w : string) (c : ascii) :
  In w PasswordService.commonPasswords -> In c (chars w) ->
  PasswordScoring.isNonAlnum c = false.
Proof.
  intros Hw Hc.
  assert (Hall : forallb (fun w => forallb (fun c => negb (PasswordScoring.isNonAlnum c))
                                     (chars w))
                   PasswordService.commonPasswords = true)
    by (vm_compute; reflexivity).
  rewrite forallb_forall in Hall. specialize (Hall w Hw).
  rewrite forallb_forall in Hall. specialize (Hall c Hc).
  now destruct (PasswordScoring.isNonAlnum c).
Qed.

Lemma symbols_stay_symbols (c : ascii) :
  In c (chars PasswordService.symbols) ->
  PasswordScoring.isNonAlnum (Js.lowerChar c) = true.
Proof.
  intros Hc.
  assert (Hall : forallb (fun c => PasswordScoring.isNonAlnum (Js.lowerChar c))
                   (chars PasswordService.symbols) = true)
    by (vm_compute; reflexivity).
  rewrite forallb_forall in Hall. exact (Hall c Hc).
Qed.

(** X3.  For a requested length between 8 and 128, a generated password is
    never refused by validatePasswordStrength for its length, its
    character classes or for being common: it is accepted, or refused for
    a sequential or a repeated run.  The latter happens: there are draws
    for which the generated password is refused. *)
Theorem generated_password_may_fail_only_on_runs :
  (forall (random : nat -> Q) (arraySort : (nat -> Q) -> list ascii -> list ascii)
          (length : Z),
     (forall k, (0 <= random k)%Q /\ (random k < 1)%Q) ->
     (forall cmp l, Permutation (arraySort cmp l) l) ->
     8 <= length <= 128 ->
     let outcome :=
       PasswordService.validatePasswordStrength
         (PasswordService.generateRandomPassword random arraySort length) in
     outcome = Ok tt \/
     outcome = Throw (ValidationError
                        "Password should not contain 3 or more sequential characters"
                        "password") \/
     outcome = Throw (ValidationError
                        "Password should not contain 3 or more repeating characters"
                        "password")) /\
  (forall k, (0 <= Samples.unluckyRandom k)%Q /\ (Samples.unluckyRandom k < 1)%Q) /\
  PasswordService.validatePasswordStrength
    (PasswordService.generateRandomPassword Samples.unluckyRandom
       PasswordService.insertionSort 8)
  = Throw (ValidationError
             "Password should not contain 3 or more sequential characters" "password").
Proof.
  split; [|split].
  - intros random arraySort length Hrange Hsort Hlen outcome. subst outcome.
    destruct (generateRandomPassword_chars random arraySort length Hrange Hsort)
      as (c1 & c2 & c3 & c4 & l & Hperm & In1 & In2 & In3 & In4 & Hl).
    set (password := PasswordService.generateRandomPassword random arraySort length) in *.
    assert (Hmem : forall c, In c [c1; c2; c3; c4] -> In c (chars password)).
    { intros c Hc. eapply Permutation_in; [symmetry; exact Hperm|].
      simpl in Hc. simpl. tauto. }
    assert (Hsize : String.length password = Z.to_nat length).
    { rewrite <- chars_length, (Permutation_length Hperm). simpl. rewrite Hl. lia. }
    pose proof uppercase_isUpper as U. rewrite List.Forall_forall in U.
    pose proof lowercase_isLower as L. rewrite List.Forall_forall in L.
    pose proof numbers_isDigit as D. rewrite List.Forall_forall in D.
    assert (HU : Js.test Js.isUpper password = true).
    { apply test_In. exists c1. split; [apply Hmem; simpl; tauto | now apply U]. }
    assert (HL : Js.test Js.isLower password = true).
    { apply test_In. exists c2. split; [apply Hmem; simpl; tauto | now apply L]. }
    assert (HD : Js.test Js.isDigit password = true).
    { apply test_In. exists c3. split; [apply Hmem; simpl; tauto | now apply D]. }
    assert (HC : Js.arrayIncludes PasswordService.commonPasswords
                   (Js.toLowerCase password) = false).
    { destruct (Js.arrayIncludes _ _) eqn:Hc; [|reflexivity].
      apply arrayIncludes_In in Hc.
      pose proof (symbols_stay_symbols c4 In4) as Hs.
      rewrite (commonPasswords_alnum _ (Js.lowerChar c4) Hc) in Hs; [discriminate|].
      rewrite chars_toLowerCase. apply in_map. apply Hmem. simpl. tauto. }
    unfold PasswordService.validatePasswordStrength.
    rewrite Hsize, HU, HL, HD, HC.
    destruct (Nat.ltb_spec (Z.to_nat length) 8); [lia|].
    destruct (Nat.ltb_spec 128 (Z.to_nat length)); [lia|].
    destruct (Js.test PasswordService.isSpecialChar password); simpl;
      destruct (PasswordService.hasSequentialChars password 3); auto;
      destruct (PasswordService.hasRepeatingChars password 3); auto.
  - intros k. unfold Samples.unluckyRandom, Qle, Qlt.
    destruct k as [|[|[|[|[|[|[|[|k]]]]]]]]; simpl; lia.
  - vm_compute. reflexivity.
Qed.

(** ** Verification reads, revocation writes *)

Lemma verifyAccessToken_reads cfg now token st :
  exists r, verifyAccessToken cfg now token st = (Ok r, st).
Proof.
  unfold verifyAccessToken, isTokenRevoked, RedisService.get. run.
  destruct (Jwt.verify now token (verifyOptions cfg)) as [p|e]; [|eauto].
  simpl.
  destruct (bool_decide _); [eauto|]. simpl.
  destruct (falsy _); eauto.
Qed.

(** X4.  verifyAccessToken and verifyRefreshToken never throw and never
    write: whatever the token, they return an answer and leave the store
    and the cache as they were. *)
Theorem access_and_refresh_verification_only_read
  (cfg : Config) (now : Z) (token : Jwt.text) (st : Store.State) :
  (exists r, verifyAccessToken cfg now token st = (Ok r, st)) /\
  (exists r, verifyRefreshToken cfg now token st = (Ok r, st)).
Proof.
  split; [apply verifyAccessToken_reads|].
  destruct (verifyRefreshToken cfg now token st) as [r st'] eqn:Hv.
  apply verifyRefreshToken_inv in Hv.
  destruct Hv as [-> [-> | (p & id & row & _ & _ & _ & _ & ->)]]; eauto.
Qed.

(** A single-use verification either answers null and changes nothing, or
    answers the token's subject and deletes the entry of that subject. *)
Lemma verifySingleUse_cases cfg purpose now token st :
  verifySingleUse cfg purpose now token st = (Ok None, st) \/
  exists p,
    Jwt.verify now token (verifyOptions cfg) = Ok p /\
    Jwt.type p = Some purpose /\
    fst (RedisService.get now (purpose +:+ ":" +:+ Jwt.sub p) st) = Ok (Some token) /\
    verifySingleUse cfg purpose now token st =
      (Ok (Some {| td_userId := Jwt.sub p; td_email := Jwt.email p;
                   td_type := purpose; td_jti := None |}),
       Store.setRedis (fun m => delete (purpose +:+ ":" +:+ Jwt.sub p) m) st).
Proof.
  destruct (Jwt.verify now token (verifyOptions cfg)) as [p|e] eqn:Hv.
  - destruct (decide (Jwt.type p = Some purpose)) as [Hty|Hty].
    + assert (Hg : exists g,
                fst (RedisService.get now (purpose +:+ ":" +:+ Jwt.sub p) st) = Ok g)
        by (unfold RedisService.get; run; simpl; eauto).
      destruct Hg as [g Hg]. destruct (decide (g = Some token)) as [->|Hne].
      * right. exists p. repeat split; auto. now apply verifySingleUse_hit.
      * left. apply verifySingleUse_miss. intros q Hq.
        rewrite Hv in Hq. inversion Hq; subst q. rewrite Hg. congruence.
    + left. unfold verifySingleUse. run. rewrite Hv.
      now rewrite bool_decide_eq_false_2.
  - left. apply verifySingleUse_miss. intros q Hq. congruence.
Qed.

(** X5.  A single-use verification that fails changes nothing, so a wrong
    or stale token cannot use up the token that is cached; one that
    succeeds removes the cache entry of the token's own purpose and user,
    and only that. *)
Theorem single_use_verification_writes_only_on_success
  (cfg : Config) (now : Z) (token : Jwt.text) (st : Store.State) :
  (verifyEmailToken cfg now token st = (Ok None, st) \/
   exists d, verifyEmailToken cfg now token st =
     (Ok (Some d),
      Store.setRedis (fun m => delete ("email_verification:" +:+ td_userId d) m) st)) /\
  (verifyPasswordResetToken cfg now token st = (Ok None, st) \/
   exists d, verifyPasswordResetToken cfg now token st =
     (Ok (Some d),
      Store.setRedis (fun m => delete ("password_reset:" +:+ td_userId d) m) st)).
Proof.
  split.
  - destruct (verifySingleUse_cases cfg "email_verification" now token st)
      as [H | (p & _ & _ & _ & H)]; [now left | right; eexists; exact H].
  - destruct (verifySingleUse_cases cfg "password_reset" now token st)
      as [H | (p & _ & _ & _ & H)]; [now left | right; eexists; exact H].
Qed.

(** X6.  After revokeAccessToken for a token id, verifyAccessToken answers
    null for every token that carries this id, for as long as the marker
    lives: 24 hours, or the lifetime passed when it is positive. *)
Theorem revokeAccessToken_blocks_the_token
  (cfg : Config) (now now' : Z) (jti : string) (expiresIn : option Z)
  (secret : string) (p : Jwt.Payload) (st : Store.State) :
  (forall n, expiresIn = Some n -> 0 < n) ->
  Jwt.jti p = Some jti ->
  now' < now + default 86400 expiresIn * 1000 ->
  exists st',
    revokeAccessToken now jti expiresIn st = (Ok tt, st') /\
    verifyAccessToken cfg now' (Jwt.Signed secret p) st' = (Ok None, st').
Proof.
  intros Hpos Hjti Hlive.
  assert (Httl : (match expiresIn with
                  | Some n => if n =? 0 then 86400 else n
                  | None => 86400
                  end) = default 86400 expiresIn /\ 0 < default 86400 expiresIn).
  { destruct expiresIn as [n|]; simpl; [|lia].
    specialize (Hpos n eq_refl). destruct (Z.eqb_spec n 0); lia. }
  destruct Httl as [Httl Hp].
  unfold revokeAccessToken. rewrite Httl. unfold RedisService.setex. run.
  destruct (Z.leb_spec (default 86400 expiresIn) 0); [lia|].
  eexists. split; [reflexivity|].
  unfold verifyAccessToken, isTokenRevoked, RedisService.get. run.
  destruct (Jwt.verify now' (Jwt.Signed secret p) (verifyOptions cfg)) as [q|e] eqn:Hv;
    [|reflexivity].
  apply verify_Ok_signed in Hv. inversion Hv; subst q.
  simpl. rewrite Hjti. simpl. rewrite lookup_insert_eq.
  destruct (Z.ltb_spec now' (now + default 86400 expiresIn * 1000)); [|lia].
  now rewrite bool_decide_eq_true_2.
Qed.

(** ** Revoking every token of a user *)

Lemma revokeAllUserTokens_rows now userId st id :
  Store.refreshTokens (snd (revokeAllUserTokens now userId st)) !! id =
  (fun row => if (bool_decide (Store.rt_userId row = userId)
                  && negb (Store.rt_isRevoked row))%bool
              then revoked row else row) <$> Store.refreshTokens st !! id.
Proof.
  pose proof (revokeMany_lookup
                (fun _ row => bool_decide (Store.rt_userId row = userId)) st id) as H.
  unfold revokeAllUserTokens, addUserToBlacklist, RedisService.setex, revokeMany in *.
  run. simpl in *. exact H.
Qed.

(** X7.  After revokeAllUserTokens no refresh token whose row belongs to
    the user verifies, at any later or earlier instant; the rows of other
    users are left as they were. *)
Theorem revokeAllUserTokens_ends_every_session
  (cfg : Config) (now : Z) (userId : string) (st : Store.State) :
  (forall now' p id row,
     Jwt.jti p = Some id ->
     Store.refreshTokens st !! id = Some row ->
     Store.rt_userId row = userId ->
     fst (verifyRefreshToken cfg now' (Jwt.Signed (jwtSecret cfg) p)
            (snd (revokeAllUserTokens now userId st))) = Ok None) /\
  (forall id row,
     Store.refreshTokens st !! id = Some row ->
     Store.rt_userId row <> userId ->
     Store.refreshTokens (snd (revokeAllUserTokens now userId st)) !! id = Some row).
Proof.
  split.
  - intros now' p id row Hjti Hrow Howner.
    rewrite (verifyRefreshToken_revoked cfg now' p id (revoked row)); auto.
    rewrite revokeAllUserTokens_rows, Hrow. simpl.
    rewrite bool_decide_eq_true_2 by exact Howner. simpl.
    destruct (Store.rt_isRevoked row) eqn:Hrev; simpl; [|reflexivity].
    now rewrite revoked_twice.
  - intros id row Hrow Hother.
    rewrite revokeAllUserTokens_rows, Hrow. simpl.
    now rewrite bool_decide_eq_false_2.
Qed.

(** ** The sweep and verification *)

(** X8.  cleanExpiredTokens never changes the answer of verifyRefreshToken
    at the instant of the sweep or later: the rows it deletes are rows on
    which verification already fails.  Sweeping twice at the same instant
    is sweeping once. *)
Theorem sweep_changes_no_verification
  (cfg : Config) (now now' : Z) (token : Jwt.text) (st : Store.State) :
  now <= now' ->
  fst (verifyRefreshToken cfg now' token (snd (cleanExpiredTokens now st)))
  = fst (verifyRefreshToken cfg now' token st) /\
  snd (cleanExpiredTokens now (snd (cleanExpiredTokens now st)))
  = snd (cleanExpiredTokens now st).
Proof.
  intros Hle. split.
  - unfold verifyRefreshToken, findUniqueUnrevoked, cleanExpiredTokens. run.
    destruct (Jwt.verify now' token (verifyOptions cfg)) as [p|e]; [|reflexivity].
    simpl.
    destruct (negb (bool_decide (Jwt.type p = Some "refresh"))); [reflexivity|].
    destruct (Jwt.jti p) as [id|]; [|reflexivity]. simpl.
    destruct (Store.refreshTokens st !! id) as [row|] eqn:Hrow.
    + destruct (swept now row) eqn:Hswept.
      * rewrite (proj2 (map_lookup_filter_None _ _ _)).
        2:{ right. intros row' Hrow'. simpl. rewrite Hrow in Hrow'.
            inversion Hrow'; subst row'. now rewrite Hswept. }
        unfold swept, retention in Hswept.
        destruct (Store.rt_isRevoked row); [reflexivity|]. simpl in Hswept.
        rewrite orb_false_r in Hswept. apply Z.ltb_lt in Hswept.
        destruct (Z.ltb_spec (Store.rt_expiresAt row) now'); [reflexivity | lia].
      * rewrite (proj2 (map_lookup_filter_Some _ _ _ row));
          [|split; [exact Hrow | exact Hswept]].
        destruct (Store.rt_isRevoked row); [reflexivity|].
        destruct (Store.rt_expiresAt row <? now'); reflexivity.
    + rewrite (proj2 (map_lookup_filter_None _ _ _)); [reflexivity|]. now left.
  - unfold cleanExpiredTokens. run. simpl. unfold Store.setRefreshTokens. simpl.
    f_equal. apply map_eq. intros id.
    apply option_eq. intros row.
    rewrite !map_lookup_filter_Some. simpl. tauto.
Qed.

(** ** Tokens of one kind are refused as another *)

Lemma verifyRefreshToken_wrong_type cfg now secret p st :
  Jwt.type p <> Some "refresh" ->
  verifyRefreshToken cfg now (Jwt.Signed secret p) st = (Ok None, st).
Proof.
  intros Hty. unfold verifyRefreshToken. run.
  destruct (Jwt.verify now _ (verifyOptions cfg)) as [q|e] eqn:Hq; [|reflexivity].
  apply verify_Ok_signed in Hq. inversion Hq; subst q.
  simpl. now rewrite bool_decide_eq_false_2.
Qed.

Lemma verifySingleUse_wrong_type cfg purpose now secret p st :
  Jwt.type p <> Some purpose ->
  verifySingleUse cfg purpose now (Jwt.Signed secret p) st = (Ok None, st).
Proof.
  intros Hty.
  destruct (verifySingleUse_cases cfg purpose now (Jwt.Signed secret p) st)
    as [H | (q & Hq & Hty' & _)]; [exact H|].
  apply verify_Ok_signed in Hq. inversion Hq; subst q. congruence.
Qed.

(** X10.  A single-use token serves its own purpose only: a token issued
    for e-mail verification is refused as a password-reset token and as a
    refresh token, a token issued for password reset is refused as an
    e-mail verification token and as a refresh token, and none of these
    refusals touches the cache entry of the token. *)
Theorem single_use_purposes_do_not_cross
  (cfg : Config) (st : Store.State) (now now1 : Z) (jti userId email : string) :
  (exists token st1,
     generateEmailVerificationToken cfg now jti userId email st = (Ok token, st1) /\
     verifyPasswordResetToken cfg now1 token st1 = (Ok None, st1) /\
     verifyRefreshToken cfg now1 token st1 = (Ok None, st1)) /\
  (exists token st1,
     generatePasswordResetToken cfg now jti userId email st = (Ok token, st1) /\
     verifyEmailToken cfg now1 token st1 = (Ok None, st1) /\
     verifyRefreshToken cfg now1 token st1 = (Ok None, st1)).
Proof.
  split.
  - eexists _, _. split.
    + apply (generateSingleUse_run cfg "email_verification" "24h" 86400);
        [reflexivity | lia].
    + split.
      * apply (verifySingleUse_wrong_type cfg "password_reset"). discriminate.
      * apply verifyRefreshToken_wrong_type. discriminate.
  - eexists _, _. split.
    + apply (generateSingleUse_run cfg "password_reset" "1h" 3600);
        [reflexivity | lia].
    + split.
      * apply (verifySingleUse_wrong_type cfg "email_verification"). discriminate.
      * apply verifyRefreshToken_wrong_type. discriminate.
Qed.

(** ** Issuance *)


(** ** Permissions *)

Lemma unique_spec (l seen : list string) :
  List.NoDup (unique seen l) /\
  forall x, In x (unique seen l) <-> In x l /\ ~ In x seen.
Proof.
  revert seen. induction l as [|y l IH]; intros seen; simpl.
  - split; [constructor | intros x; tauto].
  - destruct (Js.arrayIncludes seen y) eqn:Hy.
    + apply arrayIncludes_In in Hy.
      destruct (IH seen) as [Hnd Hin]. split; [exact Hnd|].
      intros x. rewrite Hin. split; [tauto|].
      intros [[-> | Hx] Hs]; tauto.
    + assert (Hy' : ~ In y seen).
      { intros Hc. apply arrayIncludes_In in Hc. congruence. }
      destruct (IH (y :: seen)) as [Hnd Hin]. split.
      * constructor; [|exact Hnd]. rewrite Hin. simpl. tauto.
      * intros x. simpl. rewrite Hin. simpl.
        destruct (string_dec y x) as [->|Hne]; [tauto|]. tauto.
Qed.

Lemma getUserPermissions_tables (user : Store.User) :
  getUserPermissions user =
  unique []
    ((if Js.arrayIncludes (Store.u_roles user) "ADMIN" then Permissions.admin else []) ++
     (if Js.arrayIncludes (Store.u_roles user) "TEACHER" then Permissions.teacher else []) ++
     (if Js.arrayIncludes (Store.u_roles user) "STUDENT" then Permissions.student else [])).
Proof.
  unfold getUserPermissions.
  destruct (Js.arrayIncludes (Store.u_roles user) "ADMIN"),
    (Js.arrayIncludes (Store.u_roles user) "TEACHER"),
    (Js.arrayIncludes (Store.u_roles user) "STUDENT"); reflexivity.
Qed.

(** X13.  The permission list of a user has no duplicates and holds
    exactly the permissions of the roles ADMIN, TEACHER and STUDENT that
    the user has; other roles give nothing.  So an ADMIN holds every
    TEACHER permission, but [games:join] comes with STUDENT only. *)
Theorem getUserPermissions_is_the_union_of_the_role_tables (user : Store.User) :
  List.NoDup (getUserPermissions user) /\
  (forall x,
     In x (getUserPermissions user) <->
     (Permissions.hasRole user "ADMIN" /\ In x Permissions.admin) \/
     (Permissions.hasRole user "TEACHER" /\ In x Permissions.teacher) \/
     (Permissions.hasRole user "STUDENT" /\ In x Permissions.student)) /\
  (Permissions.hasRole user "ADMIN" ->
   forall x, In x Permissions.teacher -> In x (getUserPermissions user)) /\
  (In "games:join" (getUserPermissions user) <-> Permissions.hasRole user "STUDENT").
Proof.
  assert (Hiff : forall x,
     In x (getUserPermissions user) <->
     (Permissions.hasRole user "ADMIN" /\ In x Permissions.admin) \/
     (Permissions.hasRole user "TEACHER" /\ In x Permissions.teacher) \/
     (Permissions.hasRole user "STUDENT" /\ In x Permissions.student)).
  { intros x. rewrite getUserPermissions_tables.
    rewrite (proj2 (unique_spec _ [])), !in_app_iff.
    unfold Permissions.hasRole. rewrite <- !arrayIncludes_In.
    destruct (Js.arrayIncludes (Store.u_roles user) "ADMIN"),
      (Js.arrayIncludes (Store.u_roles user) "TEACHER"),
      (Js.arrayIncludes (Store.u_roles user) "STUDENT"); simpl In;
      intuition discriminate. }
  split; [rewrite getUserPermissions_tables; apply unique_spec|].
  split; [exact Hiff|]. split.
  - intros Hadmin x Hx. apply Hiff. left. split; [exact Hadmin|].
    simpl in Hx. simpl. intuition.
  - rewrite Hiff. split.
    + intros [[_ H] | [[_ H] | [H _]]]; [| |exact H];
        simpl in H; intuition discriminate.
    + intros H. right. right. split; [exact H | simpl; tauto].
Qed.

(** ** Expiry strings *)

Lemma digitsFrom_nonneg (s : string) (acc n : Z) :
  0 <= acc -> Jwt.digitsFrom acc s = Some n -> 0 <= n.
Proof.
  revert acc. induction s as [|c s IH]; intros acc Hacc; simpl.
  - intros H. inversion H. lia.
  - destruct (Js.isDigit c); [|discriminate]. apply IH. lia.
Qed.

Lemma digits_nonneg (s : string) (n : Z) : Jwt.digits s = Some n -> 0 <= n.
Proof.
  unfold Jwt.digits. destruct s; [discriminate|].
  apply digitsFrom_nonneg. lia.
Qed.

Lemma multiplier_pos (u : ascii) (m : Z) : Jwt.multiplier u = Some m -> 0 < m.
Proof.
  unfold Jwt.multiplier.
  repeat match goal with
         | |- (if ?b then _ else _) = _ -> _ =>
             destruct b; [intros H; inversion H; lia|]
         end.
  discriminate.
Qed.

Lemma unsnoc_head (c : ascii) (s init : string) (l : ascii) :
  Jwt.unsnoc (String c s) = Some (init, l) ->
  (s = EmptyString /\ init = EmptyString /\ l = c) \/
  (exists init', init = String c init').
Proof.
  simpl. destruct s as [|d s]; [intros H; inversion H; auto|].
  destruct (Jwt.unsnoc (String d s)) as [[i l']|]; [|discriminate].
  intros H. inversion H. right. eauto.
Qed.

(** X14.  parseExpiryToSeconds never returns a negative number, and it
    returns the default 3600 for the empty string and for every string
    whose first character is not a digit: a sign or a leading space makes
    the whole expiry fall back to one hour. *)
Theorem parseExpiryToSeconds_is_never_negative (expiry : string) :
  0 <= parseExpiryToSeconds expiry /\
  (forall c rest, expiry = String c rest -> Js.isDigit c = false ->
                  parseExpiryToSeconds expiry = 3600) /\
  parseExpiryToSeconds "" = 3600.
Proof.
  split; [|split; [|reflexivity]].
  - unfold parseExpiryToSeconds, Jwt.numberAndUnit.
    destruct (Jwt.unsnoc expiry) as [[init l]|]; [|lia].
    destruct (Jwt.multiplier l) as [m|] eqn:Hm.
    + destruct (Jwt.digits init) as [v|] eqn:Hv; [|lia].
      simpl. rewrite Hm. simpl.
      apply digits_nonneg in Hv. apply multiplier_pos in Hm. nia.
    + destruct (Jwt.digits expiry) as [v|] eqn:Hv; [|lia].
      simpl. apply digits_nonneg in Hv.
      destruct (Jwt.multiplier "s"); simpl; lia.
  - intros c rest -> Hc.
    unfold parseExpiryToSeconds, Jwt.numberAndUnit.
    destruct (Jwt.unsnoc (String c rest)) as [[init l]|] eqn:Hu; [|reflexivity].
    assert (Hwhole : Jwt.digits (String c rest) = None).
    { unfold Jwt.digits. simpl. now rewrite Hc. }
    rewrite Hwhole.
    destruct (unsnoc_head _ _ _ _ Hu) as [(-> & -> & ->) | (init' & ->)].
    + destruct (Jwt.multiplier c); reflexivity.
    + assert (Hinit : Jwt.digits (String c init') = None).
      { unfold Jwt.digits. simpl. now rewrite Hc. }
      rewrite Hinit. destruct (Jwt.multiplier l); reflexivity.
Qed.

(** ** Use cases that end sessions *)

(** revokeRefreshToken keeps every row, with its owner. *)
Lemma revokeRefreshToken_keeps_rows cfg now token st id row :
  Store.refreshTokens st !! id = Some row ->
  exists row',
    Store.refreshTokens (snd (revokeRefreshToken cfg now token st)) !! id = Some row' /\
    Store.rt_userId row' = Store.rt_userId row.
Proof.
  intros Hrow. unfold revokeRefreshToken. run.
  destruct (Jwt.verify now token _) as [p|e]; [|simpl; eauto].
  simpl. destruct (Js.truthy (Jwt.jti p)); [|simpl; eauto].
  pose proof (revokeMany_lookup (fun i _ => bool_decide (Some i = Jwt.jti p)) st id) as Hl.
  unfold revokeMany in Hl. run. simpl in *. rewrite Hl, Hrow. simpl.
  destruct (_ && _)%bool; eauto.
Qed.

(** After revokeAllUserTokens every row of the user is revoked. *)
Lemma revokeAllUserTokens_revokes now userId st id row :
  Store.refreshTokens st !! id = Some row ->
  Store.rt_userId row = userId ->
  Store.refreshTokens (snd (revokeAllUserTokens now userId st)) !! id
  = Some (revoked row).
Proof.
  intros Hrow Howner. rewrite revokeAllUserTokens_rows, Hrow. simpl.
  rewrite bool_decide_eq_true_2 by exact Howner. simpl.
  destruct (Store.rt_isRevoked row) eqn:Hrev; simpl; [|reflexivity].
  now rewrite revoked_twice.
Qed.

Lemma revokeAllUserTokens_run now userId st :
  revokeAllUserTokens now userId st = (Ok tt, snd (revokeAllUserTokens now userId st)).
Proof. reflexivity. Qed.

(** X15.  logout never throws, whatever is passed as refresh token; after
    it no refresh token whose row belonged to the user verifies, the
    user's blacklist entry is written for 24 hours, and the last audit
    entry records the logout. *)
Theorem logout_ends_every_session
  (cfg : Config) (now : Z) (userId : string) (refreshToken : option Jwt.text)
  (st : Store.State) :
  exists st',
    AuthFlows.logout cfg now userId refreshToken st = (Ok tt, st') /\
    (forall now' p id row,
       Jwt.jti p = Some id ->
       Store.refreshTokens st !! id = Some row ->
       Store.rt_userId row = userId ->
       verifyRefreshToken cfg now' (Jwt.Signed (jwtSecret cfg) p) st' = (Ok None, st')) /\
    Store.redis st' !! ("user_blacklist:" +:+ userId)
      = Some (Jwt.Plain "true", now + 86400 * 1000) /\
    last (Store.auditLogs st') = Some
      {| Store.al_userId := userId; Store.al_action := "LOGOUT";
         Store.al_resource := "auth"; Store.al_details := [];
         Store.al_ip := None; Store.al_userAgent := None |}.
Proof.
  set (st0 := snd (match refreshToken with
                   | Some token =>
                       if AuthFlows.given refreshToken
                       then revokeRefreshToken cfg now token else ret tt
                   | None => ret tt
                   end st)).
  assert (Hfirst : match refreshToken with
                   | Some token =>
                       if AuthFlows.given refreshToken
                       then revokeRefreshToken cfg now token else ret tt
                   | None => ret tt
                   end st = (Ok tt, st0)).
  { subst st0. destruct refreshToken as [token|]; [|reflexivity].
    destruct (AuthFlows.given (Some token)); [|reflexivity].
    pose proof (proj1 (revokeRefreshToken_cases cfg now token st)) as Hok.
    destruct (revokeRefreshToken cfg now token st) as [o s]. simpl in *. now subst o. }
  assert (Hkeep : forall id row,
            Store.refreshTokens st !! id = Some row ->
            exists row', Store.refreshTokens st0 !! id = Some row' /\
                         Store.rt_userId row' = Store.rt_userId row).
  { intros id row Hrow. subst st0. destruct refreshToken as [token|]; [|simpl; eauto].
    destruct (AuthFlows.given (Some token)); [|simpl; eauto].
    now apply revokeRefreshToken_keeps_rows. }
  set (st1 := snd (revokeAllUserTokens now userId st0)).
  set (st2 := snd (AuthFlows.clearUserCache userId st1)).
  exists (snd (AuthService.logAuthEvent userId "LOGOUT" AuthService.noDetails st2)).
  split.
  - unfold AuthFlows.logout. unfold bind at 1. rewrite Hfirst.
    unfold bind at 1. rewrite revokeAllUserTokens_run. reflexivity.
  - split; [|split].
    + intros now' p id row Hjti Hrow Howner.
      destruct (Hkeep id row Hrow) as (row' & Hrow' & Howner').
      apply (verifyRefreshToken_revoked cfg now' p id (revoked row')); auto.
      change (Store.refreshTokens st1 !! id = Some (revoked row')).
      apply revokeAllUserTokens_revokes; congruence.
    + simpl. rewrite !lookup_delete_ne by discriminate. apply lookup_insert_eq.
    + simpl. apply last_snoc.
Qed.

(** ** Password reset *)

Lemma findUserByEmail_run email st :
  AuthService.findUserByEmail email st = (fst (AuthService.findUserByEmail email st), st).
Proof. reflexivity. Qed.

Lemma findUserById_run userId st :
  AuthService.findUserById userId st = (fst (AuthService.findUserById userId st), st).
Proof. reflexivity. Qed.

Lemma checkRateLimit_run now key limit windowSeconds st :
  RedisService.checkRateLimit now key limit windowSeconds st =
  (Ok (default 0 (Store.counters st !! (key, (now / 1000) / windowSeconds)) + 1 <=? limit),
   Store.setCounters (fun m =>
     <[(key, (now / 1000) / windowSeconds) :=
         default 0 (Store.counters st !! (key, (now / 1000) / windowSeconds)) + 1]> m) st).
Proof. reflexivity. Qed.

(** X16.  sendPasswordResetEmail answers an unknown address by returning
    normally with nothing written; for a known address that the rate
    limiter lets through it returns normally too, after queueing one
    reset e-mail for that user. *)
Theorem sendPasswordResetEmail_hides_unknown_addresses
  (now : Z) (email : string) (st : Store.State) :
  (fst (AuthService.findUserByEmail email st) = Ok None ->
   AuthFlows.sendPasswordResetEmail now email st = (Ok tt, st)) /\
  (forall user,
     fst (AuthService.findUserByEmail email st) = Ok (Some user) ->
     fst (RedisService.checkRateLimit now ("reset_password:" +:+ email) 3 300 st)
       = Ok true ->
     exists st',
       AuthFlows.sendPasswordResetEmail now email st = (Ok tt, st') /\
       Store.authQueue st' =
         Store.authQueue st ++
         [ {| Store.job_name := "send-password-reset-email";
              Store.job_userId := Store.u_id user;
              Store.job_email := Store.u_email user;
              Store.job_nickname := Store.u_nickname user |} ]).
Proof.
  split.
  - intros H. unfold AuthFlows.sendPasswordResetEmail. unfold bind at 1.
    rewrite (findUserByEmail_run email st), H. reflexivity.
  - intros user H Hrate.
    unfold AuthFlows.sendPasswordResetEmail. unfold bind at 1.
    rewrite (findUserByEmail_run email st), H.
    unfold bind at 1. rewrite checkRateLimit_run in *. simpl in Hrate.
    injection Hrate as Hr. rewrite Hr. simpl.
    eexists. split; reflexivity.
Qed.

Lemma verifyPasswordResetToken_consumed cfg st now now1 now2 jti userId email :
  now1 / 1000 < now / 1000 + 3600 ->
  exists token st1 st2,
    generatePasswordResetToken cfg now jti userId email st = (Ok token, st1) /\
    verifyPasswordResetToken cfg now1 token st1 =
      (Ok (Some {| td_userId := userId; td_email := Some email;
                   td_type := "password_reset"; td_jti := None |}), st2) /\
    st2 = Store.setRedis (fun m => delete ("password_reset:" +:+ userId) m) st1 /\
    st1 = Store.setRedis (fun m =>
            <["password_reset:" +:+ userId :=
                (singleUseToken cfg "password_reset" 3600 now jti userId email,
                 now + 3600 * 1000)]> m) st /\
    verifyPasswordResetToken cfg now2 token st2 = (Ok None, st2).
Proof.
  intros Hlive.
  pose proof (singleUseToken_verify cfg "password_reset" 3600 now now1 jti userId email
                Hlive) as Hv.
  eexists _, _, _.
  split; [apply (generateSingleUse_run cfg "password_reset" "1h" 3600);
          [reflexivity | lia]|].
  split.
  { apply (verifySingleUse_hit cfg "password_reset" now1 _ _ _ Hv); [reflexivity|].
    simpl Jwt.sub. rewrite redis_get_inserted.
    apply seconds_before_lapse in Hlive.
    destruct (Z.ltb_spec now1 (now + 3600 * 1000)); [reflexivity | lia]. }
  split; [reflexivity|]. split; [reflexivity|].
  apply (verifySingleUse_miss cfg "password_reset"). intros p Hp.
  apply verify_Ok_signed in Hp. inversion Hp; subst p. simpl Jwt.sub.
  rewrite redis_get_deleted. discriminate.
Qed.

(** X17.  resetPassword consumes the reset token before it looks at the
    new password: with a password that validatePasswordStrength refuses it
    throws that validation error, users and refresh tokens are as before,
    but the token is used up, and a second call with the same token fails
    whatever the password. *)
Theorem resetPassword_with_weak_password_uses_up_the_token
  (cfg : Config) (bcryptHash : string -> outcome string) (st : Store.State)
  (now now1 now2 : Z) (jti userId email weak other : string) (e : error) :
  now1 / 1000 < now / 1000 + 3600 ->
  PasswordService.validatePasswordStrength weak = Throw e ->
  exists token st1 st2,
    generatePasswordResetToken cfg now jti userId email st = (Ok token, st1) /\
    AuthFlows.resetPassword cfg bcryptHash now1 token weak st1 = (Throw e, st2) /\
    Store.users st2 = Store.users st /\
    Store.refreshTokens st2 = Store.refreshTokens st /\
    Store.redis st2 !! ("password_reset:" +:+ userId) = None /\
    AuthFlows.resetPassword cfg bcryptHash now2 token other st2
      = (Throw (BadRequestException "Invalid or expired reset token"), st2).
Proof.
  intros Hlive Hweak.
  destruct (verifyPasswordResetToken_consumed cfg st now now1 now2 jti userId email Hlive)
    as (token & st1 & st2 & Hgen & Hfirst & Hst2 & Hst1 & Hsecond).
  exists token, st1, st2. split; [exact Hgen|].
  split.
  { unfold AuthFlows.resetPassword. unfold bind at 1. rewrite Hfirst.
    unfold bind at 1, lift. now rewrite Hweak. }
  split; [now subst|]. split; [now subst|].
  split; [subst; simpl; apply lookup_delete_eq|].
  unfold AuthFlows.resetPassword. unfold bind at 1. now rewrite Hsecond.
Qed.

Lemma find_updated (users : list Store.User) (userId : string)
  (data : Store.User -> Store.User) (user : Store.User) :
  (forall u, Store.u_id (data u) = Store.u_id u) ->
  find (fun u => String.eqb (Store.u_id u) userId) users = Some user ->
  find (fun u => String.eqb (Store.u_id u) userId)
    (List.map (fun u => if String.eqb (Store.u_id u) userId then data u else u) users)
  = Some (data user).
Proof.
  intros Hid. induction users as [|u users IH]; simpl; [discriminate|].
  destruct (String.eqb (Store.u_id u) userId) eqn:Hu.
  - rewrite Hid, Hu. intros H. now inversion H.
  - rewrite Hu. exact IH.
Qed.

Lemma updateUser_run userId data st user :
  fst (AuthService.findUserById userId st) = Ok (Some user) ->
  AuthFlows.updateUser userId data st =
  (Ok tt, Store.setUsers (List.map (fun u =>
            if String.eqb (Store.u_id u) userId then data u else u)) st).
Proof.
  intros H. unfold AuthFlows.updateUser. unfold bind.
  rewrite (findUserById_run userId st), H. reflexivity.
Qed.

(** X18.  resetPassword with a live token, an accepted password and a
    hashing that succeeds replaces the user's password hash by the new
    digest, the other columns of the user staying as they were, and ends
    every session of that user: no refresh token whose row belonged to
    the user verifies afterwards. *)
Theorem resetPassword_replaces_the_hash_and_ends_sessions
  (cfg : Config) (bcryptHash : string -> outcome string) (st : Store.State)
  (now now1 : Z) (jti userId email newPassword digest : string) (user : Store.User) :
  now1 / 1000 < now / 1000 + 3600 ->
  PasswordService.validatePasswordStrength newPassword = Ok tt ->
  bcryptHash newPassword = Ok digest ->
  fst (AuthService.findUserById userId st) = Ok (Some user) ->
  exists token st1 st',
    generatePasswordResetToken cfg now jti userId email st = (Ok token, st1) /\
    AuthFlows.resetPassword cfg bcryptHash now1 token newPassword st1 = (Ok tt, st') /\
    fst (AuthService.findUserById userId st')
      = Ok (Some {| Store.u_id := Store.u_id user;
                  Store.u_email := Store.u_email user;
                  Store.u_passwordHash := digest;
                  Store.u_nickname := Store.u_nickname user;
                  Store.u_roles := Store.u_roles user;
                  Store.u_emailVerified := Store.u_emailVerified user;
                  Store.u_mfaEnabled := Store.u_mfaEnabled user;
                  Store.u_mfaSecret := Store.u_mfaSecret user;
                  Store.u_lastLoginAt := Store.u_lastLoginAt user;
                  Store.u_lastActivityAt := Store.u_lastActivityAt user |}) /\
    (forall now' p id row,
       Jwt.jti p = Some id ->
       Store.refreshTokens st !! id = Some row ->
       Store.rt_userId row = userId ->
       verifyRefreshToken cfg now' (Jwt.Signed (jwtSecret cfg) p) st' = (Ok None, st')).
Proof.
  intros Hlive Hok Hhash Huser.
  destruct (verifyPasswordResetToken_consumed cfg st now now1 now1 jti userId email Hlive)
    as (token & st1 & st2 & Hgen & Hfirst & Hst2 & Hst1 & _).
  assert (Hfind : find (fun u => String.eqb (Store.u_id u) userId) (Store.users st)
                  = Some user).
  { unfold AuthService.findUserById in Huser. run. simpl in Huser. now inversion Huser. }
  set (st3 := Store.setUsers (List.map (fun u =>
                if String.eqb (Store.u_id u) userId
                then AuthFlows.withPasswordHash digest u else u)) st2).
  set (st4 := snd (revokeAllUserTokens now1 userId st3)).
  exists token, st1,
    (snd (AuthService.logAuthEvent userId "PASSWORD_RESET" AuthService.noDetails st4)).
  split; [exact Hgen|]. split; [|split].
  - unfold AuthFlows.resetPassword. unfold bind at 1. rewrite Hfirst.
    unfold bind at 1, lift. rewrite Hok.
    unfold bind at 1, PasswordScoring.hashPassword. rewrite Hhash.
    unfold bind at 1. rewrite (updateUser_run userId _ st2 user).
    2:{ unfold AuthService.findUserById. run. simpl.
        replace (Store.users st2) with (Store.users st) by now subst.
        now rewrite Hfind. }
    fold st3. unfold bind at 1. rewrite revokeAllUserTokens_run. reflexivity.
  - unfold AuthService.findUserById. run. simpl.
    replace (Store.users st2) with (Store.users st) by now subst.
    now rewrite (find_updated _ _ _ user).
  - intros now' p id row Hjti Hrow Howner.
    apply (verifyRefreshToken_revoked cfg now' p id (revoked row)); auto.
    change (Store.refreshTokens st4 !! id = Some (revoked row)).
    apply revokeAllUserTokens_revokes; [|exact Howner].
    subst st3 st2 st1. exact Hrow.
Qed.

(** ** Changing the password *)

(** X19.  changePassword writes nothing unless it succeeds: when it
    throws, for an unknown user, a wrong current password, a refused new
    password or a hashing that fails, the state is the one it started
    from.  A wrong current password gives Unauthorized with the message
    "Invalid current password", and no audit entry. *)
Theorem changePassword_is_all_or_nothing
  (bcryptCompare : string -> string -> outcome bool)
  (bcryptHash : string -> outcome string)
  (now : Z) (userId oldPassword newPassword : string) (st : Store.State) :
  (forall e st',
     AuthFlows.changePassword bcryptCompare bcryptHash now userId oldPassword newPassword st
     = (Throw e, st') -> st' = st) /\
  (forall user,
     fst (AuthService.findUserById userId st) = Ok (Some user) ->
     PasswordService.verifyPassword bcryptCompare oldPassword (Store.u_passwordHash user)
     = false ->
     AuthFlows.changePassword bcryptCompare bcryptHash now userId oldPassword newPassword st
     = (Throw (UnauthorizedError "Invalid current password"), st)).
Proof.
  split.
  - intros e st'. unfold AuthFlows.changePassword. unfold bind at 1.
    rewrite (findUserById_run userId st).
    destruct (fst (AuthService.findUserById userId st)) as [[user|]|e0] eqn:Hfind;
      try (intros H; now inversion H).
    destruct (negb _); [intros H; now inversion H|].
    unfold bind at 1, lift.
    destruct (PasswordService.validatePasswordStrength newPassword);
      [|intros H; now inversion H].
    unfold bind at 1. destruct (PasswordScoring.hashPassword bcryptHash newPassword);
      [|intros H; now inversion H].
    unfold bind at 1. rewrite (updateUser_run userId _ st user Hfind).
    unfold bind at 1. rewrite revokeAllUserTokens_run. discriminate.
  - intros user Hfind Hwrong. unfold AuthFlows.changePassword. unfold bind at 1.
    rewrite (findUserById_run userId st), Hfind, Hwrong. reflexivity.
Qed.

(** X20.  changePassword with the right current password, an accepted new
    password and a hashing that succeeds replaces the hash by the new
    digest, the other columns of the user staying as they were, and ends
    every session of the user, the caller's own included: no refresh token
    whose row belonged to the user verifies afterwards, and no row is
    added. *)
Theorem changePassword_replaces_the_hash_and_ends_sessions
  (cfg : Config) (bcryptCompare : string -> string -> outcome bool)
  (bcryptHash : string -> outcome string)
  (now : Z) (userId oldPassword newPassword digest : string)
  (user : Store.User) (st : Store.State) :
  fst (AuthService.findUserById userId st) = Ok (Some user) ->
  PasswordService.verifyPassword bcryptCompare oldPassword (Store.u_passwordHash user)
  = true ->
  PasswordService.validatePasswordStrength newPassword = Ok tt ->
  bcryptHash newPassword = Ok digest ->
  exists st',
    AuthFlows.changePassword bcryptCompare bcryptHash now userId oldPassword newPassword st
    = (Ok tt, st') /\
    fst (AuthService.findUserById userId st')
      = Ok (Some {| Store.u_id := Store.u_id user;
                  Store.u_email := Store.u_email user;
                  Store.u_passwordHash := digest;
                  Store.u_nickname := Store.u_nickname user;
                  Store.u_roles := Store.u_roles user;
                  Store.u_emailVerified := Store.u_emailVerified user;
                  Store.u_mfaEnabled := Store.u_mfaEnabled user;
                  Store.u_mfaSecret := Store.u_mfaSecret user;
                  Store.u_lastLoginAt := Store.u_lastLoginAt user;
                  Store.u_lastActivityAt := Store.u_lastActivityAt user |}) /\
    (forall now' p id row,
       Jwt.jti p = Some id ->
       Store.refreshTokens st !! id = Some row ->
       Store.rt_userId row = userId ->
       verifyRefreshToken cfg now' (Jwt.Signed (jwtSecret cfg) p) st' = (Ok None, st')) /\
    (forall id, is_Some (Store.refreshTokens st' !! id) ->
                is_Some (Store.refreshTokens st !! id)).
Proof.
  intros Hfind Hold Hok Hhash.
  set (st1 := Store.setUsers (List.map (fun u =>
                if String.eqb (Store.u_id u) userId
                then AuthFlows.withPasswordHash digest u else u)) st).
  set (st2 := snd (revokeAllUserTokens now userId st1)).
  exists (snd (AuthService.logAuthEvent userId "PASSWORD_CHANGE" AuthService.noDetails st2)).
  split; [|split; [|split]].
  - unfold AuthFlows.changePassword. unfold bind at 1.
    rewrite (findUserById_run userId st), Hfind, Hold.
    change (negb true) with false. cbv beta iota.
    unfold bind at 1, lift. rewrite Hok.
    unfold bind at 1, PasswordScoring.hashPassword. rewrite Hhash.
    unfold bind at 1. rewrite (updateUser_run userId _ st user Hfind).
    fold st1. unfold bind at 1. rewrite revokeAllUserTokens_run. reflexivity.
  - unfold AuthService.findUserById in *. run. simpl in *.
    injection Hfind as Hfind. now rewrite (find_updated _ _ _ user).
  - intros now' p id row Hjti Hrow Howner.
    apply (verifyRefreshToken_revoked cfg now' p id (revoked row)); auto.
    change (Store.refreshTokens st2 !! id = Some (revoked row)).
    now apply revokeAllUserTokens_revokes.
  - intros id.
    change (is_Some (Store.refreshTokens st2 !! id) ->
            is_Some (Store.refreshTokens st !! id)).
    subst st2. rewrite revokeAllUserTokens_rows. simpl.
    destruct (Store.refreshTokens st !! id); simpl; [eauto|].
    intros [x Hx]. discriminate.
Qed.

(** ** Login *)

Lemma validateUserCredentials_run bcryptCompare email password st :
  AuthService.validateUserCredentials bcryptCompare email password st =
  match fst (AuthService.findUserByEmail email st) with
  | Ok (Some user) =>
      if PasswordService.verifyPassword bcryptCompare password (Store.u_passwordHash user)
      then (Ok user, st)
      else (Throw (UnauthorizedError "Invalid credentials"),
            snd (AuthService.logAuthEvent (Store.u_id user) "LOGIN_FAILED"
                   {| AuthService.d_fields := [("reason", "invalid_password")];
                      AuthService.d_ip := None; AuthService.d_userAgent := None |} st))
  | _ => (Throw (UnauthorizedError "Invalid credentials"), st)
  end.
Proof.
  unfold AuthService.validateUserCredentials, AuthService.findUserByEmail. run. simpl.
  destruct (find _ (Store.users st)) as [user|]; [|reflexivity].
  destruct (PasswordService.verifyPassword _ _ _); reflexivity.
Qed.

Lemma checkLoginRateLimit_run now userId ip st :
  exists r, AuthService.checkLoginRateLimit now userId ip st =
            (r, Store.setCounters
                  (fun m => <[("login_attempts:" +:+ userId +:+ ":" +:+
                               (if Js.truthy ip then Js.show ip else "unknown"),
                               (now / 1000) / 300) :=
                      default 0 (Store.counters st !!
                        ("login_attempts:" +:+ userId +:+ ":" +:+
                         (if Js.truthy ip then Js.show ip else "unknown"),
                         (now / 1000) / 300)) + 1]> m) st) /\
            (r = Ok tt \/
             r = Throw (BadRequestException
                          "Too many login attempts. Please try again later.")).
Proof.
  unfold AuthService.checkLoginRateLimit. unfold bind. rewrite checkRateLimit_run.
  destruct (_ <=? 5); simpl; eauto.
Qed.

Lemma generateTokenPair_library_errors cfg now jti refreshTokenId user st e st' :
  generateTokenPair cfg now jti refreshTokenId user st = (Throw e, st') ->
  exists message, e = LibraryError message.
Proof. rewrite generateTokenPair_run. intros H. injection H as <- _. eauto. Qed.

(** X24.  A login that fails on the credentials is not counted by the
    rate limiter: when login throws Unauthorized "Invalid credentials",
    no counter has moved, no token, row or user has been written, and
    the audit log has grown by at most one LOGIN_FAILED entry. *)
Theorem failed_login_is_not_rate_limited
  (cfg : Config) (bcryptCompare : string -> string -> outcome bool)
  (now : Z) (challenge jti refreshTokenId : string) (dto : AuthService.LoginDto)
  (st st' : Store.State) :
  AuthService.login cfg bcryptCompare now challenge jti refreshTokenId dto st
  = (Throw (UnauthorizedError "Invalid credentials"), st') ->
  Store.counters st' = Store.counters st /\
  Store.redis st' = Store.redis st /\
  Store.refreshTokens st' = Store.refreshTokens st /\
  Store.users st' = Store.users st /\
  Store.authQueue st' = Store.authQueue st /\
  (Store.auditLogs st' = Store.auditLogs st \/
   exists user,
     Store.auditLogs st' =
     Store.auditLogs st ++
     [ {| Store.al_userId := Store.u_id user; Store.al_action := "LOGIN_FAILED";
          Store.al_resource := "auth";
          Store.al_details := [("reason", "invalid_password")];
          Store.al_ip := None; Store.al_userAgent := None |} ]).
Proof.
  unfold AuthService.login. unfold bind at 1.
  rewrite validateUserCredentials_run.
  destruct (fst (AuthService.findUserByEmail _ st)) as [[user|]|e];
    try (intros H; injection H as <-; repeat split; now left).
  destruct (PasswordService.verifyPassword _ _ _).
  2:{ intros H. injection H as <-. repeat split. right. now exists user. }
  unfold bind at 1, AuthService.checkAccountStatus, ret.
  unfold bind at 1.
  destruct (checkLoginRateLimit_run now (Store.u_id user)
              (AuthService.ip <$> AuthService.dto_clientInfo dto) st)
    as (r & -> & [-> | ->]); [|discriminate].
  destruct (Store.u_mfaEnabled user).
  - unfold MfaService.generateMfaToken, RedisService.setex. run. simpl. discriminate.
  - unfold bind at 1.
    destruct (generateTokenPair cfg now jti refreshTokenId user _) as [[t|e] stG] eqn:Hg.
    + unfold bind at 1, AuthService.updateUserLoginInfo. unfold bind at 1.
      rewrite findUserById_run.
      destruct (fst (AuthService.findUserById _ _)) as [[u|]|e] eqn:Hu;
        [run; simpl; discriminate | run; simpl; discriminate |].
      unfold AuthService.findUserById in Hu. run. discriminate.
    + apply generateTokenPair_library_errors in Hg. destruct Hg as (m & ->).
      discriminate.
Qed.

Lemma validateUserCredentials_ok bcryptCompare email password st user :
  fst (AuthService.findUserByEmail email st) = Ok (Some user) ->
  PasswordService.verifyPassword bcryptCompare password (Store.u_passwordHash user)
  = true ->
  AuthService.validateUserCredentials bcryptCompare email password st = (Ok user, st).
Proof. intros Hfind Hpw. now rewrite validateUserCredentials_run, Hfind, Hpw. Qed.

(** X22.  For a user with MFA enabled, a login with the right password
    issues no session: the result asks for the second factor and carries
    the challenge, without user or tokens, and no refresh-token row and no
    access grant has been written. *)
Theorem login_with_mfa_issues_no_session
  (cfg : Config) (bcryptCompare : string -> string -> outcome bool)
  (now : Z) (challenge jti refreshTokenId : string) (dto : AuthService.LoginDto)
  (st : Store.State) (user : Store.User) :
  fst (AuthService.findUserByEmail (AuthService.dto_email dto) st) = Ok (Some user) ->
  PasswordService.verifyPassword bcryptCompare (AuthService.dto_password dto)
    (Store.u_passwordHash user) = true ->
  Store.u_mfaEnabled user = true ->
  fst (AuthService.checkLoginRateLimit now (Store.u_id user)
         (AuthService.ip <$> AuthService.dto_clientInfo dto) st) = Ok tt ->
  exists st',
    AuthService.login cfg bcryptCompare now challenge jti refreshTokenId dto st
    = (Ok {| AuthService.ar_user := None; AuthService.ar_tokens := None;
             AuthService.ar_requiresMfa := Some true;
             AuthService.ar_mfaToken := Some challenge |}, st') /\
    Store.refreshTokens st' = Store.refreshTokens st /\
    Store.users st' = Store.users st /\
    (forall id, Store.redis st' !! ("access_token:" +:+ id)
                = Store.redis st !! ("access_token:" +:+ id)).
Proof.
  intros Hfind Hpw Hmfa Hrate.
  destruct (checkLoginRateLimit_run now (Store.u_id user)
              (AuthService.ip <$> AuthService.dto_clientInfo dto) st)
    as (r & Hrun & _).
  rewrite Hrun in Hrate. simpl in Hrate. subst r.
  eexists. split.
  - unfold AuthService.login. unfold bind at 1.
    rewrite (validateUserCredentials_ok _ _ _ _ user Hfind Hpw).
    unfold bind at 1, AuthService.checkAccountStatus, ret.
    unfold bind at 1. rewrite Hrun, Hmfa. reflexivity.
  - simpl. repeat split. intros id. now rewrite lookup_insert_ne.
Qed.

Lemma find_by_email_in (users : list Store.User) (email : string) (user : Store.User) :
  find (fun u => String.eqb (Store.u_email u) email) users = Some user ->
  In user users.
Proof. intros H. apply find_some in H. tauto. Qed.

Lemma find_by_id_of_member (users : list Store.User) (user : Store.User) :
  In user users ->
  exists u, find (fun u => String.eqb (Store.u_id u) (Store.u_id user)) users = Some u.
Proof.
  intros Hin.
  destruct (find _ users) as [u|] eqn:Hf; [eauto|].
  pose proof (find_none _ _ Hf user Hin) as Hno. simpl in Hno.
  now rewrite String.eqb_refl in Hno.
Qed.

(** X21.  A login with the right password, for a user without MFA and
    within the rate limit, does not return a session: it throws the
    signer's error out of generateTokenPair.  By then the attempt has been
    counted by the rate limiter, and nothing else has been written: no
    refresh-token row, no cache entry, no audit entry, no job, and the
    users are as before, so the user's row does not carry the instant of
    the login. *)
Theorem login_with_right_password_stops_at_the_signer
  (cfg : Config) (bcryptCompare : string -> string -> outcome bool)
  (now : Z) (challenge jti refreshTokenId : string)
  (dto : AuthService.LoginDto) (st : Store.State) (user : Store.User) :
  fst (AuthService.findUserByEmail (AuthService.dto_email dto) st) = Ok (Some user) ->
  PasswordService.verifyPassword bcryptCompare (AuthService.dto_password dto)
    (Store.u_passwordHash user) = true ->
  Store.u_mfaEnabled user = false ->
  fst (AuthService.checkLoginRateLimit now (Store.u_id user)
         (AuthService.ip <$> AuthService.dto_clientInfo dto) st) = Ok tt ->
  Jwt.timespan (accessTokenExpiry cfg) <> None ->
  exists st',
    AuthService.login cfg bcryptCompare now challenge jti refreshTokenId dto st
    = (Throw (LibraryError (Jwt.alreadyInPayload "jwtid" "jti")), st') /\
    (let ip := AuthService.ip <$> AuthService.dto_clientInfo dto in
     let key := ("login_attempts:" +:+ Store.u_id user +:+ ":" +:+
                 (if Js.truthy ip then Js.show ip else "unknown"),
                 (now / 1000) / 300) in
     Store.counters st' !! key = Some (default 0 (Store.counters st !! key) + 1)) /\
    Store.refreshTokens st' = Store.refreshTokens st /\
    Store.redis st' = Store.redis st /\
    Store.users st' = Store.users st /\
    Store.auditLogs st' = Store.auditLogs st /\
    Store.authQueue st' = Store.authQueue st.
Proof.
  intros Hfind Hpw Hmfa Hrate Hexpiry.
  destruct (checkLoginRateLimit_run now (Store.u_id user)
              (AuthService.ip <$> AuthService.dto_clientInfo dto) st)
    as (r & Hrun & _).
  rewrite Hrun in Hrate. simpl in Hrate. subst r.
  eexists. split.
  - unfold AuthService.login. unfold bind at 1.
    rewrite (validateUserCredentials_ok _ _ _ _ user Hfind Hpw).
    unfold bind at 1, AuthService.checkAccountStatus, ret.
    unfold bind at 1. rewrite Hrun, Hmfa.
    unfold bind at 1. rewrite generateTokenPair_run.
    destruct (Jwt.timespan (accessTokenExpiry cfg)); [reflexivity | now destruct Hexpiry].
  - split; [apply lookup_insert_eq | repeat split].
Qed.

(** ** E-mail verification *)

Lemma find_map_same (P : Store.User -> bool) (f : Store.User -> Store.User)
  (users : list Store.User) :
  (forall u, P (f u) = P u) ->
  find P (List.map f users) = f <$> find P users.
Proof.
  intros HP. induction users as [|u users IH]; simpl; [reflexivity|].
  rewrite HP. destruct (P u); [reflexivity | exact IH].
Qed.

(** X23.  verifyEmail with the live token of a user sets the user's
    verified flag; from then on sendVerificationEmail for that address
    throws "Email already verified", and the same token presented again
    is refused. *)
Theorem verifyEmail_marks_the_address_verified
  (cfg : Config) (st : Store.State) (now now1 now2 : Z) (jti email : string)
  (user : Store.User) :
  fst (AuthService.findUserByEmail email st) = Ok (Some user) ->
  now1 / 1000 < now / 1000 + 86400 ->
  exists token st1 st',
    generateEmailVerificationToken cfg now jti (Store.u_id user) (Store.u_email user) st
      = (Ok token, st1) /\
    AuthFlows.verifyEmail cfg now1 token st1 = (Ok tt, st') /\
    fst (AuthService.findUserByEmail email st')
      = Ok (Some (AuthFlows.withEmailVerified user)) /\
    AuthService.sendVerificationEmail now2 email st'
      = (Throw (BadRequestException "Email already verified"), st') /\
    AuthFlows.verifyEmail cfg now2 token st'
      = (Throw (BadRequestException "Invalid or expired verification token"), st').
Proof.
  intros Hfind Hlive.
  set (userId := Store.u_id user).
  pose proof (singleUseToken_verify cfg "email_verification" 86400 now now1 jti userId
                (Store.u_email user) Hlive) as Hv.
  set (token := singleUseToken cfg "email_verification" 86400 now jti userId
                  (Store.u_email user)) in *.
  set (st1 := Store.setRedis (fun m =>
                <["email_verification:" +:+ userId := (token, now + 86400 * 1000)]> m) st).
  set (st2 := Store.setRedis (fun m => delete ("email_verification:" +:+ userId) m) st1).
  set (st3 := Store.setUsers (List.map (fun u =>
                if String.eqb (Store.u_id u) userId
                then AuthFlows.withEmailVerified u else u)) st2).
  set (st' := snd (AuthService.logAuthEvent userId "EMAIL_VERIFIED"
                     AuthService.noDetails st3)).
  assert (Hfind0 : find (fun u => String.eqb (Store.u_email u)
                                    (Js.trim (Js.toLowerCase email))) (Store.users st)
                   = Some user).
  { unfold AuthService.findUserByEmail in Hfind. run. simpl in Hfind.
    now injection Hfind. }
  assert (Hin : In user (Store.users st)) by now apply find_by_email_in in Hfind0.
  destruct (find_by_id_of_member _ _ Hin) as (u & Hu).
  assert (Hverify : verifyEmailToken cfg now1 token st1 =
            (Ok (Some {| td_userId := userId; td_email := Some (Store.u_email user);
                         td_type := "email_verification"; td_jti := None |}), st2)).
  { apply (verifySingleUse_hit cfg "email_verification" now1 _ _ _ Hv); [reflexivity|].
    simpl Jwt.sub. subst st1. rewrite redis_get_inserted.
    apply seconds_before_lapse in Hlive.
    destruct (Z.ltb_spec now1 (now + 86400 * 1000)); [reflexivity | lia]. }
  assert (Hfind' : fst (AuthService.findUserByEmail email st')
                   = Ok (Some (AuthFlows.withEmailVerified user))).
  { unfold AuthService.findUserByEmail. run. simpl.
    rewrite find_map_same by (intros v; destruct (String.eqb _ userId); reflexivity).
    rewrite Hfind0. simpl. subst userId. now rewrite String.eqb_refl. }
  exists token, st1, st'. split; [|split; [|split; [|split]]].
  - apply (generateSingleUse_run cfg "email_verification" "24h" 86400);
      [reflexivity | lia].
  - unfold AuthFlows.verifyEmail. unfold bind at 1. rewrite Hverify.
    cbn [td_userId]. unfold bind at 1.
    rewrite (updateUser_run userId _ st2 u); [reflexivity|].
    unfold AuthService.findUserById. run. simpl. subst userId. now rewrite Hu.
  - exact Hfind'.
  - unfold AuthService.sendVerificationEmail. unfold bind at 1.
    rewrite (findUserByEmail_run email st'), Hfind'. reflexivity.
  - unfold AuthFlows.verifyEmail. unfold bind at 1.
    rewrite verifyEmailToken_shape.
    rewrite (verifySingleUse_miss cfg "email_verification" now2 token st');
      [reflexivity|].
    intros p Hp. apply verify_Ok_signed in Hp. inversion Hp; subst p. simpl Jwt.sub.
    unfold RedisService.get. run. simpl. rewrite lookup_delete_eq. discriminate.
Qed.

(** ** The further properties on concrete data *)

(** X1 on the password of the registration example. *)
Lemma accepted_password_is_not_very_weak_witness :
  26 <= PasswordScoring.calculatePasswordStrength "Str0ng!Pass" <= 100 /\
  PasswordScoring.getPasswordStrengthDescription
    (PasswordScoring.calculatePasswordStrength "Str0ng!Pass") <> "Very Weak" /\
  (PasswordScoring.isCommonPassword "Str0ng!Pass" = false ->
   46 <= PasswordScoring.calculatePasswordStrength "Str0ng!Pass" /\
   PasswordScoring.getPasswordStrengthDescription
     (PasswordScoring.calculatePasswordStrength "Str0ng!Pass") <> "Weak").
Proof.
  apply (accepted_password_is_not_very_weak "Str0ng!Pass").
  vm_compute. reflexivity.
Defined.

(** X2 on a password of both lists. *)
Lemma validation_common_list_is_part_of_scorer_list_witness :
  PasswordScoring.isCommonPassword "Password123" = true.
Proof.
  apply (proj1 validation_common_list_is_part_of_scorer_list "Password123").
  vm_compute. reflexivity.
Defined.

(** X3 on a request for eight characters. *)
Lemma generated_password_may_fail_only_on_runs_witness :
  let outcome :=
    PasswordService.validatePasswordStrength
      (PasswordService.generateRandomPassword Scenario.random
         PasswordService.insertionSort 8) in
  outcome = Ok tt \/
  outcome = Throw (ValidationError
                     "Password should not contain 3 or more sequential characters"
                     "password") \/
  outcome = Throw (ValidationError
                     "Password should not contain 3 or more repeating characters"
                     "password").
Proof.
  apply (proj1 generated_password_may_fail_only_on_runs Scenario.random
           PasswordService.insertionSort 8).
  - exact scenario_random_range.
  - exact insertionSort_perm.
  - lia.
Defined.

(** X6 on Ann's access token, revoked at 30 s and presented at 60 s. *)
Lemma revokeAccessToken_blocks_the_token_witness :
  exists st',
    revokeAccessToken 30000 "j1" None Scenario.annSession = (Ok tt, st') /\
    verifyAccessToken Scenario.longLived 60000 (fst Scenario.annTokens) st'
    = (Ok None, st').
Proof.
  apply (revokeAccessToken_blocks_the_token Scenario.longLived 30000 60000 "j1" None
           (jwtSecret Scenario.longLived)
           (accessPayload Scenario.longLived 900 0 "j1" Scenario.ann)
           Scenario.annSession).
  - discriminate.
  - reflexivity.
  - vm_compute. reflexivity.
Defined.

(** X7 on Ann's session. *)
Lemma revokeAllUserTokens_ends_every_session_witness :
  fst (verifyRefreshToken Scenario.longLived 60000 (snd Scenario.annTokens)
         (snd (revokeAllUserTokens 30000 "u1" Scenario.annSession))) = Ok None /\
  Store.refreshTokens (snd (revokeAllUserTokens 30000 "u2" Scenario.annSession)) !! "r1"
  = Some (refreshRow Scenario.longLived 2592000 0 "r1" Scenario.ann).
Proof.
  split.
  - apply (proj1 (revokeAllUserTokens_ends_every_session Scenario.longLived 30000 "u1"
                    Scenario.annSession)
             60000 (refreshPayload Scenario.longLived 2592000 0 "r1" Scenario.ann) "r1"
             (refreshRow Scenario.longLived 2592000 0 "r1" Scenario.ann)).
    + reflexivity.
    + vm_compute. reflexivity.
    + reflexivity.
  - apply (proj2 (revokeAllUserTokens_ends_every_session Scenario.longLived 30000 "u2"
                    Scenario.annSession)
             "r1" (refreshRow Scenario.longLived 2592000 0 "r1" Scenario.ann)).
    + vm_compute. reflexivity.
    + discriminate.
Defined.

(** X8 on Ann's session, swept on day 1 and verified on day 2. *)
Lemma sweep_changes_no_verification_witness :
  fst (verifyRefreshToken Scenario.longLived (2 * Scenario.day) (snd Scenario.annTokens)
         (snd (cleanExpiredTokens Scenario.day Scenario.annSession)))
  = fst (verifyRefreshToken Scenario.longLived (2 * Scenario.day) (snd Scenario.annTokens)
           Scenario.annSession) /\
  snd (cleanExpiredTokens Scenario.day (snd (cleanExpiredTokens Scenario.day
                                               Scenario.annSession)))
  = snd (cleanExpiredTokens Scenario.day Scenario.annSession).
Proof.
  apply (sweep_changes_no_verification Scenario.longLived Scenario.day
           (2 * Scenario.day) (snd Scenario.annTokens) Scenario.annSession).
  vm_compute. discriminate.
Defined.


(** X13 on the administrator. *)
Lemma getUserPermissions_is_the_union_of_the_role_tables_witness :
  In "questions:review" (getUserPermissions Samples.root) /\
  ~ In "games:join" (getUserPermissions Samples.root).
Proof.
  destruct (getUserPermissions_is_the_union_of_the_role_tables Samples.root)
    as (_ & _ & Hteacher & Hjoin).
  split.
  - apply Hteacher; [left; reflexivity | simpl; tauto].
  - rewrite Hjoin. unfold Permissions.hasRole. simpl. intros [H | []]. discriminate.
Defined.

(** X14 on a signed expiry. *)
Lemma parseExpiryToSeconds_is_never_negative_witness :
  parseExpiryToSeconds "-5m" = 3600.
Proof.
  apply (proj1 (proj2 (parseExpiryToSeconds_is_never_negative "-5m")) "-"%char "5m");
    reflexivity.
Defined.

(** X15 on Ann's session: she logs out without presenting her token. *)
Lemma logout_ends_every_session_witness :
  exists st',
    AuthFlows.logout Scenario.longLived 30000 "u1" None Scenario.annSession = (Ok tt, st') /\
    verifyRefreshToken Scenario.longLived 60000 (snd Scenario.annTokens) st'
    = (Ok None, st').
Proof.
  destruct (logout_ends_every_session Scenario.longLived 30000 "u1" None
              Scenario.annSession) as (st' & Hrun & Hend & _).
  exists st'. split; [exact Hrun|].
  apply (Hend 60000 (refreshPayload Scenario.longLived 2592000 0 "r1" Scenario.ann) "r1"
           (refreshRow Scenario.longLived 2592000 0 "r1" Scenario.ann)).
  - reflexivity.
  - vm_compute. reflexivity.
  - reflexivity.
Defined.

(** X16 on an address nobody registered and on Ann's. *)
Lemma sendPasswordResetEmail_hides_unknown_addresses_witness :
  AuthFlows.sendPasswordResetEmail 0 "nobody@x.com" Scenario.initial
    = (Ok tt, Scenario.initial) /\
  exists st',
    AuthFlows.sendPasswordResetEmail 0 "a@x.com" Scenario.initial = (Ok tt, st') /\
    Store.authQueue st' =
      [ {| Store.job_name := "send-password-reset-email";
           Store.job_userId := "u1"; Store.job_email := "a@x.com";
           Store.job_nickname := Some "Ann" |} ].
Proof.
  split.
  - apply (proj1 (sendPasswordResetEmail_hides_unknown_addresses 0 "nobody@x.com"
                    Scenario.initial)).
    vm_compute. reflexivity.
  - apply (proj2 (sendPasswordResetEmail_hides_unknown_addresses 0 "a@x.com"
                    Scenario.initial) Scenario.ann).
    + vm_compute. reflexivity.
    + vm_compute. reflexivity.
Defined.

(** X17 on Ann's reset token, first used with a password that is too
    short. *)
Lemma resetPassword_with_weak_password_uses_up_the_token_witness :
  exists token st1 st2,
    generatePasswordResetToken defaultConfig 0 "j9" "u1" "a@x.com" Scenario.annSession
      = (Ok token, st1) /\
    AuthFlows.resetPassword defaultConfig Samples.bcryptHash 60000 token "short" st1
      = (Throw (ValidationError "Password must be at least 8 characters long" "password"),
         st2) /\
    Store.users st2 = Store.users Scenario.annSession /\
    Store.refreshTokens st2 = Store.refreshTokens Scenario.annSession /\
    Store.redis st2 !! "password_reset:u1" = None /\
    AuthFlows.resetPassword defaultConfig Samples.bcryptHash 120000 token "N3w#Secret" st2
      = (Throw (BadRequestException "Invalid or expired reset token"), st2).
Proof.
  apply (resetPassword_with_weak_password_uses_up_the_token defaultConfig
           Samples.bcryptHash Scenario.annSession 0 60000 120000 "j9" "u1" "a@x.com"
           "short" "N3w#Secret").
  - vm_compute. reflexivity.
  - vm_compute. reflexivity.
Defined.

(** X18 on Ann's reset token, used with an acceptable password. *)
Lemma resetPassword_replaces_the_hash_and_ends_sessions_witness :
  exists token st1 st',
    generatePasswordResetToken Scenario.longLived 0 "j9" "u1" "a@x.com"
      Scenario.annSession = (Ok token, st1) /\
    AuthFlows.resetPassword Scenario.longLived Samples.bcryptHash 60000 token
      "N3w#Secret" st1 = (Ok tt, st') /\
    fst (AuthService.findUserById "u1" st')
      = Ok (Some {| Store.u_id := "u1"; Store.u_email := "a@x.com";
                      Store.u_passwordHash := "hash:N3w#Secret";
                      Store.u_nickname := Some "Ann"; Store.u_roles := ["STUDENT"];
                      Store.u_emailVerified := false; Store.u_mfaEnabled := false;
                      Store.u_mfaSecret := None;
                      Store.u_lastLoginAt := None; Store.u_lastActivityAt := None |}) /\
    verifyRefreshToken Scenario.longLived 90000 (snd Scenario.annTokens) st'
      = (Ok None, st').
Proof.
  destruct (resetPassword_replaces_the_hash_and_ends_sessions Scenario.longLived
              Samples.bcryptHash Scenario.annSession 0 60000 "j9" "u1" "a@x.com"
              "N3w#Secret" "hash:N3w#Secret" Scenario.ann)
    as (token & st1 & st' & Hgen & Hrun & Huser & Hend).
  - vm_compute. reflexivity.
  - vm_compute. reflexivity.
  - reflexivity.
  - vm_compute. reflexivity.
  - exists token, st1, st'. repeat split; [exact Hgen | exact Hrun | exact Huser |].
    apply (Hend 90000 (refreshPayload Scenario.longLived 2592000 0 "r1" Scenario.ann) "r1"
             (refreshRow Scenario.longLived 2592000 0 "r1" Scenario.ann)).
    + reflexivity.
    + vm_compute. reflexivity.
    + reflexivity.
Defined.

(** X19 on Ann giving a wrong current password. *)
Lemma changePassword_is_all_or_nothing_witness :
  AuthFlows.changePassword Scenario.bcryptCompare Samples.bcryptHash 30000 "u1"
    "wrong" "N3w#Secret" Scenario.annSession
  = (Throw (UnauthorizedError "Invalid current password"), Scenario.annSession).
Proof.
  apply (proj2 (changePassword_is_all_or_nothing Scenario.bcryptCompare
                  Samples.bcryptHash 30000 "u1" "wrong" "N3w#Secret" Scenario.annSession)
           Scenario.ann).
  - vm_compute. reflexivity.
  - vm_compute. reflexivity.
Defined.

(** X20 on Ann changing her password during her session. *)
Lemma changePassword_replaces_the_hash_and_ends_sessions_witness :
  exists st',
    AuthFlows.changePassword Scenario.bcryptCompare Samples.bcryptHash 30000 "u1"
      "Str0ng!Pass" "N3w#Secret" Scenario.annSession = (Ok tt, st') /\
    fst (AuthService.findUserById "u1" st')
      = Ok (Some {| Store.u_id := "u1"; Store.u_email := "a@x.com";
                      Store.u_passwordHash := "hash:N3w#Secret";
                      Store.u_nickname := Some "Ann"; Store.u_roles := ["STUDENT"];
                      Store.u_emailVerified := false; Store.u_mfaEnabled := false;
                      Store.u_mfaSecret := None;
                      Store.u_lastLoginAt := None; Store.u_lastActivityAt := None |}) /\
    verifyRefreshToken Scenario.longLived 90000 (snd Scenario.annTokens) st'
      = (Ok None, st').
Proof.
  destruct (changePassword_replaces_the_hash_and_ends_sessions Scenario.longLived
              Scenario.bcryptCompare Samples.bcryptHash 30000 "u1" "Str0ng!Pass"
              "N3w#Secret" "hash:N3w#Secret" Scenario.ann Scenario.annSession)
    as (st' & Hrun & Huser & Hend & _).
  - vm_compute. reflexivity.
  - vm_compute. reflexivity.
  - vm_compute. reflexivity.
  - reflexivity.
  - exists st'. repeat split; [exact Hrun | exact Huser |].
    apply (Hend 90000 (refreshPayload Scenario.longLived 2592000 0 "r1" Scenario.ann) "r1"
             (refreshRow Scenario.longLived 2592000 0 "r1" Scenario.ann)).
    + reflexivity.
    + vm_compute. reflexivity.
    + reflexivity.
Defined.

(** X21 on Ann's login with the right password. *)
Lemma login_with_right_password_stops_at_the_signer_witness :
  exists st',
    AuthService.login Scenario.longLived Scenario.bcryptCompare 0 "c1" "j1" "r1"
      (Samples.annLogin "Str0ng!Pass") Samples.people
    = (Throw (LibraryError (Jwt.alreadyInPayload "jwtid" "jti")), st') /\
    Store.counters st' !! ("login_attempts:u1:10.0.0.7", 0) = Some 1 /\
    Store.refreshTokens st' = Store.refreshTokens Samples.people /\
    Store.redis st' = Store.redis Samples.people /\
    Store.users st' = Store.users Samples.people /\
    Store.auditLogs st' = Store.auditLogs Samples.people /\
    Store.authQueue st' = Store.authQueue Samples.people.
Proof.
  apply (login_with_right_password_stops_at_the_signer Scenario.longLived
           Scenario.bcryptCompare 0 "c1" "j1" "r1" (Samples.annLogin "Str0ng!Pass")
           Samples.people Scenario.ann).
  - vm_compute. reflexivity.
  - vm_compute. reflexivity.
  - reflexivity.
  - vm_compute. reflexivity.
  - vm_compute. discriminate.
Defined.

(** X22 on Mia, who has the second factor enabled. *)
Lemma login_with_mfa_issues_no_session_witness :
  exists st',
    AuthService.login Scenario.longLived Scenario.bcryptCompare 0 "c1" "j1" "r1"
      Samples.miaLogin Samples.people
    = (Ok {| AuthService.ar_user := None; AuthService.ar_tokens := None;
             AuthService.ar_requiresMfa := Some true;
             AuthService.ar_mfaToken := Some "c1" |}, st') /\
    Store.refreshTokens st' = Store.refreshTokens Samples.people /\
    Store.users st' = Store.users Samples.people /\
    (forall id, Store.redis st' !! ("access_token:" +:+ id)
                = Store.redis Samples.people !! ("access_token:" +:+ id)).
Proof.
  apply (login_with_mfa_issues_no_session Scenario.longLived Scenario.bcryptCompare
           0 "c1" "j1" "r1" Samples.miaLogin Samples.people Samples.mia).
  - vm_compute. reflexivity.
  - vm_compute. reflexivity.
  - reflexivity.
  - vm_compute. reflexivity.
Defined.

(** X23 on Ann, whose address is not yet verified. *)
Lemma verifyEmail_marks_the_address_verified_witness :
  exists token st1 st',
    generateEmailVerificationToken defaultConfig 0 "j9" "u1" "a@x.com" Scenario.initial
      = (Ok token, st1) /\
    AuthFlows.verifyEmail defaultConfig 60000 token st1 = (Ok tt, st') /\
    fst (AuthService.findUserByEmail "a@x.com" st')
      = Ok (Some (AuthFlows.withEmailVerified Scenario.ann)) /\
    AuthService.sendVerificationEmail 120000 "a@x.com" st'
      = (Throw (BadRequestException "Email already verified"), st') /\
    AuthFlows.verifyEmail defaultConfig 120000 token st'
      = (Throw (BadRequestException "Invalid or expired verification token"), st').
Proof.
  apply (verifyEmail_marks_the_address_verified defaultConfig Scenario.initial
           0 60000 120000 "j9" "a@x.com" Scenario.ann).
  - vm_compute. reflexivity.
  - vm_compute. reflexivity.
Defined.

(** X24 on Ann's login with a wrong password. *)
Lemma failed_login_is_not_rate_limited_witness :
  Store.counters
    (snd (AuthService.login Scenario.longLived Scenario.bcryptCompare 0 "c1" "j1" "r1"
            (Samples.annLogin "wrong") Samples.people))
  = Store.counters Samples.people.
Proof.
  apply (failed_login_is_not_rate_limited Scenario.longLived Scenario.bcryptCompare
           0 "c1" "j1" "r1" (Samples.annLogin "wrong") Samples.people
           (snd (AuthService.login Scenario.longLived Scenario.bcryptCompare 0 "c1" "j1"
                   "r1" (Samples.annLogin "wrong") Samples.people))).
  vm_compute. reflexivity.
Defined.
